(** * Portfolio Tracker MCP server: the tool invocation layer

    A shallow embedding of [mcp/portfolio_mcp/server.py]: the input models
    (pydantic), the error classifier [_handle_error], the numeric formatters
    [_fmt_usd], [_fmt_pct], [_fmt_qty], [json.dumps(data, indent=2)] with
    [json.loads], and the ten tool handlers.

    Conventions.
    - A Python [str] is a [string]; one [ascii] stands for one code point
      below 256.
    - A Python [float] is a [spec_float] read as binary64 (precision 53,
      infinities at exponent 1024); a Python [int] is a [Z].
    - A payload decoded by [resp.json()] is a [json] value; a [dict] keeps
      its insertion order and is an association list.
    - An exception is a value of [exn]; code that may raise returns
      [result]; [try: ... except Exception as e: return _handle_error(e)]
      is [try_except]. *)

From Stdlib Require Import ZArith List String Ascii Bool Lia.
From Stdlib Require Import DecimalString DecimalN DecimalZ DecimalPos DecimalFacts.
From Stdlib Require Import Floats.SpecFloat.
From Stdlib Require Import Sorting.Sorted Sorting.Permutation.
Import ListNotations.

Local Open Scope list_scope.
Local Open Scope string_scope.
Local Open Scope Z_scope.

#[local] Set Warnings "-register-all".

(** ** Strings *)

Module PyStr.

Definition dquote : ascii := "034"%char.
Definition squote : ascii := "039"%char.
Definition backslash : ascii := "092"%char.
Definition nl : string := String "010"%char "".

(** [sep.join(l)] *)
Definition join (sep : string) (l : list string) : string := String.concat sep l.

Definition code (c : ascii) : Z := Z.of_nat (nat_of_ascii c).
Definition chr (n : Z) : ascii := ascii_of_nat (Z.to_nat n).

Definition is_digit (c : ascii) : bool := (48 <=? code c) && (code c <=? 57).

Definition digit_char (d : Z) : ascii := chr (48 + d).

(** [str(n)] for a natural number and for an integer. *)
Definition dec (n : N) : string := NilZero.string_of_uint (N.to_uint n).
Definition str_int (z : Z) : string := NilZero.string_of_int (Z.to_int z).

Fixpoint all_chars (p : ascii -> bool) (s : string) : bool :=
  match s with
  | EmptyString => true
  | String c s' => p c && all_chars p s'
  end.

(** [s[:n]] *)
Fixpoint take (n : nat) (s : string) : string :=
  match n, s with
  | O, _ => ""
  | S n', String c s' => String c (take n' s')
  | S _, EmptyString => ""
  end.

Fixpoint repeat_char (c : ascii) (n : nat) : string :=
  match n with
  | O => ""
  | S n' => String c (repeat_char c n')
  end.

(** [needle in s] *)
Fixpoint contains (needle s : string) : bool :=
  prefix needle s
  || match s with
     | EmptyString => false
     | String _ s' => contains needle s'
     end.

(** [s.endswith(suffix)] *)
Fixpoint ends_with (suffix s : string) : bool :=
  String.eqb suffix s
  || match s with
     | EmptyString => false
     | String _ s' => ends_with suffix s'
     end.

End PyStr.
Import PyStr.

(** ** Floats: binary64 and its decimal renderings *)

Module PyFloat.

Definition float : Type := spec_float.

Definition prec : Z := 53.
Definition emax : Z := 1024.

Definition fzero : float := S754_zero false.

(** [float(n)] for an [int]: the nearest binary64, ties to even; [None]
    stands for [OverflowError]. *)
Definition of_Z (n : Z) : option float :=
  match binary_normalize prec emax n 0 false with
  | S754_infinity _ => None
  | f => Some f
  end.

(** The sign of [m1 * 2^e1 - m2 * 2^e2]. *)
Definition cmp_dyadic (m1 e1 m2 e2 : Z) : comparison :=
  let e := Z.min e1 e2 in
  (m1 * 2 ^ (e1 - e) ?= m2 * 2 ^ (e2 - e)).

(** A finite float as a signed mantissa and an exponent. *)
Definition dyadic (f : float) : option (Z * Z) :=
  match f with
  | S754_zero _ => Some (0, 0)
  | S754_finite s m e => Some (if s then Zneg m else Zpos m, e)
  | _ => None
  end.

(** The comparison of two floats by value: [None] when one is a NaN. *)
Definition compare (x y : float) : option comparison :=
  match x, y with
  | S754_nan, _ | _, S754_nan => None
  | S754_infinity s1, S754_infinity s2 =>
      Some (match s1, s2 with
            | true, false => Lt
            | false, true => Gt
            | _, _ => Eq
            end)
  | S754_infinity s, _ => Some (if s then Lt else Gt)
  | _, S754_infinity s => Some (if s then Gt else Lt)
  | _, _ =>
      match dyadic x, dyadic y with
      | Some (m1, e1), Some (m2, e2) => Some (cmp_dyadic m1 e1 m2 e2)
      | _, _ => None
      end
  end.

(** The comparison of a float with an [int], exact as Python's. *)
Definition compare_Z (x : float) (n : Z) : option comparison :=
  match x with
  | S754_nan => None
  | S754_infinity s => Some (if s then Lt else Gt)
  | _ =>
      match dyadic x with
      | Some (m, e) => Some (cmp_dyadic m e n 0)
      | None => None
      end
  end.

Definition abs (x : float) : float := SFabs x.
Definition sub (x y : float) : float := SFsub prec emax x y.
Definition mul (x y : float) : float := SFmul prec emax x y.
Definition div (x y : float) : float := SFdiv prec emax x y.

Definition is_zero (x : float) : bool :=
  match x with
  | S754_zero _ => true
  | _ => false
  end.

(** *** The presentation type ['f']: [format(x, ".{p}f")], [format(x, ",.{p}f")] *)

(** The integer nearest to [n / d], ties to even ([0 <= n], [0 < d]). *)
Definition round_half_even (n d : Z) : Z :=
  let q := n / d in
  match 2 * (n mod d) ?= d with
  | Lt => q
  | Gt => q + 1
  | Eq => if Z.even q then q else q + 1
  end.

(** The integer nearest to [m * 2^e * 10^p], ties to even. *)
Definition scaled (m : positive) (e : Z) (p : nat) : Z :=
  match e with
  | Zneg k => round_half_even (Zpos m * 10 ^ Z.of_nat p) (2 ^ Zpos k)
  | _ => Zpos m * 2 ^ e * 10 ^ Z.of_nat p
  end.

(** The last [p] decimal digits of [r], zero padded. *)
Fixpoint frac_digits (p : nat) (r : Z) : string :=
  match p with
  | O => ""
  | S p' => frac_digits p' (r / 10) ++ String (digit_char (r mod 10)) ""
  end.

(** The thousands separator of the [','] option; [n] is the length of [s]. *)
Fixpoint group3_from (n : nat) (s : string) : string :=
  match s with
  | EmptyString => ""
  | String c s' =>
      String c
        (match s' with
         | EmptyString => ""
         | _ =>
             if Nat.eqb (Nat.modulo (Nat.pred n) 3) 0
             then String "," (group3_from (Nat.pred n) s')
             else group3_from (Nat.pred n) s'
         end)
  end.

Definition group3 (s : string) : string := group3_from (String.length s) s.

Definition int_part (grouped : bool) (q : Z) : string :=
  if grouped then group3 (dec (Z.to_N q)) else dec (Z.to_N q).

(** The digits of the scaled integer [n = round(|x| * 10^p)]. *)
Definition fixed (grouped : bool) (p : nat) (n : Z) : string :=
  int_part grouped (n / 10 ^ Z.of_nat p)
  ++ match p with
     | O => ""
     | _ => "." ++ frac_digits p (n mod 10 ^ Z.of_nat p)
     end.

Definition sign_str (s : bool) : string := if s then "-" else "".

Definition format_f (grouped : bool) (p : nat) (x : float) : string :=
  match x with
  | S754_nan => "nan"
  | S754_infinity s => sign_str s ++ "inf"
  | S754_zero s => sign_str s ++ fixed grouped p 0
  | S754_finite s m e => sign_str s ++ fixed grouped p (scaled m e p)
  end.

(** *** [float(text)] on a decimal literal: the nearest binary64, ties to even *)

(** The float nearest to [(-1)^s * d * 10^k]; an overflow is an infinity. *)
Definition of_decimal (s : bool) (d : N) (k : Z) : float :=
  match d with
  | N0 => S754_zero s
  | Npos m =>
      match k with
      | Zneg _ =>
          SFdiv prec emax (S754_finite s m 0)
            (S754_finite false (Z.to_pos (10 ^ (- k))) 0)
      | _ => binary_normalize prec emax (cond_Zopp s (Zpos m * 10 ^ k)) 0 s
      end
  end.

(** *** [repr(x)]: the shortest decimal string that reads back as [x] *)

(** The sign of [m * 2^e - d * 10^k]. *)
Definition cmp_bin_dec (m e d k : Z) : comparison :=
  (m * 2 ^ Z.max e 0 * 10 ^ Z.max (- k) 0
   ?= d * 10 ^ Z.max k 0 * 2 ^ Z.max (- e) 0).

(** The floor of [m * 2^e / 10^k]. *)
Definition floor_scaled (m e k : Z) : Z :=
  (m * 2 ^ Z.max e 0 * 10 ^ Z.max (- k) 0)
  / (10 ^ Z.max k 0 * 2 ^ Z.max (- e) 0).

(** The [p] with [10^p <= m * 2^e < 10^(p+1)]. *)
Definition decimal_exponent (m : positive) (e : Z) : Z :=
  let p0 := (Z.log2 (Zpos m) + e) * 30103 / 100000 in
  match cmp_bin_dec (Zpos m) e 1 p0 with
  | Lt => p0 - 1
  | _ =>
      match cmp_bin_dec (Zpos m) e 1 (p0 + 1) with
      | Lt => p0
      | _ => p0 + 1
      end
  end.

Definition reads_back (m : positive) (e : Z) (d k : Z) : bool :=
  match of_decimal false (Z.to_N d) k with
  | S754_finite false m' e' => Pos.eqb m' m && Z.eqb e' e
  | _ => false
  end.

(** Of [lo * 10^k] and [(lo + 1) * 10^k], the nearer to [m * 2^e]; the even
    one on a tie. *)
Definition nearer (m : positive) (e : Z) (lo k : Z) : Z :=
  match cmp_bin_dec (2 * Zpos m) e (2 * lo + 1) k with
  | Lt => lo
  | Gt => lo + 1
  | Eq => if Z.even lo then lo else lo + 1
  end.

(** The shortest [d * 10^k] with [n], [n + 1], ... digits that reads back
    as [m * 2^e]; with no fuel left, the nearest one of [n] digits. *)
Fixpoint shortest_from (fuel : nat) (n : Z) (m : positive) (e p : Z) : Z * Z :=
  let k := p - n + 1 in
  let lo := floor_scaled (Zpos m) e k in
  match fuel with
  | O => (nearer m e lo k, k)
  | S fuel' =>
      match reads_back m e lo k, reads_back m e (lo + 1) k with
      | true, true => (nearer m e lo k, k)
      | true, false => (lo, k)
      | false, true => (lo + 1, k)
      | false, false => shortest_from fuel' (n + 1) m e p
      end
  end.

Fixpoint strip_zeros (fuel : nat) (d k : Z) : Z * Z :=
  match fuel with
  | O => (d, k)
  | S fuel' =>
      if (d mod 10 =? 0) && (0 <? d) then strip_zeros fuel' (d / 10) (k + 1)
      else (d, k)
  end.

(** The digits of [repr] and the position of the decimal point:
    [m * 2^e] reads [0.d1d2...dn * 10^decpt]. *)
Definition shortest_digits (m : positive) (e : Z) : string * Z :=
  let '(d, k) := shortest_from 16 1 m e (decimal_exponent m e) in
  let '(d, k) := strip_zeros 17 d k in
  let ds := dec (Z.to_N d) in
  (ds, Z.of_nat (String.length ds) + k).

Fixpoint drop (n : nat) (s : string) : string :=
  match n, s with
  | O, _ => s
  | S n', String _ s' => drop n' s'
  | S _, EmptyString => ""
  end.

Definition zeros (n : Z) : string := repeat_char "0" (Z.to_nat n).

Definition repr_finite (ds : string) (decpt : Z) : string :=
  let len := Z.of_nat (String.length ds) in
  if (decpt <=? -4) || (16 <? decpt) then
    let x := decpt - 1 in
    take 1 ds
    ++ (if 1 <? len then "." ++ drop 1 ds else "")
    ++ "e" ++ (if x <? 0 then "-" else "+")
    ++ (if Z.abs x <? 10 then "0" else "") ++ dec (Z.to_N (Z.abs x))
  else if decpt <=? 0 then "0." ++ zeros (- decpt) ++ ds
  else if len <=? decpt then ds ++ zeros (decpt - len) ++ ".0"
  else take (Z.to_nat decpt) ds ++ "." ++ drop (Z.to_nat decpt) ds.

(** [repr(x)], which is also [str(x)]. *)
Definition repr (x : float) : string :=
  match x with
  | S754_nan => "nan"
  | S754_infinity s => sign_str s ++ "inf"
  | S754_zero s => sign_str s ++ "0.0"
  | S754_finite s m e =>
      let '(ds, decpt) := shortest_digits m e in
      sign_str s ++ repr_finite ds decpt
  end.

End PyFloat.
Import PyFloat.

(** ** Python values, exceptions and the dynamic operations the server uses *)

Module Py.

(** A value decoded from JSON: [None], [bool], [int], [float], [str],
    [list] and [dict] (keys are [str], in insertion order). *)
Inductive json : Type :=
| JNull
| JBool (b : bool)
| JInt (n : Z)
| JFloat (f : float)
| JStr (s : string)
| JList (l : list json)
| JDict (d : list (string * json)).

(** The exceptions [_handle_error] tells apart; every other class is
    [Exception] with [type(e).__name__] and [str(e)].  An
    [httpx.HTTPStatusError] carries its response: the status code, the
    body text, and what [response.json()] returns ([None] when it raises). *)
Inductive exn : Type :=
| HTTPStatusError (status_code : Z) (text : string) (json_body : option json)
| TimeoutException
| ConnectError
| Exception (type_name message : string).

Inductive result (A : Type) : Type :=
| Ok (a : A)
| Raise (e : exn).
Arguments Ok {A} a.
Arguments Raise {A} e.

Definition bind {A B : Type} (r : result A) (k : A -> result B) : result B :=
  match r with
  | Ok a => k a
  | Raise e => Raise e
  end.

Notation "x <- r ;; k" := (bind r (fun x => k))
  (at level 61, r at next level, right associativity).

Definition TypeError {A} (msg : string) : result A := Raise (Exception "TypeError" msg).
Definition AttributeError {A} (msg : string) : result A := Raise (Exception "AttributeError" msg).
Definition KeyError {A} (msg : string) : result A := Raise (Exception "KeyError" msg).
Definition ValueError {A} (msg : string) : result A := Raise (Exception "ValueError" msg).
Definition OverflowError {A} (msg : string) : result A := Raise (Exception "OverflowError" msg).
Definition ZeroDivisionError {A} (msg : string) : result A := Raise (Exception "ZeroDivisionError" msg).

(** [for x in xs: ...] with a body that may raise, collecting the lines. *)
Fixpoint mapM {A B : Type} (f : A -> result B) (l : list A) : result (list B) :=
  match l with
  | [] => Ok []
  | x :: l' => y <- f x ;; ys <- mapM f l' ;; Ok (y :: ys)
  end.

(** [type(v).__name__] *)
Definition type_name (v : json) : string :=
  match v with
  | JNull => "NoneType"
  | JBool _ => "bool"
  | JInt _ => "int"
  | JFloat _ => "float"
  | JStr _ => "str"
  | JList _ => "list"
  | JDict _ => "dict"
  end.

Definition quoted (s : string) : string := "'" ++ s ++ "'".

Fixpoint lookup (key : string) (d : list (string * json)) : option json :=
  match d with
  | [] => None
  | (k, v) :: d' => if String.eqb k key then Some v else lookup key d'
  end.

(** *** [repr] and [str] *)

Definition hex_digit (n : Z) : ascii :=
  if n <? 10 then chr (48 + n) else chr (87 + n).

Definition hex2 (c : ascii) : string :=
  String (hex_digit (code c / 16)) (String (hex_digit (code c mod 16)) "").

(** [str.isprintable] on one code point below 256. *)
Definition is_printable (c : ascii) : bool :=
  (32 <=? code c) && negb ((127 <=? code c) && (code c <=? 160))
  && negb (code c =? 173).

Fixpoint has_char (c : ascii) (s : string) : bool :=
  match s with
  | EmptyString => false
  | String c' s' => Ascii.eqb c c' || has_char c s'
  end.

Fixpoint repr_chars (quote : ascii) (s : string) : string :=
  match s with
  | EmptyString => ""
  | String c s' =>
      (if Ascii.eqb c quote || Ascii.eqb c backslash
       then String backslash (String c "")
       else if code c =? 9 then String backslash "t"
       else if code c =? 10 then String backslash "n"
       else if code c =? 13 then String backslash "r"
       else if is_printable c then String c ""
       else String backslash ("x" ++ hex2 c))
      ++ repr_chars quote s'
  end.

(** [repr(s)] for a [str]: single quotes, unless the text holds one and
    no double quote. *)
Definition repr_str (s : string) : string :=
  let quote := if has_char squote s && negb (has_char dquote s)
               then dquote else squote in
  String quote (repr_chars quote s ++ String quote "").

Fixpoint py_repr (v : json) : string :=
  match v with
  | JNull => "None"
  | JBool b => if b then "True" else "False"
  | JInt n => str_int n
  | JFloat f => PyFloat.repr f
  | JStr s => repr_str s
  | JList l => "[" ++ join ", " (List.map py_repr l) ++ "]"
  | JDict d =>
      "{" ++ join ", " (List.map (fun kv => repr_str (fst kv) ++ ": " ++ py_repr (snd kv)) d)
      ++ "}"
  end.

(** [str(v)], which a replacement field [{v}] of an f-string inserts. *)
Definition py_str (v : json) : string :=
  match v with
  | JStr s => s
  | _ => py_repr v
  end.

(** *** Truth, length, iteration, subscripts *)

(** [bool(v)] *)
Definition py_truthy (v : json) : bool :=
  match v with
  | JNull => false
  | JBool b => b
  | JInt n => negb (n =? 0)
  | JFloat f => negb (PyFloat.is_zero f)
  | JStr s => negb (String.eqb s "")
  | JList l => match l with [] => false | _ => true end
  | JDict d => match d with [] => false | _ => true end
  end.

(** [v == s] for a [str] literal [s] *)
Definition py_eq_str (v : json) (s : string) : bool :=
  match v with
  | JStr s' => String.eqb s' s
  | _ => false
  end.

(** [len(v)] *)
Definition py_len (v : json) : result Z :=
  match v with
  | JStr s => Ok (Z.of_nat (String.length s))
  | JList l => Ok (Z.of_nat (List.length l))
  | JDict d => Ok (Z.of_nat (List.length d))
  | _ => TypeError ("object of type " ++ quoted (type_name v) ++ " has no len()")
  end.

Fixpoint chars (s : string) : list json :=
  match s with
  | EmptyString => []
  | String c s' => JStr (String c "") :: chars s'
  end.

(** The items [for x in v] goes through. *)
Definition py_iter (v : json) : result (list json) :=
  match v with
  | JList l => Ok l
  | JDict d => Ok (List.map (fun kv => JStr (fst kv)) d)
  | JStr s => Ok (chars s)
  | _ => TypeError (quoted (type_name v) ++ " object is not iterable")
  end.

Definition not_subscriptable {A} (v : json) : result A :=
  TypeError (quoted (type_name v) ++ " object is not subscriptable").

(** [v.get(key, default)] *)
Definition py_get (v : json) (key : string) (default : json) : result json :=
  match v with
  | JDict d =>
      Ok (match lookup key d with
          | Some x => x
          | None => default
          end)
  | _ => AttributeError (quoted (type_name v) ++ " object has no attribute 'get'")
  end.

(** [v[key]] for a [str] key *)
Definition py_getitem (v : json) (key : string) : result json :=
  match v with
  | JDict d =>
      match lookup key d with
      | Some x => Ok x
      | None => KeyError (repr_str key)
      end
  | JStr _ => TypeError "string indices must be integers, not 'str'"
  | JList _ => TypeError "list indices must be integers or slices, not str"
  | _ => not_subscriptable v
  end.

(** [v[0]] *)
Definition py_first (v : json) : result json :=
  match v with
  | JList (x :: _) => Ok x
  | JList [] => Raise (Exception "IndexError" "list index out of range")
  | JStr (String c _) => Ok (JStr (String c ""))
  | JStr EmptyString => Raise (Exception "IndexError" "string index out of range")
  | JDict _ => KeyError "0"
  | _ => not_subscriptable v
  end.

(** [v[-1]] *)
Definition py_last (v : json) : result json :=
  match v with
  | JList l =>
      match List.rev l with
      | x :: _ => Ok x
      | [] => Raise (Exception "IndexError" "list index out of range")
      end
  | JStr s =>
      match List.rev (chars s) with
      | x :: _ => Ok x
      | [] => Raise (Exception "IndexError" "string index out of range")
      end
  | JDict _ => KeyError "-1"
  | _ => not_subscriptable v
  end.

Definition unhashable_slice {A} : result A := TypeError "unhashable type: 'slice'".

(** [l[-n:]] on a list: its last [n] items (all of them when there are fewer). *)
Definition last_n {A : Type} (n : nat) (l : list A) : list A :=
  List.skipn (List.length l - n) l.

(** [v[:n]] *)
Definition py_slice_to (n : nat) (v : json) : result json :=
  match v with
  | JStr s => Ok (JStr (take n s))
  | JList l => Ok (JList (List.firstn n l))
  | JDict _ => unhashable_slice
  | _ => not_subscriptable v
  end.

(** [v[-n:]] *)
Definition py_slice_last (n : nat) (v : json) : result json :=
  match v with
  | JStr s => Ok (JStr (PyFloat.drop (String.length s - n) s))
  | JList l => Ok (JList (last_n n l))
  | JDict _ => unhashable_slice
  | _ => not_subscriptable v
  end.

(** *** Numbers: [bool] is an [int] *)

Definition as_int (v : json) : option Z :=
  match v with
  | JBool b => Some (if b then 1 else 0)
  | JInt n => Some n
  | _ => None
  end.

Definition is_number (v : json) : bool :=
  match v with
  | JBool _ | JInt _ | JFloat _ => true
  | _ => false
  end.

Definition float_of_int (n : Z) : result float :=
  match PyFloat.of_Z n with
  | Some f => Ok f
  | None => OverflowError "int too large to convert to float"
  end.

(** The float a number converts to; [None] for what is not a number. *)
Definition to_float (v : json) : option (result float) :=
  match v with
  | JFloat f => Some (Ok f)
  | _ =>
      match as_int v with
      | Some n => Some (float_of_int n)
      | None => None
      end
  end.

(** [abs(v)] *)
Definition py_abs (v : json) : result json :=
  match v with
  | JFloat f => Ok (JFloat (PyFloat.abs f))
  | _ =>
      match as_int v with
      | Some n => Ok (JInt (Z.abs n))
      | None => TypeError ("bad operand type for abs(): " ++ quoted (type_name v))
      end
  end.

(** The order of a number and an [int] literal; [None] when unordered. *)
Definition cmp_int (v : json) (n : Z) : option (option comparison) :=
  match v with
  | JFloat f => Some (PyFloat.compare_Z f n)
  | _ =>
      match as_int v with
      | Some m => Some (Some (m ?= n))
      | None => None
      end
  end.

Definition not_supported {A} (op : string) (v : json) : result A :=
  TypeError (quoted op ++ " not supported between instances of "
             ++ quoted (type_name v) ++ " and 'int'").

(** [v >= n] for an [int] literal [n] *)
Definition py_ge (v : json) (n : Z) : result bool :=
  match cmp_int v n with
  | Some (Some (Gt | Eq)) => Ok true
  | Some _ => Ok false
  | None => not_supported ">=" v
  end.

(** [v > n] for an [int] literal [n] *)
Definition py_gt (v : json) (n : Z) : result bool :=
  match cmp_int v n with
  | Some (Some Gt) => Ok true
  | Some _ => Ok false
  | None => not_supported ">" v
  end.

(** [format(v, ".{p}f")] and, grouped, [format(v, ",.{p}f")] *)
Definition py_format_f (grouped : bool) (p : nat) (v : json) : result string :=
  match to_float v with
  | Some r => f <- r ;; Ok (PyFloat.format_f grouped p f)
  | None =>
      match v with
      | JStr _ => ValueError "Unknown format code 'f' for object of type 'str'"
      | _ => TypeError ("unsupported format string passed to "
                        ++ type_name v ++ ".__format__")
      end
  end.

Definition unsupported_operands {A} (op : string) (a b : json) : result A :=
  TypeError ("unsupported operand type(s) for " ++ op ++ ": "
             ++ quoted (type_name a) ++ " and " ++ quoted (type_name b)).

(** [a - b] *)
Definition py_sub (a b : json) : result json :=
  match as_int a, as_int b with
  | Some m, Some n => Ok (JInt (m - n))
  | _, _ =>
      match to_float a, to_float b with
      | Some ra, Some rb =>
          x <- ra ;; y <- rb ;; Ok (JFloat (PyFloat.sub x y))
      | _, _ => unsupported_operands "-" a b
      end
  end.

(** [m / n] on two [int]s: the nearest float to the quotient. *)
Definition int_truediv (m n : Z) : result float :=
  match n, m with
  | Z0, _ => ZeroDivisionError "division by zero"
  | _, Z0 => Ok (S754_zero (n <? 0))
  | _, _ =>
      match PyFloat.div (S754_finite (m <? 0) (Z.to_pos (Z.abs m)) 0)
                        (S754_finite (n <? 0) (Z.to_pos (Z.abs n)) 0) with
      | S754_infinity _ => OverflowError "integer division result too large for a float"
      | f => Ok f
      end
  end.

(** [a / b]: a float whenever it returns. *)
Definition py_truediv (a b : json) : result float :=
  match as_int a, as_int b with
  | Some m, Some n => int_truediv m n
  | _, _ =>
      match to_float a, to_float b with
      | Some ra, Some rb =>
          x <- ra ;; y <- rb ;;
          if PyFloat.is_zero y then ZeroDivisionError "float division by zero"
          else Ok (PyFloat.div x y)
      | _, _ => unsupported_operands "/" a b
      end
  end.

(** [x * n] for a float [x] and an [int] [n] *)
Definition float_mul_int (x : float) (n : Z) : result float :=
  y <- float_of_int n ;; Ok (PyFloat.mul x y).

End Py.
Import Py.

(** ** [json.dumps(data, indent=2)] and [json.loads] *)

Module Json.

(** *** The encoder *)

(** One character of a string under [ensure_ascii=True]. *)
Definition escape_char (c : ascii) : string :=
  if Ascii.eqb c dquote then String backslash (String dquote "")
  else if Ascii.eqb c backslash then String backslash (String backslash "")
  else if code c =? 10 then String backslash "n"
  else if code c =? 13 then String backslash "r"
  else if code c =? 9 then String backslash "t"
  else if code c =? 8 then String backslash "b"
  else if code c =? 12 then String backslash "f"
  else if (32 <=? code c) && (code c <=? 126) then String c ""
  else String backslash ("u00" ++ hex2 c).

Fixpoint escape (s : string) : string :=
  match s with
  | EmptyString => ""
  | String c s' => escape_char c ++ escape s'
  end.

Definition encode_str (s : string) : string :=
  String dquote (escape s ++ String dquote "").

(** [float.__repr__], with the three names JSON has no syntax for. *)
Definition encode_float (f : float) : string :=
  match f with
  | S754_nan => "NaN"
  | S754_infinity false => "Infinity"
  | S754_infinity true => "-Infinity"
  | _ => PyFloat.repr f
  end.

Definition indent_of (level : nat) : string := repeat_char " " (2 * level).

(** The line break before an item at [level]. *)
Definition newline_indent (level : nat) : string := nl ++ indent_of level.

Fixpoint encode (level : nat) (v : json) : string :=
  match v with
  | JNull => "null"
  | JBool b => if b then "true" else "false"
  | JInt n => str_int n
  | JFloat f => encode_float f
  | JStr s => encode_str s
  | JList [] => "[]"
  | JList l =>
      "[" ++ newline_indent (S level)
      ++ join ("," ++ newline_indent (S level)) (List.map (encode (S level)) l)
      ++ newline_indent level ++ "]"
  | JDict [] => "{}"
  | JDict d =>
      "{" ++ newline_indent (S level)
      ++ join ("," ++ newline_indent (S level))
           (List.map (fun kv => encode_str (fst kv) ++ ": " ++ encode (S level) (snd kv)) d)
      ++ newline_indent level ++ "}"
  end.

(** [json.dumps(data, indent=2)] *)
Definition dumps (data : json) : string := encode 0 data.

(** *** The decoder *)




















End Json.
Import Json.

(** ** Text normalisation of the Validation Layer *)

Module Text.

(** [str.isspace] on one code point below 256, which [str.strip] drops. *)
Definition is_space (c : ascii) : bool :=
  ((9 <=? code c) && (code c <=? 13)) || ((28 <=? code c) && (code c <=? 32))
  || (code c =? 133) || (code c =? 160).

(** The white space pydantic's [str_strip_whitespace] drops. *)
Definition is_white_space (c : ascii) : bool :=
  ((9 <=? code c) && (code c <=? 13)) || (code c =? 32)
  || (code c =? 133) || (code c =? 160).

Fixpoint lstrip (p : ascii -> bool) (s : string) : string :=
  match s with
  | String c s' => if p c then lstrip p s' else s
  | EmptyString => ""
  end.

(** [s] without its trailing characters in [p]. *)
Fixpoint rstrip (p : ascii -> bool) (s : string) : string :=
  match s with
  | EmptyString => ""
  | String c s' =>
      match rstrip p s' with
      | EmptyString => if p c then "" else String c ""
      | r => String c r
      end
  end.

Definition strip_with (p : ascii -> bool) (s : string) : string := rstrip p (lstrip p s).

(** [s.strip()] *)
Definition strip (s : string) : string := strip_with is_space s.

(** [s.split(",")]: the segments between commas, never an empty list. *)
Fixpoint split_comma (s : string) : list string :=
  match s with
  | EmptyString => [""]
  | String c s' =>
      if Ascii.eqb c "," then "" :: split_comma s'
      else
        match split_comma s' with
        | seg :: segs => String c seg :: segs
        | [] => [String c ""]
        end
  end.

(** [c.upper()].  The sharp s becomes [SS]; the micro sign and the y with
    diaeresis, whose capitals lie above code point 255, are left as they
    are. *)
Definition upper_char (c : ascii) : string :=
  if (97 <=? code c) && (code c <=? 122) then String (chr (code c - 32)) ""
  else if (224 <=? code c) && (code c <=? 254) && negb (code c =? 247)
  then String (chr (code c - 32)) ""
  else if code c =? 223 then "SS"
  else String c "".

(** [s.upper()] *)
Fixpoint upper (s : string) : string :=
  match s with
  | EmptyString => ""
  | String c s' => upper_char c ++ upper s'
  end.

End Text.

(** ** The server *)

Section Server.

(** [API_BASE_URL], read from the environment when the module loads. *)
Variable API_BASE_URL : string.

(** *** Shared helpers: the Gateway *)

Inductive http_method : Type := GET | POST | PUT | DELETE.

(** What a handler asks of the backend. *)
Record request : Type := {
  method : http_method;
  path : string;
  query : option (list (string * json));
  json_body : option json
}.

(** An [httpx.Response]: its status, its body text, and what
    [resp.json()] returns or raises. *)
Record response : Type := {
  status_code : Z;
  text : string;
  decoded : result json
}.

(** The shared [httpx.AsyncClient]: a call returns a response or raises
    ([httpx.TimeoutException], [httpx.ConnectError], ...). *)
Definition client : Type := request -> result response.

(** The [ctx] argument of a tool; [None] is its default. *)
Definition context : Type := option client.

(** [resp.raise_for_status()] *)
Definition raise_for_status (resp : response) : result unit :=
  if (200 <=? status_code resp) && (status_code resp <=? 299) then Ok tt
  else Raise (HTTPStatusError (status_code resp) (text resp)
                (match decoded resp with
                 | Ok v => Some v
                 | Raise _ => None
                 end)).

(** One round trip: the requests sent, and the parsed body or the failure. *)
Definition send (ctx : context) (req : request) : list request * result json :=
  match ctx with
  | None => ([], AttributeError "'NoneType' object has no attribute 'request_context'")
  | Some http =>
      ([req], resp <- http req ;; _ <- raise_for_status resp ;; decoded resp)
  end.

Definition _api_get (ctx : context) (path : string) (params : option (list (string * json)))
  : list request * result json :=
  send ctx {| method := GET; path := path; query := params; json_body := None |}.

Definition _api_post (ctx : context) (path : string) (body : option json)
  (params : option (list (string * json))) : list request * result json :=
  send ctx {| method := POST; path := path; query := params; json_body := body |}.

Definition _api_put (ctx : context) (path : string) (body : json)
  : list request * result json :=
  send ctx {| method := PUT; path := path; query := None; json_body := Some body |}.

Definition _api_delete (ctx : context) (path : string) (params : option (list (string * json)))
  : list request * result json :=
  send ctx {| method := DELETE; path := path; query := params; json_body := None |}.

(** *** The Error Classifier *)

Definition _handle_error (e : exn) : string :=
  match e with
  | HTTPStatusError status body_text body =>
      let detail :=
        match body with
        | Some v =>
            match py_get v "error" (JStr "") with
            | Ok d => d
            | Raise _ => JStr (take 200 body_text)
            end
        | None => JStr (take 200 body_text)
        end in
      "Error: "
      ++ (if status =? 401 then
            "Authentication failed. Check your PORTFOLIO_API_KEY. Detail: " ++ py_str detail
          else if status =? 403 then "Permission denied. " ++ py_str detail
          else if status =? 404 then "Not found. " ++ py_str detail
          else if status =? 429 then "Rate limit exceeded. Wait a moment and retry."
          else "API returned status " ++ str_int status ++ ". " ++ py_str detail)
  | TimeoutException => "Error: Request timed out. Is your Portfolio Tracker running?"
  | ConnectError =>
      "Error: Cannot connect to " ++ API_BASE_URL ++ ". "
      ++ "Make sure your Portfolio Tracker Web is running."
  | Exception name message => "Error: " ++ name ++ ": " ++ message
  end.

(** [try: ... except Exception as e: return _handle_error(e)] *)
Definition try_except (body : result string) : string :=
  match body with
  | Ok s => s
  | Raise e => _handle_error e
  end.

(** *** The numeric formatters *)

Definition _fmt_usd (value : json) : result string :=
  a <- py_abs value ;;
  big <- py_ge a 1 ;;
  if big then s <- py_format_f true 2 value ;; Ok ("$" ++ s)
  else s <- py_format_f false 6 value ;; Ok ("$" ++ s).

Definition _fmt_pct (value : json) : result string :=
  nonneg <- py_ge value 0 ;;
  let sign := if nonneg then "+" else "" in
  s <- py_format_f false 2 value ;;
  Ok (sign ++ s ++ "%").

Definition _fmt_qty (value : json) : result string :=
  a <- py_abs value ;;
  big <- py_ge a 100 ;;
  if big then py_format_f true 2 value
  else
    a' <- py_abs value ;;
    mid <- py_ge a' 1 ;;
    if mid then py_format_f true 4 value
    else py_format_f false 8 value.

(** *** Enums and input models *)

Inductive ResponseFormat : Type := MARKDOWN | JSON.
Inductive TaxStrategy : Type := FIFO | LIFO | HIFO | LOFO.
Inductive TransactionType : Type := DEPOSIT | WITHDRAWAL | SWAP.

Definition TaxStrategy_value (s : TaxStrategy) : string :=
  match s with
  | FIFO => "FIFO"
  | LIFO => "LIFO"
  | HIFO => "HIFO"
  | LOFO => "LOFO"
  end.

Definition TransactionType_value (t : TransactionType) : string :=
  match t with
  | DEPOSIT => "Deposit"
  | WITHDRAWAL => "Withdrawal"
  | SWAP => "Swap"
  end.

Definition is_json (f : ResponseFormat) : bool :=
  match f with
  | JSON => true
  | MARKDOWN => false
  end.

Record GetHoldingsInput : Type := {
  gh_portfolio_id : Z;
  gh_response_format : ResponseFormat
}.

Record GetHistoryInput : Type := {
  hi_portfolio_id : Z;
  hi_days : Z;
  hi_response_format : ResponseFormat
}.

Record ListTransactionsInput : Type := {
  lt_portfolio_id : option Z;
  lt_response_format : ResponseFormat
}.

Record AddTransactionInput : Type := {
  at_portfolio_id : Z;
  at_type : TransactionType;
  at_datetime : string;
  at_to_asset : string;
  at_to_quantity : float;
  at_to_price_usd : option float;
  at_from_asset : option string;
  at_from_quantity : option float;
  at_from_price_usd : option float;
  at_fees_usd : option float;
  at_notes : option string
}.

Record DeleteTransactionInput : Type := { dt_transaction_id : Z }.

Record GetCashflowInput : Type := {
  cf_portfolio_id : Z;
  cf_response_format : ResponseFormat
}.

Record GetTaxReportInput : Type := {
  tr_year : Z;
  tr_portfolio_id : option Z;
  tr_asset_strategy : TaxStrategy;
  tr_cash_strategy : TaxStrategy;
  tr_response_format : ResponseFormat
}.

Record GetPricesInput : Type := { gp_symbols : string }.

Record GetPriceHistoryInput : Type := {
  ph_symbols : string;
  ph_start_timestamp : Z;
  ph_end_timestamp : Z
}.

Record ListPortfoliosInput : Type := { lp_response_format : ResponseFormat }.

(** *** The Validation Layer (pydantic)

    The raw value of a field is taken at its declared type; [None] is an
    absent field.  A failed validation lists, per field, the constraint
    that failed. *)

Record error_detail : Type := { loc : string; error_type : string }.

Inductive validated (A : Type) : Type :=
| Valid (a : A)
| ValidationError (errors : list error_detail).
Arguments Valid {A} a.
Arguments ValidationError {A} errors.

Definition checked (A : Type) : Type := (list error_detail + A)%type.

Definition fails {A : Type} (field kind : string) : checked A :=
  inl [{| loc := field; error_type := kind |}].

(** The checks of two fields, with the errors of both. *)
Definition both {A B : Type} (x : checked A) (y : checked B) : checked (A * B) :=
  match x, y with
  | inr a, inr b => inr (a, b)
  | inl e, inr _ => inl e
  | inr _, inl e => inl e
  | inl e1, inl e2 => inl (e1 ++ e2)%list
  end.

Definition required {A : Type} (field : string) (v : option A) : checked A :=
  match v with
  | Some a => inr a
  | None => fails field "missing"
  end.

Definition with_default {A : Type} (default : A) (v : option A) : A :=
  match v with
  | Some a => a
  | None => default
  end.

(** [Field(ge=lo)] on an [int] *)
Definition int_ge (field : string) (lo v : Z) : checked Z :=
  if lo <=? v then inr v else fails field "greater_than_equal".

(** [Field(ge=lo, le=hi)] on an [int] *)
Definition int_range (field : string) (lo hi v : Z) : checked Z :=
  if v <? lo then fails field "greater_than_equal"
  else if hi <? v then fails field "less_than_equal"
  else inr v.

(** [Field(ge=0)] on a [float] *)
Definition float_ge0 (field : string) (v : float) : checked float :=
  match PyFloat.compare_Z v 0 with
  | Some (Gt | Eq) => inr v
  | _ => fails field "greater_than_equal"
  end.

(** A [str] field under [str_strip_whitespace=True], with its length bounds. *)
Definition str_field (field : string) (min_length : nat) (max_length : option nat)
  (v : string) : checked string :=
  let s := Text.strip_with Text.is_white_space v in
  if Nat.ltb (String.length s) min_length then fails field "string_too_short"
  else
    match max_length with
    | Some hi => if Nat.ltb hi (String.length s) then fails field "string_too_long" else inr s
    | None => inr s
    end.

Definition optional {A : Type} (check : A -> checked A) (v : option A) : checked (option A) :=
  match v with
  | None => inr None
  | Some a =>
      match check a with
      | inr a' => inr (Some a')
      | inl e => inl e
      end
  end.

Definition finish {A B : Type} (build : A -> B) (c : checked A) : validated B :=
  match c with
  | inr a => Valid (build a)
  | inl e => ValidationError e
  end.

Definition parse_format (field : string) (v : option string) : checked ResponseFormat :=
  match v with
  | None => inr MARKDOWN
  | Some s =>
      if String.eqb s "markdown" then inr MARKDOWN
      else if String.eqb s "json" then inr JSON
      else fails field "enum"
  end.

Definition parse_strategy (field : string) (v : option string) : checked TaxStrategy :=
  match v with
  | None => inr FIFO
  | Some s =>
      if String.eqb s "FIFO" then inr FIFO
      else if String.eqb s "LIFO" then inr LIFO
      else if String.eqb s "HIFO" then inr HIFO
      else if String.eqb s "LOFO" then inr LOFO
      else fails field "enum"
  end.

Definition parse_type (field : string) (v : option string) : checked TransactionType :=
  match v with
  | None => fails field "missing"
  | Some s =>
      if String.eqb s "Deposit" then inr DEPOSIT
      else if String.eqb s "Withdrawal" then inr WITHDRAWAL
      else if String.eqb s "Swap" then inr SWAP
      else fails field "enum"
  end.

Record RawGetHoldings : Type := {
  raw_gh_portfolio_id : option Z;
  raw_gh_response_format : option string
}.

Definition validate_GetHoldingsInput (raw : RawGetHoldings) : validated GetHoldingsInput :=
  finish (fun '(pid, fmt) => {| gh_portfolio_id := pid; gh_response_format := fmt |})
    (both (int_ge "portfolio_id" 1 (with_default 1 (raw_gh_portfolio_id raw)))
          (parse_format "response_format" (raw_gh_response_format raw))).

Record RawGetHistory : Type := {
  raw_hi_portfolio_id : option Z;
  raw_hi_days : option Z;
  raw_hi_response_format : option string
}.

Definition validate_GetHistoryInput (raw : RawGetHistory) : validated GetHistoryInput :=
  finish (fun '(pid, (days, fmt)) =>
            {| hi_portfolio_id := pid; hi_days := days; hi_response_format := fmt |})
    (both (int_ge "portfolio_id" 1 (with_default 1 (raw_hi_portfolio_id raw)))
       (both (int_range "days" 1 90 (with_default 7 (raw_hi_days raw)))
             (parse_format "response_format" (raw_hi_response_format raw)))).

Record RawGetTaxReport : Type := {
  raw_tr_year : option Z;
  raw_tr_portfolio_id : option Z;
  raw_tr_asset_strategy : option string;
  raw_tr_cash_strategy : option string;
  raw_tr_response_format : option string
}.

Definition validate_GetTaxReportInput (raw : RawGetTaxReport) : validated GetTaxReportInput :=
  finish (fun '(year, (a, (c, fmt))) =>
            {| tr_year := year; tr_portfolio_id := raw_tr_portfolio_id raw;
               tr_asset_strategy := a; tr_cash_strategy := c; tr_response_format := fmt |})
    (both (int_range "year" 2015 2030 (with_default 2025 (raw_tr_year raw)))
       (both (parse_strategy "asset_strategy" (raw_tr_asset_strategy raw))
          (both (parse_strategy "cash_strategy" (raw_tr_cash_strategy raw))
                (parse_format "response_format" (raw_tr_response_format raw))))).

Record RawDeleteTransaction : Type := { raw_dt_transaction_id : option Z }.

Definition validate_DeleteTransactionInput (raw : RawDeleteTransaction)
  : validated DeleteTransactionInput :=
  finish (fun id => {| dt_transaction_id := id |})
    (match required "transaction_id" (raw_dt_transaction_id raw) with
     | inr id => int_ge "transaction_id" 1 id
     | inl e => inl e
     end).

(** [AddTransactionInput]: [uppercase_asset] runs before the field's own
    validation, on [to_asset] and [from_asset]. *)
Record RawAddTransaction : Type := {
  raw_portfolio_id : option Z;
  raw_type : option string;
  raw_datetime : option string;
  raw_to_asset : option string;
  raw_to_quantity : option float;
  raw_to_price_usd : option float;
  raw_from_asset : option string;
  raw_from_quantity : option float;
  raw_from_price_usd : option float;
  raw_fees_usd : option float;
  raw_notes : option string
}.

Definition uppercase_asset (v : option string) : option string :=
  match v with
  | Some s => Some (Text.upper s)
  | None => None
  end.

Definition then_check {A B : Type} (c : checked A) (k : A -> checked B) : checked B :=
  match c with
  | inr a => k a
  | inl e => inl e
  end.

Definition validate_AddTransactionInput (raw : RawAddTransaction)
  : validated AddTransactionInput :=
  finish
    (fun '(pid, (ty, (dt, (ta, (tq, (fa, (fq, notes))))))) =>
       {| at_portfolio_id := pid; at_type := ty; at_datetime := dt;
          at_to_asset := ta; at_to_quantity := tq;
          at_to_price_usd := raw_to_price_usd raw;
          at_from_asset := fa; at_from_quantity := fq;
          at_from_price_usd := raw_from_price_usd raw;
          at_fees_usd := raw_fees_usd raw; at_notes := notes |})
    (both (int_ge "portfolio_id" 1 (with_default 1 (raw_portfolio_id raw)))
       (both (parse_type "type" (raw_type raw))
          (both (then_check (required "datetime" (raw_datetime raw))
                   (str_field "datetime" 0 None))
             (both (then_check (required "to_asset" (uppercase_asset (raw_to_asset raw)))
                      (str_field "to_asset" 1 (Some 10%nat)))
                (both (then_check (required "to_quantity" (raw_to_quantity raw))
                         (float_ge0 "to_quantity"))
                   (both (optional (str_field "from_asset" 0 (Some 10%nat))
                            (uppercase_asset (raw_from_asset raw)))
                      (both (optional (float_ge0 "from_quantity") (raw_from_quantity raw))
                            (optional (str_field "notes" 0 (Some 500%nat))
                               (raw_notes raw))))))))).

(** [GetPricesInput.validate_symbols], which runs after the field's own
    validation: [",".join(s.strip().upper() for s in v.split(",") if s.strip())] *)
Definition validate_symbols (v : string) : string :=
  join ","
    (List.map (fun s => Text.upper (Text.strip s))
       (List.filter (fun s => negb (String.eqb (Text.strip s) "")) (Text.split_comma v))).

Record RawGetPrices : Type := { raw_symbols : option string }.

Definition validate_GetPricesInput (raw : RawGetPrices) : validated GetPricesInput :=
  finish (fun s => {| gp_symbols := validate_symbols s |})
    (then_check (required "symbols" (raw_symbols raw))
       (str_field "symbols" 1 (Some 200%nat))).

Record RawGetPriceHistory : Type := {
  raw_ph_symbols : option string;
  raw_ph_start_timestamp : option Z;
  raw_ph_end_timestamp : option Z
}.

Definition validate_GetPriceHistoryInput (raw : RawGetPriceHistory)
  : validated GetPriceHistoryInput :=
  finish (fun '(s, (a, b)) =>
            {| ph_symbols := validate_symbols s; ph_start_timestamp := a;
               ph_end_timestamp := b |})
    (both (then_check (required "symbols" (raw_ph_symbols raw))
             (str_field "symbols" 1 None))
       (both (required "start_timestamp" (raw_ph_start_timestamp raw))
             (required "end_timestamp" (raw_ph_end_timestamp raw)))).

(** A tool call as the runtime makes it: the arguments are validated into
    the input model, and only a valid input reaches the handler. *)
Definition call_tool {Raw Input : Type} (validate : Raw -> validated Input)
  (handler : Input -> context -> list request * string) (raw : Raw) (ctx : context)
  : list request * validated string :=
  match validate raw with
  | Valid params => let '(sent, out) := handler params ctx in (sent, Valid out)
  | ValidationError errors => ([], ValidationError errors)
  end.

(** *** Tools: the Formatter of each handler

    [render_X params data] is the body of handler [X] after its Gateway
    call returned [data]. *)

(** [fmt(d.get(key, 0))] *)
Definition get_fmt (fmt : json -> result string) (d : json) (key : string) : result string :=
  v <- py_get d key (JInt 0) ;; fmt v.

(** [fmt(d[key])] *)
Definition item_fmt (fmt : json -> result string) (d : json) (key : string) : result string :=
  v <- py_getitem d key ;; fmt v.

(** The lines of one holding. *)
Definition holding_lines (h : json) : result (list string) :=
  pnl <- py_get h "pnl" (JInt 0) ;;
  up <- py_ge pnl 0 ;;
  let pnl_emoji := if up then "+" else "" in
  asset <- py_getitem h "asset" ;;
  quantity <- item_fmt _fmt_qty h "quantity" ;;
  price <- item_fmt _fmt_usd h "currentPrice" ;;
  value <- item_fmt _fmt_usd h "currentValue" ;;
  cost <- item_fmt _fmt_usd h "costBasis" ;;
  pnl_usd <- item_fmt _fmt_usd h "pnl" ;;
  pnl_pct <- item_fmt _fmt_pct h "pnlPercent" ;;
  change <- get_fmt _fmt_pct h "change7dPercent" ;;
  Ok [ "### " ++ py_str asset;
       "- Quantity: " ++ quantity;
       "- Price: " ++ price;
       "- Value: " ++ value;
       "- Cost Basis: " ++ cost;
       "- P&L: " ++ pnl_emoji ++ pnl_usd ++ " (" ++ pnl_pct ++ ")";
       "- 7d Change: " ++ change;
       "" ].

Definition allocation_line (a : json) : result string :=
  asset <- py_getitem a "asset" ;;
  pct <- item_fmt (py_format_f false 1) a "percentage" ;;
  value <- item_fmt _fmt_usd a "value" ;;
  Ok ("- **" ++ py_str asset ++ "**: " ++ pct ++ "% (" ++ value ++ ")").

Definition render_holdings (params : GetHoldingsInput) (data : json) : result string :=
  if is_json (gh_response_format params) then Ok (Json.dumps data)
  else
    summary <- py_get data "summary" (JDict []) ;;
    holdings <- py_get data "holdings" (JList []) ;;
    if negb (py_truthy holdings) then Ok "Portfolio is empty - no holdings found."
    else
      total_value <- get_fmt _fmt_usd summary "totalValue" ;;
      total_cost <- get_fmt _fmt_usd summary "totalCost" ;;
      total_pnl <- get_fmt _fmt_usd summary "totalPnl" ;;
      total_pnl_pct <- get_fmt _fmt_pct summary "totalPnlPercent" ;;
      change7d <- get_fmt _fmt_usd summary "totalChange7d" ;;
      change7d_pct <- get_fmt _fmt_pct summary "totalChange7dPercent" ;;
      btc <- get_fmt _fmt_usd summary "btcPrice" ;;
      let lines :=
        [ "# Portfolio Summary";
          "";
          "**Total Value:** " ++ total_value;
          "**Total Cost:** " ++ total_cost;
          "**Total P&L:** " ++ total_pnl ++ " (" ++ total_pnl_pct ++ ")";
          "**7d Change:** " ++ change7d ++ " (" ++ change7d_pct ++ ")";
          "**BTC Price:** " ++ btc;
          "";
          "## Holdings";
          "" ] in
      hs <- py_iter holdings ;;
      blocks <- mapM holding_lines hs ;;
      allocation <- py_get data "allocation" (JList []) ;;
      alloc <-
        (if py_truthy allocation then
           items <- py_iter allocation ;;
           ls <- mapM allocation_line items ;;
           Ok (List.app ["## Allocation"; ""] (List.app ls [""]))
         else Ok []) ;;
      Ok (join nl (List.app lines (List.app (List.concat blocks) alloc))).

Definition history_line (entry : json) : result string :=
  date <- py_getitem entry "date" ;;
  value <- item_fmt _fmt_usd entry "totalValue" ;;
  Ok ("- " ++ py_str date ++ ": " ++ value).

(** [(change / first_val * 100) if first_val > 0 else 0] *)
Definition change_percent (change first_val : json) : result json :=
  positive <- py_gt first_val 0 ;;
  if positive then
    q <- py_truediv change first_val ;;
    p <- float_mul_int q 100 ;;
    Ok (JFloat p)
  else Ok (JInt 0).

(** The period, start and end, and change lines of the header. *)
Definition history_summary (history : json) : result (list string) :=
  first <- py_first history ;;
  first_val <- py_getitem first "totalValue" ;;
  last <- py_last history ;;
  last_val <- py_getitem last "totalValue" ;;
  change <- py_sub last_val first_val ;;
  change_pct <- change_percent change first_val ;;
  first' <- py_first history ;;
  first_date <- py_getitem first' "date" ;;
  last' <- py_last history ;;
  last_date <- py_getitem last' "date" ;;
  start <- _fmt_usd first_val ;;
  finish_ <- _fmt_usd last_val ;;
  change_usd <- _fmt_usd change ;;
  pct <- _fmt_pct change_pct ;;
  Ok [ "**Period:** " ++ py_str first_date ++ " to " ++ py_str last_date;
       "**Start:** " ++ start ++ " | **End:** " ++ finish_;
       "**Change:** " ++ change_usd ++ " (" ++ pct ++ ")";
       "" ].

Definition render_history (params : GetHistoryInput) (data : json) : result string :=
  if is_json (hi_response_format params) then Ok (Json.dumps data)
  else
    history <- py_get data "history" (JList []) ;;
    if negb (py_truthy history) then Ok "No portfolio history available for this period."
    else
      let lines := [ "# Portfolio Value History (" ++ str_int (hi_days params) ++ " days)"; "" ] in
      summary <- history_summary history ;;
      entries <- py_iter history ;;
      days <- mapM history_line entries ;;
      Ok (join nl (List.app lines (List.app summary days))).

Definition portfolio_line (p : json) : result string :=
  name <- py_getitem p "name" ;;
  id <- py_getitem p "id" ;;
  created <- py_get p "createdAt" (JStr "N/A") ;;
  Ok ("- **" ++ py_str name ++ "** (ID: " ++ py_str id ++ ") - created " ++ py_str created).

Definition render_portfolios (params : ListPortfoliosInput) (data : json) : result string :=
  if is_json (lp_response_format params) then Ok (Json.dumps data)
  else if negb (py_truthy data) then Ok "No portfolios found."
  else
    ps <- py_iter data ;;
    ls <- mapM portfolio_line ps ;;
    Ok (join nl (List.app ["# Your Portfolios"; ""] ls)).

(** The kind-specific description of a transaction. *)
Definition transaction_desc (tx tx_type : json) : result string :=
  if py_eq_str tx_type "Swap" then
    from_asset <- py_get tx "fromAsset" (JStr "?") ;;
    from_qty <- get_fmt _fmt_qty tx "fromQuantity" ;;
    to_asset <- py_get tx "toAsset" (JStr "?") ;;
    to_qty <- get_fmt _fmt_qty tx "toQuantity" ;;
    Ok ("Swap " ++ from_qty ++ " " ++ py_str from_asset ++ " -> "
        ++ to_qty ++ " " ++ py_str to_asset)
  else if py_eq_str tx_type "Deposit" then
    qty <- get_fmt _fmt_qty tx "toQuantity" ;;
    asset <- py_get tx "toAsset" (JStr "?") ;;
    let desc := "Deposit " ++ qty ++ " " ++ py_str asset in
    price <- py_get tx "toPriceUsd" JNull ;;
    if py_truthy price then
      p <- item_fmt _fmt_usd tx "toPriceUsd" ;;
      Ok (desc ++ " @ " ++ p)
    else Ok desc
  else
    qty <- get_fmt _fmt_qty tx "toQuantity" ;;
    asset <- py_get tx "toAsset" (JStr "?") ;;
    Ok ("Withdraw " ++ qty ++ " " ++ py_str asset).

Definition transaction_line (tx : json) : result string :=
  datetime <- py_get tx "datetime" (JStr "") ;;
  dt <- py_slice_to 10 datetime ;;
  tx_type <- py_get tx "type" (JStr "?") ;;
  desc <- transaction_desc tx tx_type ;;
  fees_usd <- py_get tx "feesUsd" JNull ;;
  fees <-
    (if py_truthy fees_usd then
       f <- item_fmt _fmt_usd tx "feesUsd" ;; Ok (" (fees: " ++ f ++ ")")
     else Ok "") ;;
  note <- py_get tx "notes" JNull ;;
  notes <-
    (if py_truthy note then n <- py_getitem tx "notes" ;; Ok (" - " ++ py_str n)
     else Ok "") ;;
  id <- py_getitem tx "id" ;;
  Ok ("- **" ++ py_str dt ++ "** [" ++ py_str tx_type ++ "] " ++ desc ++ fees ++ notes
      ++ " (ID: " ++ py_str id ++ ")").

Definition transactions_notice (total : Z) : string :=
  nl ++ "_Showing last 50 of " ++ str_int total ++ " transactions. Use JSON format for all._".

(** The body of the list, [for tx in data[-50:]], and the notice after it. *)
Definition transactions_section (data : json) : result (list string) :=
  shown <- py_slice_last 50 data ;;
  txs <- py_iter shown ;;
  body <- mapM transaction_line txs ;;
  total <- py_len data ;;
  Ok (List.app body (if 50 <? total then [transactions_notice total] else [])).

Definition render_transactions (params : ListTransactionsInput) (data : json) : result string :=
  if is_json (lt_response_format params) then Ok (Json.dumps data)
  else if negb (py_truthy data) then Ok "No transactions found."
  else
    total <- py_len data ;;
    let lines := [ "# Transactions (" ++ str_int total ++ " total)"; "" ] in
    section <- transactions_section data ;;
    Ok (join nl (List.app lines section)).

(** [sorted(d.items())]: the keys are distinct, so the order is theirs. *)
Fixpoint insert_sorted (kv : string * json) (l : list (string * json)) : list (string * json) :=
  match l with
  | [] => [kv]
  | kv' :: l' =>
      if String.leb (fst kv) (fst kv') then kv :: l
      else kv' :: insert_sorted kv l'
  end.

Definition sorted_items (v : json) : result (list (string * json)) :=
  match v with
  | JDict d => Ok (List.fold_right insert_sorted [] d)
  | _ => AttributeError (quoted (type_name v) ++ " object has no attribute 'items'")
  end.

Definition year_line (item : string * json) : result string :=
  let '(year, flow) := item in
  total_in <- py_get flow "totalIn" (JInt 0) ;;
  total_out <- py_get flow "totalOut" (JInt 0) ;;
  derived <- py_sub total_in total_out ;;
  net <- py_get flow "netFlow" derived ;;
  amount <- _fmt_usd net ;;
  Ok ("- **" ++ year ++ "**: Net " ++ amount).

Definition render_cashflow (params : GetCashflowInput) (data : json) : result string :=
  if is_json (cf_response_format params) then Ok (Json.dumps data)
  else
    s <- py_get data "summary" (JDict []) ;;
    money_in <- get_fmt _fmt_usd s "totalMoneyIn" ;;
    money_out <- get_fmt _fmt_usd s "totalMoneyOut" ;;
    net_flow <- get_fmt _fmt_usd s "netMoneyFlow" ;;
    deposits <- get_fmt _fmt_usd s "totalBankDeposits" ;;
    withdrawals <- get_fmt _fmt_usd s "totalBankWithdrawals" ;;
    net_bank <- get_fmt _fmt_usd s "netBankFlow" ;;
    purchases <- get_fmt _fmt_usd s "totalAssetPurchases" ;;
    sales <- get_fmt _fmt_usd s "totalAssetSales" ;;
    net_trading <- get_fmt _fmt_usd s "netAssetTrading" ;;
    events <- py_get s "totalTaxableEvents" (JInt 0) ;;
    transactions <- py_get s "totalTransactions" (JInt 0) ;;
    let lines :=
      [ "# Cash Flow Analysis";
        "";
        "## Summary";
        "- **Total Money In:** " ++ money_in;
        "- **Total Money Out:** " ++ money_out;
        "- **Net Flow:** " ++ net_flow;
        "";
        "- Bank Deposits: " ++ deposits;
        "- Bank Withdrawals: " ++ withdrawals;
        "- Net Bank Flow: " ++ net_bank;
        "";
        "- Asset Purchases: " ++ purchases;
        "- Asset Sales: " ++ sales;
        "- Net Trading: " ++ net_trading;
        "";
        "- Taxable Events: " ++ py_str events;
        "- Total Transactions: " ++ py_str transactions ] in
    yearly <- py_get data "yearlyFlow" (JDict []) ;;
    years <-
      (if py_truthy yearly then
         items <- sorted_items yearly ;;
         ls <- mapM year_line items ;;
         Ok (List.app [""; "## Yearly Breakdown"; ""] ls)
       else Ok []) ;;
    Ok (join nl (List.app lines years)).

Definition event_line (ev : json) : result string :=
  datetime <- py_get ev "datetime" (JStr "") ;;
  dt <- py_slice_to 10 datetime ;;
  gain_usd <- py_get ev "gainLossUsd" (JInt 0) ;;
  gain_ron <- py_get ev "gainLossRon" (JInt 0) ;;
  up <- py_ge gain_usd 0 ;;
  let emoji := if up then "+" else "" in
  tx_id <- py_get ev "transactionId" (JStr "?") ;;
  usd <- _fmt_usd gain_usd ;;
  ron <- py_format_f true 2 gain_ron ;;
  Ok ("- **" ++ py_str dt ++ "** (TX #" ++ py_str tx_id ++ "): "
      ++ "Gain/Loss " ++ emoji ++ usd ++ " / " ++ emoji ++ ron ++ " RON").

Definition events_notice (total : Z) : string :=
  nl ++ "_Showing 30 of " ++ str_int total ++ " events. Use JSON format for all._".

(** The listed events, [for ev in events[:30]], and the notice after them. *)
Definition events_section (events : json) : result (list string) :=
  shown <- py_slice_to 30 events ;;
  evs <- py_iter shown ;;
  body <- mapM event_line evs ;;
  total <- py_len events ;;
  Ok (List.app body (if 30 <? total then [events_notice total] else [])).

Definition render_tax_report (params : GetTaxReportInput) (data : json) : result string :=
  if is_json (tr_response_format params) then Ok (Json.dumps data)
  else
    events <- py_get data "taxableEvents" (JList []) ;;
    withdrawals_usd <- get_fmt _fmt_usd data "totalWithdrawalsUsd" ;;
    withdrawals_ron <- get_fmt (py_format_f true 2) data "totalWithdrawalsRon" ;;
    cost_usd <- get_fmt _fmt_usd data "totalCostBasisUsd" ;;
    cost_ron <- get_fmt (py_format_f true 2) data "totalCostBasisRon" ;;
    gain_usd <- get_fmt _fmt_usd data "totalGainLossUsd" ;;
    gain_ron <- get_fmt (py_format_f true 2) data "totalGainLossRon" ;;
    total <- py_len events ;;
    let lines :=
      [ "# Romania Tax Report - " ++ str_int (tr_year params);
        "";
        "**Strategy:** Asset=" ++ TaxStrategy_value (tr_asset_strategy params)
        ++ ", Cash=" ++ TaxStrategy_value (tr_cash_strategy params);
        "";
        "## Totals";
        "- **Total Withdrawals (USD):** " ++ withdrawals_usd;
        "- **Total Withdrawals (RON):** " ++ withdrawals_ron ++ " RON";
        "- **Total Cost Basis (USD):** " ++ cost_usd;
        "- **Total Cost Basis (RON):** " ++ cost_ron ++ " RON";
        "- **Total Gain/Loss (USD):** " ++ gain_usd;
        "- **Total Gain/Loss (RON):** " ++ gain_ron ++ " RON";
        "";
        "## Taxable Events (" ++ str_int total ++ ")";
        "" ] in
    section <- events_section events ;;
    Ok (join nl (List.app lines section)).

Definition price_line (item : string * json) : result string :=
  let '(symbol, price) := item in
  amount <- _fmt_usd price ;;
  Ok ("- **" ++ symbol ++ "**: " ++ amount).

Definition render_prices (params : GetPricesInput) (data : json) : result string :=
  prices <- py_get data "prices" (JDict []) ;;
  if negb (py_truthy prices) then Ok ("No prices found for: " ++ gp_symbols params)
  else
    items <- sorted_items prices ;;
    ls <- mapM price_line items ;;
    Ok (join nl (List.app ["# Current Prices"; ""] ls)).

Definition render_price_history (params : GetPriceHistoryInput) (data : json) : result string :=
  prices <- py_get data "prices" (JList []) ;;
  if negb (py_truthy prices) then
    Ok ("No historical prices found for " ++ ph_symbols params ++ " in that range.")
  else
    count <- py_len prices ;;
    Ok (Json.dumps (JDict [("count", JInt count); ("prices", prices)])).

Definition float_truthy (v : option float) : bool :=
  match v with
  | Some f => negb (PyFloat.is_zero f)
  | None => false
  end.

Definition render_add_transaction (params : AddTransactionInput) (created : json)
  : result string :=
  tx_id <- py_get created "id" (JStr "?") ;;
  price <-
    (if float_truthy (at_to_price_usd params) then
       p <- _fmt_usd (match at_to_price_usd params with
                      | Some f => JFloat f
                      | None => JNull
                      end) ;;
       Ok (" @ " ++ p)
     else Ok "") ;;
  Ok ("Transaction created (ID: " ++ py_str tx_id ++ "). "
      ++ "Type: " ++ TransactionType_value (at_type params) ++ ", "
      ++ "Asset: " ++ PyFloat.repr (at_to_quantity params) ++ " " ++ at_to_asset params
      ++ price).

Definition render_delete_transaction (params : DeleteTransactionInput) (_ : json)
  : result string :=
  Ok ("Transaction " ++ str_int (dt_transaction_id params) ++ " deleted successfully.").

(** *** Tools: the handlers

    Each returns the requests it sent and its one output string. *)

Definition handle (call : list request * result json) (render : json -> result string)
  : list request * string :=
  let '(sent, r) := call in
  (sent, try_except (data <- r ;; render data)).

Definition portfolio_get_holdings (params : GetHoldingsInput) (ctx : context)
  : list request * string :=
  handle (_api_get ctx "/api/ticker/portfolio"
            (Some [("portfolioId", JInt (gh_portfolio_id params))]))
    (render_holdings params).

Definition portfolio_get_history (params : GetHistoryInput) (ctx : context)
  : list request * string :=
  handle (_api_get ctx "/api/ticker/portfolio/history"
            (Some [("portfolioId", JInt (hi_portfolio_id params));
                   ("days", JInt (hi_days params))]))
    (render_history params).

Definition portfolio_list_portfolios (params : ListPortfoliosInput) (ctx : context)
  : list request * string :=
  handle (_api_get ctx "/api/portfolios" None) (render_portfolios params).

Definition portfolio_list_transactions (params : ListTransactionsInput) (ctx : context)
  : list request * string :=
  let query_params :=
    match lt_portfolio_id params with
    | Some id => [("portfolioId", JInt id)]
    | None => []
    end in
  handle (_api_get ctx "/api/transactions" (Some query_params)) (render_transactions params).

Definition optional_entry {A : Type} (key : string) (inj : A -> json) (v : option A)
  : list (string * json) :=
  match v with
  | Some a => [(key, inj a)]
  | None => []
  end.

Definition add_transaction_body (params : AddTransactionInput) : json :=
  JDict
    (List.app
       [ ("portfolioId", JInt (at_portfolio_id params));
         ("type", JStr (TransactionType_value (at_type params)));
         ("datetime", JStr (at_datetime params));
         ("toAsset", JStr (at_to_asset params));
         ("toQuantity", JFloat (at_to_quantity params)) ]
       (List.app (optional_entry "toPriceUsd" JFloat (at_to_price_usd params))
          (List.app (optional_entry "fromAsset" JStr (at_from_asset params))
             (List.app (optional_entry "fromQuantity" JFloat (at_from_quantity params))
                (List.app (optional_entry "fromPriceUsd" JFloat (at_from_price_usd params))
                   (List.app (optional_entry "feesUsd" JFloat (at_fees_usd params))
                      (optional_entry "notes" JStr (at_notes params)))))))).

Definition portfolio_add_transaction (params : AddTransactionInput) (ctx : context)
  : list request * string :=
  handle (_api_post ctx "/api/transactions" (Some (add_transaction_body params)) None)
    (render_add_transaction params).

Definition portfolio_delete_transaction (params : DeleteTransactionInput) (ctx : context)
  : list request * string :=
  handle (_api_delete ctx "/api/transactions"
            (Some [("id", JInt (dt_transaction_id params))]))
    (render_delete_transaction params).

Definition portfolio_get_cashflow (params : GetCashflowInput) (ctx : context)
  : list request * string :=
  handle (_api_get ctx "/api/cashflow"
            (Some [("portfolioId", JInt (cf_portfolio_id params))]))
    (render_cashflow params).

Definition portfolio_get_tax_report (params : GetTaxReportInput) (ctx : context)
  : list request * string :=
  let query_params :=
    List.app
      [ ("year", JStr (str_int (tr_year params)));
        ("assetStrategy", JStr (TaxStrategy_value (tr_asset_strategy params)));
        ("cashStrategy", JStr (TaxStrategy_value (tr_cash_strategy params))) ]
      (optional_entry "portfolioId" (fun id => JStr (str_int id)) (tr_portfolio_id params)) in
  handle (_api_get ctx "/api/tax/romania" (Some query_params)) (render_tax_report params).

Definition portfolio_get_prices (params : GetPricesInput) (ctx : context)
  : list request * string :=
  handle (_api_get ctx "/api/prices/current" (Some [("symbols", JStr (gp_symbols params))]))
    (render_prices params).

Definition portfolio_get_price_history (params : GetPriceHistoryInput) (ctx : context)
  : list request * string :=
  handle (_api_get ctx "/api/prices"
            (Some [("symbols", JStr (ph_symbols params));
                   ("start", JInt (ph_start_timestamp params));
                   ("end", JInt (ph_end_timestamp params))]))
    (render_price_history params).

(** The tools, each with a validated input. *)
Inductive tool_call : Type :=
| GetHoldings (params : GetHoldingsInput)
| GetHistory (params : GetHistoryInput)
| ListPortfolios (params : ListPortfoliosInput)
| ListTransactions (params : ListTransactionsInput)
| AddTransaction (params : AddTransactionInput)
| DeleteTransaction (params : DeleteTransactionInput)
| GetCashflow (params : GetCashflowInput)
| GetTaxReport (params : GetTaxReportInput)
| GetPrices (params : GetPricesInput)
| GetPriceHistory (params : GetPriceHistoryInput).

(** The Dispatcher: the handler a tool name is bound to. *)
Definition run_tool (call : tool_call) (ctx : context) : list request * string :=
  match call with
  | GetHoldings p => portfolio_get_holdings p ctx
  | GetHistory p => portfolio_get_history p ctx
  | ListPortfolios p => portfolio_list_portfolios p ctx
  | ListTransactions p => portfolio_list_transactions p ctx
  | AddTransaction p => portfolio_add_transaction p ctx
  | DeleteTransaction p => portfolio_delete_transaction p ctx
  | GetCashflow p => portfolio_get_cashflow p ctx
  | GetTaxReport p => portfolio_get_tax_report p ctx
  | GetPrices p => portfolio_get_prices p ctx
  | GetPriceHistory p => portfolio_get_price_history p ctx
  end.

(** The request a tool call builds from its validated input. *)
Definition request_of (call : tool_call) : request :=
  match call with
  | GetHoldings p =>
      {| method := GET; path := "/api/ticker/portfolio";
         query := Some [("portfolioId", JInt (gh_portfolio_id p))]; json_body := None |}
  | GetHistory p =>
      {| method := GET; path := "/api/ticker/portfolio/history";
         query := Some [("portfolioId", JInt (hi_portfolio_id p)); ("days", JInt (hi_days p))];
         json_body := None |}
  | ListPortfolios _ =>
      {| method := GET; path := "/api/portfolios"; query := None; json_body := None |}
  | ListTransactions p =>
      {| method := GET; path := "/api/transactions";
         query := Some (optional_entry "portfolioId" JInt (lt_portfolio_id p));
         json_body := None |}
  | AddTransaction p =>
      {| method := POST; path := "/api/transactions"; query := None;
         json_body := Some (add_transaction_body p) |}
  | DeleteTransaction p =>
      {| method := DELETE; path := "/api/transactions";
         query := Some [("id", JInt (dt_transaction_id p))]; json_body := None |}
  | GetCashflow p =>
      {| method := GET; path := "/api/cashflow";
         query := Some [("portfolioId", JInt (cf_portfolio_id p))]; json_body := None |}
  | GetTaxReport p =>
      {| method := GET; path := "/api/tax/romania";
         query :=
           Some (List.app
                   [ ("year", JStr (str_int (tr_year p)));
                     ("assetStrategy", JStr (TaxStrategy_value (tr_asset_strategy p)));
                     ("cashStrategy", JStr (TaxStrategy_value (tr_cash_strategy p))) ]
                   (optional_entry "portfolioId" (fun id => JStr (str_int id))
                      (tr_portfolio_id p)));
         json_body := None |}
  | GetPrices p =>
      {| method := GET; path := "/api/prices/current";
         query := Some [("symbols", JStr (gp_symbols p))]; json_body := None |}
  | GetPriceHistory p =>
      {| method := GET; path := "/api/prices";
         query := Some [("symbols", JStr (ph_symbols p));
                        ("start", JInt (ph_start_timestamp p));
                        ("end", JInt (ph_end_timestamp p))];
         json_body := None |}
  end.

(** The Formatter a tool call selects. *)
Definition render_of (call : tool_call) : json -> result string :=
  match call with
  | GetHoldings p => render_holdings p
  | GetHistory p => render_history p
  | ListPortfolios p => render_portfolios p
  | ListTransactions p => render_transactions p
  | AddTransaction p => render_add_transaction p
  | DeleteTransaction p => render_delete_transaction p
  | GetCashflow p => render_cashflow p
  | GetTaxReport p => render_tax_report p
  | GetPrices p => render_prices p
  | GetPriceHistory p => render_price_history p
  end.

(** What the [try] block of a handler computes: the Gateway call, then the
    Formatter on its payload. *)
Definition attempt (call : tool_call) (ctx : context) : result string :=
  data <- snd (send ctx (request_of call)) ;; render_of call data.

(** The output mode a call asks for; a tool without the flag has none. *)
Definition response_format_of (call : tool_call) : option ResponseFormat :=
  match call with
  | GetHoldings p => Some (gh_response_format p)
  | GetHistory p => Some (hi_response_format p)
  | ListPortfolios p => Some (lp_response_format p)
  | ListTransactions p => Some (lt_response_format p)
  | GetCashflow p => Some (cf_response_format p)
  | GetTaxReport p => Some (tr_response_format p)
  | AddTransaction _ | DeleteTransaction _ | GetPrices _ | GetPriceHistory _ => None
  end.

End Server.

Arguments Valid {A} a.
Arguments ValidationError {A} errors.

(** ** Vocabulary of the properties *)

(** A backend that answers every request with status 200 and [data]. *)
Definition backend_returning (data : json) : context :=
  Some (fun _ => Ok {| status_code := 200; text := ""; decoded := Ok data |}).

(** A Swap input that names none of its three source fields. *)
Definition swap_without_source (raw : RawAddTransaction) : Prop :=
  raw_type raw = Some "Swap"
  /\ raw_from_asset raw = None
  /\ raw_from_quantity raw = None
  /\ raw_from_price_usd raw = None.

Definition is_source_field (field : string) : bool :=
  String.eqb field "from_asset" || String.eqb field "from_quantity"
  || String.eqb field "from_price_usd".

(** The checks of [AddTransactionInput] on the fields a Swap shares with
    the other kinds. *)
Definition shared_fields (raw : RawAddTransaction)
  : checked (Z * (string * (string * (float * option string)))) :=
  both (int_ge "portfolio_id" 1 (with_default 1 (raw_portfolio_id raw)))
    (both (then_check (required "datetime" (raw_datetime raw)) (str_field "datetime" 0 None))
       (both (then_check (required "to_asset" (uppercase_asset (raw_to_asset raw)))
                (str_field "to_asset" 1 (Some 10%nat)))
          (both (then_check (required "to_quantity" (raw_to_quantity raw))
                   (float_ge0 "to_quantity"))
                (optional (str_field "notes" 0 (Some 500%nat)) (raw_notes raw))))).

(** Every error of a check is at [field]. *)
Definition errors_at {A : Type} (field : string) (c : checked A) : Prop :=
  forall es, c = inl es -> Forall (fun e => loc e = field) es.

(** A withdrawal whose payload holds a unit price, and a deposit whose
    unit price is zero. *)
Definition withdrawal_with_price : json :=
  JDict [("id", JInt 8); ("datetime", JStr "2025-01-16T09:00:00Z");
         ("type", JStr "Withdrawal"); ("toAsset", JStr "USDC");
         ("toQuantity", JInt 1000); ("toPriceUsd", JInt 1)].

Definition deposit_with_zero_price : json :=
  JDict [("id", JInt 9); ("datetime", JStr "2025-01-17T09:00:00Z");
         ("type", JStr "Deposit"); ("toAsset", JStr "BTC");
         ("toQuantity", JInt 2); ("toPriceUsd", JInt 0)].

(** [d.get(key, default)] on the entries of a dict. *)
Definition get_or (d : list (string * json)) (key : string) (default : json) : json :=
  match lookup key d with
  | Some v => v
  | None => default
  end.

(** Sample payloads: [n] deposits with identifiers 1 to [n], oldest first,
    and [n] taxable events. *)
Definition sample_transaction (i : nat) : json :=
  JDict [("id", JInt (Z.of_nat i)); ("datetime", JStr "2025-01-15T10:30:00Z");
         ("type", JStr "Deposit"); ("toAsset", JStr "BTC"); ("toQuantity", JInt 1)].

Definition sample_transactions (n : nat) : list json :=
  List.map sample_transaction (List.seq 1 n).

Definition sample_event (i : nat) : json :=
  JDict [("datetime", JStr "2024-03-04T00:00:00Z"); ("transactionId", JInt (Z.of_nat i));
         ("gainLossUsd", JInt 5); ("gainLossRon", JInt 23)].

Definition sample_events (n : nat) : list json :=
  List.map sample_event (List.seq 1 n).

Definition markdown_transactions : ListTransactionsInput :=
  {| lt_portfolio_id := None; lt_response_format := MARKDOWN |}.

Definition markdown_tax_report : GetTaxReportInput :=
  {| tr_year := 2025; tr_portfolio_id := None; tr_asset_strategy := FIFO;
     tr_cash_strategy := FIFO; tr_response_format := MARKDOWN |}.

(** The lines the sample payloads render to. *)
Definition sample_transaction_line (i : nat) : string :=
  "- **2025-01-15** [Deposit] Deposit 1.0000 BTC (ID: " ++ dec (N.of_nat i) ++ ")".

Definition sample_event_line (i : nat) : string :=
  "- **2024-03-04** (TX #" ++ dec (N.of_nat i) ++ "): Gain/Loss +$5.00 / +23.00 RON".

(** A number that is zero: [0], [False], [0.0] or [-0.0]. *)
Definition is_zero_number (v : json) : bool :=
  match v with
  | JFloat f => PyFloat.is_zero f
  | _ =>
      match as_int v with
      | Some n => n =? 0
      | None => false
      end
  end.

Definition is_zero_division (e : exn) : bool :=
  match e with
  | Exception name _ => String.eqb name "ZeroDivisionError"
  | _ => false
  end.

(** A computation that does not raise [ZeroDivisionError]. *)
Definition no_zero_division {A : Type} (r : result A) : Prop :=
  forall e, r = Raise e -> is_zero_division e = false.

Definition markdown_history (days : Z) : GetHistoryInput :=
  {| hi_portfolio_id := 1; hi_days := days; hi_response_format := MARKDOWN |}.

(** A history of one day whose value is zero. *)
Definition single_zero_day : list (string * json) :=
  [("history", JList [JDict [("date", JStr "2025-01-01"); ("totalValue", JInt 0)]])].

(** The characters a JSON value may start with. *)
Definition value_start (c : ascii) : bool :=
  is_digit c || Ascii.eqb c dquote || has_char c "-[{ntfNI".

(** The sentence the holdings tool returns for an empty portfolio. *)
Definition empty_portfolio : string := "Portfolio is empty - no holdings found.".

(** The order of the magnitude of a float and a positive integer [n], by
    value: a finite float is [m * 2^e], and the two sides are multiplied
    by the power of two that clears the exponent.  A NaN is neither. *)
Definition magnitude_ge (v : float) (n : Z) : Prop :=
  match v with
  | S754_nan => False
  | S754_infinity _ => True
  | S754_zero _ => n <= 0
  | S754_finite _ m e => n * 2 ^ Z.max (- e) 0 <= Zpos m * 2 ^ Z.max e 0
  end.

Definition magnitude_lt (v : float) (n : Z) : Prop :=
  match v with
  | S754_nan => False
  | S754_infinity _ => False
  | S754_zero _ => 0 < n
  | S754_finite _ m e => Zpos m * 2 ^ Z.max e 0 < n * 2 ^ Z.max (- e) 0
  end.

(** [v >= 0] and [v < 0] by value; both zeros are non-negative. *)
Definition nonnegative (v : float) : Prop :=
  match v with
  | S754_nan => False
  | S754_infinity s => s = false
  | S754_zero _ => True
  | S754_finite s _ _ => s = false
  end.









Fixpoint distinct (keys : list string) : bool :=
  match keys with
  | [] => true
  | k :: ks => negb (List.existsb (String.eqb k) ks) && distinct ks
  end.


(** Induction on a payload, through its lists and dicts. *)
Fixpoint json_induction (P : json -> Prop)
  (HNull : P JNull) (HBool : forall b, P (JBool b)) (HInt : forall n, P (JInt n))
  (HFloat : forall f, P (JFloat f)) (HStr : forall s, P (JStr s))
  (HList : forall l, Forall P l -> P (JList l))
  (HDict : forall d, Forall (fun kv => P (snd kv)) d -> P (JDict d))
  (v : json) {struct v} : P v :=
  match v with
  | JNull => HNull
  | JBool b => HBool b
  | JInt n => HInt n
  | JFloat f => HFloat f
  | JStr s => HStr s
  | JList l =>
      HList l
        ((fix items (l : list json) : Forall P l :=
            match l with
            | [] => Forall_nil P
            | x :: l' =>
                Forall_cons x
                  (json_induction P HNull HBool HInt HFloat HStr HList HDict x) (items l')
            end) l)
  | JDict d =>
      HDict d
        ((fix members (d : list (string * json)) : Forall (fun kv => P (snd kv)) d :=
            match d with
            | [] => Forall_nil _
            | kv :: d' =>
                Forall_cons kv
                  (json_induction P HNull HBool HInt HFloat HStr HList HDict (snd kv))
                  (members d')
            end) d)
  end.


(** The items of an array at [level], and its members, as the encoder
    writes them between the brackets. *)
Definition items_text (level : nat) (l : list json) : string :=
  join ("," ++ newline_indent (S level)) (List.map (encode (S level)) l).

Definition member_text (level : nat) (kv : string * json) : string :=
  encode_str (fst kv) ++ ": " ++ encode (S level) (snd kv).

Definition members_text (level : nat) (d : list (string * json)) : string :=
  join ("," ++ newline_indent (S level)) (List.map (member_text level) d).

(** The six tools that take an output mode. *)
Definition structured (call : tool_call) : bool :=
  match response_format_of call with
  | Some JSON => true
  | _ => false
  end.


(** A client that answers every request with [resp]. *)
Definition answering (resp : response) : client := fun _ => Ok resp.

(** A client whose every call raises [e]. *)
Definition failing (e : exn) : client := fun _ => Raise e.

(** What [e.response.json()] gives the Error Classifier. *)
Definition body_of (resp : response) : option json :=
  match decoded resp with
  | Ok v => Some v
  | Raise _ => None
  end.

Definition is_dict (v : option json) : bool :=
  match v with
  | Some (JDict _) => true
  | _ => false
  end.
(** The input models of the three tools whose only checked field is the
    output mode, or that and the portfolio. *)
Record RawListTransactions : Type := {
  raw_lt_portfolio_id : option Z;
  raw_lt_response_format : option string
}.

Definition validate_ListTransactionsInput (raw : RawListTransactions)
  : validated ListTransactionsInput :=
  finish (fun fmt => {| lt_portfolio_id := raw_lt_portfolio_id raw;
                        lt_response_format := fmt |})
    (parse_format "response_format" (raw_lt_response_format raw)).

Record RawGetCashflow : Type := {
  raw_cf_portfolio_id : option Z;
  raw_cf_response_format : option string
}.

Definition validate_GetCashflowInput (raw : RawGetCashflow) : validated GetCashflowInput :=
  finish (fun '(pid, fmt) => {| cf_portfolio_id := pid; cf_response_format := fmt |})
    (both (int_ge "portfolio_id" 1 (with_default 1 (raw_cf_portfolio_id raw)))
          (parse_format "response_format" (raw_cf_response_format raw))).

Record RawListPortfolios : Type := { raw_lp_response_format : option string }.

Definition validate_ListPortfoliosInput (raw : RawListPortfolios)
  : validated ListPortfoliosInput :=
  finish (fun fmt => {| lp_response_format := fmt |})
    (parse_format "response_format" (raw_lp_response_format raw)).

(** The requests a tool call sends, from the raw arguments on. *)
Definition requests_sent {Raw Input : Type} (validate : Raw -> validated Input)
  (handler : Input -> context -> list request * string) (raw : Raw) (ctx : context)
  : list request :=
  fst (call_tool validate handler raw ctx).

(** A validation that failed, with an error of kind [kind] at [field]. *)
Definition rejected_at {A : Type} (field kind : string) (v : validated A) : Prop :=
  match v with
  | Valid _ => False
  | ValidationError errors => In {| loc := field; error_type := kind |} errors
  end.

(** A validator rejects the output mode [s]: the input fails with an
    [enum] error at [response_format], and the tool call sends nothing. *)
Definition rejects_mode {Raw Input : Type} (validate : Raw -> validated Input)
  (format_of : Raw -> option string) (s : string) : Prop :=
  forall raw,
    format_of raw = Some s ->
    rejected_at "response_format" "enum" (validate raw)
    /\ forall handler ctx, requests_sent validate handler raw ctx = [].

(** A JSON value that is not an object. *)
Definition not_an_object (v : json) : bool :=
  match v with
  | JDict _ => false
  | _ => true
  end.

(** The confirmation of [portfolio_add_transaction], without a price. *)
Definition created_text (id : json) (params : AddTransactionInput) : string :=
  "Transaction created (ID: " ++ py_str id ++ "). Type: "
  ++ TransactionType_value (at_type params) ++ ", Asset: "
  ++ PyFloat.repr (at_to_quantity params) ++ " " ++ at_to_asset params.

(** The values of a dict, none of which is [None]. *)
Definition no_null (d : list (string * json)) : Prop :=
  Forall (fun kv => snd kv <> JNull) d.


(** Items in strictly ascending order of their keys, compared as Python
    compares [str]: by code point, a proper prefix first. *)
Definition ascending (items : list (string * json)) : Prop :=
  Sorted (fun a b => String.ltb (fst a) (fst b) = true) items.

(** One line of the price list, for an item whose price renders as [amount]. *)
Definition price_text (item : string * json) (amount : string) : string :=
  "- **" ++ fst item ++ "**: " ++ amount.

(** The cash-flow report of a payload without summary and yearly flow. *)
Definition empty_cashflow_report : string :=
  join nl
    [ "# Cash Flow Analysis";
      "";
      "## Summary";
      "- **Total Money In:** $0.000000";
      "- **Total Money Out:** $0.000000";
      "- **Net Flow:** $0.000000";
      "";
      "- Bank Deposits: $0.000000";
      "- Bank Withdrawals: $0.000000";
      "- Net Bank Flow: $0.000000";
      "";
      "- Asset Purchases: $0.000000";
      "- Asset Sales: $0.000000";
      "- Net Trading: $0.000000";
      "";
      "- Taxable Events: 0";
      "- Total Transactions: 0" ].

(** ** Configuration: the [.env] file and the environment

    What the module does when it loads: [file] is the text of the [.env]
    file beside the package when there is one, [environ] is [os.environ]
    (CPython 3.11 on Linux for what [putenv] refuses). *)

Module Env.

Definition environ : Type := list (string * string).

(** [os.environ.get(key)] *)
Fixpoint get (e : environ) (key : string) : option string :=
  match e with
  | [] => None
  | (k, v) :: e' => if String.eqb k key then Some v else get e' key
  end.

Definition nul : ascii := "000"%char.

(** [os.environ.setdefault(key, value)]: a variable that is set is left as
    it is; setting a new one fails on a NUL in the name or the value and on
    an empty name. *)
Definition setdefault (e : environ) (key value : string) : result environ :=
  match get e key with
  | Some _ => Ok e
  | None =>
      if has_char nul key || has_char nul value then ValueError "embedded null byte"
      else if String.eqb key "" then Raise (Exception "OSError" "[Errno 22] Invalid argument")
      else Ok (e ++ [(key, value)])%list
  end.

(** The line boundaries of [str.splitlines] below code point 256. *)
Definition is_line_break (c : ascii) : bool :=
  ((10 <=? code c) && (code c <=? 13)) || ((28 <=? code c) && (code c <=? 30))
  || (code c =? 133).

(** [text.splitlines()]: a carriage return and the line feed after it are
    one boundary, and a boundary at the end opens no last line. *)
Fixpoint splitlines (text : string) : list string :=
  match text with
  | EmptyString => []
  | String c rest =>
      if is_line_break c then
        match rest with
        | String c' rest' =>
            if (code c =? 13) && (code c' =? 10) then "" :: splitlines rest'
            else "" :: splitlines rest
        | EmptyString => [""]
        end
      else
        match splitlines rest with
        | line :: lines => String c line :: lines
        | [] => [String c ""]
        end
  end.

(** [line.partition("=")]: the text before the first ["="] and the text
    after it. *)
Fixpoint partition_eq (line : string) : string * string :=
  match line with
  | EmptyString => ("", "")
  | String c rest =>
      if Ascii.eqb c "=" then ("", rest)
      else let '(k, v) := partition_eq rest in (String c k, v)
  end.

(** The variable a line of the file sets, if it sets one. *)
Definition entry_of_line (line : string) : option (string * string) :=
  let line := Text.strip line in
  if negb (String.eqb line "") && negb (prefix "#" line) && has_char "=" line then
    let '(key, value) := partition_eq line in
    Some (Text.strip key, Text.strip value)
  else None.

(** The loop over the lines of the file. *)
Fixpoint load_lines (lines : list string) (e : environ) : result environ :=
  match lines with
  | [] => Ok e
  | line :: lines' =>
      match entry_of_line line with
      | Some (key, value) => e' <- setdefault e key value ;; load_lines lines' e'
      | None => load_lines lines' e
      end
  end.

(** [if _env_path.exists(): for line in _env_path.read_text().splitlines(): ...] *)
Definition load_env (file : option string) (e : environ) : result environ :=
  match file with
  | Some text => load_lines (splitlines text) e
  | None => Ok e
  end.

Definition get_or_default (e : environ) (key default : string) : string :=
  match get e key with
  | Some v => v
  | None => default
  end.

Definition API_BASE_URL (e : environ) : string :=
  get_or_default e "PORTFOLIO_API_URL" "http://localhost:3000".

Definition API_KEY (e : environ) : string := get_or_default e "PORTFOLIO_API_KEY" "".

End Env.

(** The variables the lines of a [.env] text set, in their order. *)
Definition env_entries (text : string) : Env.environ :=
  List.flat_map
    (fun line =>
       match Env.entry_of_line line with
       | Some kv => [kv]
       | None => []
       end)
    (Env.splitlines text).

(** The value the file gives a variable: that of the first line setting it. *)
Definition file_value (file : option string) (key : string) : option string :=
  match file with
  | Some text => Env.get (env_entries text) key
  | None => None
  end.

(** A text of white space only. *)
Definition blank (s : string) : bool := all_chars Text.is_space s.

(** A symbol in normal form: not empty, no white space at its ends, no
    comma, and in upper case. *)
Definition normal_symbol (s : string) : Prop :=
  s <> "" /\ Text.strip s = s /\ has_char "," s = false /\ Text.upper s = s.

(** A printable ASCII character or a line feed. *)
Definition plain_char (c : ascii) : bool :=
  ((32 <=? code c) && (code c <=? 126)) || (code c =? 10).

(** A text of printable ASCII characters and line feeds only. *)
Definition plain_text (s : string) : bool := all_chars plain_char s.

(** The line of the portfolio list for an entry [p], when it has one: [p]
    is an object with a [name] and an [id]. *)
Definition lists_portfolio (p : json) (line : string) : Prop :=
  exists d name id,
    p = JDict d /\ lookup "name" d = Some name /\ lookup "id" d = Some id
    /\ line = "- **" ++ py_str name ++ "** (ID: " ++ py_str id ++ ") - created "
              ++ py_str (get_or d "createdAt" (JStr "N/A")).

(** * Properties *)

(** ** The dispatcher boundary *)

Lemma run_tool_attempt (url : string) (call : tool_call) (ctx : context) :
  run_tool url call ctx
  = (fst (send ctx (request_of call)), try_except url (attempt call ctx)).
Proof.
  destruct call; destruct ctx; try destruct (lt_portfolio_id params); reflexivity.
Qed.

Lemma handle_error_prefix (url : string) (e : exn) :
  prefix "Error:" (_handle_error url e) = true.
Proof.
  destruct e; reflexivity.
Qed.

(** C1. Whatever exception [e] the [try] block of a handler raises, in the
    Gateway call or while formatting the payload, the handler returns the
    Error Classifier's string for [e], and that string begins with
    ["Error:"]. *)
Theorem handler_returns_classified_error (url : string) (call : tool_call)
  (ctx : context) (e : exn) :
  attempt call ctx = Raise e ->
  snd (run_tool url call ctx) = _handle_error url e
  /\ prefix "Error:" (snd (run_tool url call ctx)) = true.
Proof.
  intros H. rewrite run_tool_attempt. simpl. rewrite H. simpl.
  split; [reflexivity | apply handle_error_prefix].
Qed.

(** A holding without its asset name makes the Formatter raise [KeyError]. *)
Lemma handler_returns_classified_error_witness :
  attempt (GetHoldings {| gh_portfolio_id := 1; gh_response_format := MARKDOWN |})
    (backend_returning (JDict [("holdings", JList [JDict [("pnl", JInt 1)]])]))
  = Raise (Exception "KeyError" "'asset'")
  /\ (snd (run_tool "http://localhost:3000"
            (GetHoldings {| gh_portfolio_id := 1; gh_response_format := MARKDOWN |})
            (backend_returning (JDict [("holdings", JList [JDict [("pnl", JInt 1)]])])))
      = _handle_error "http://localhost:3000" (Exception "KeyError" "'asset'")
      /\ prefix "Error:"
           (snd (run_tool "http://localhost:3000"
                   (GetHoldings {| gh_portfolio_id := 1; gh_response_format := MARKDOWN |})
                   (backend_returning (JDict [("holdings", JList [JDict [("pnl", JInt 1)]])]))))
         = true).
Proof.
  split.
  - reflexivity.
  - apply (handler_returns_classified_error "http://localhost:3000"
             (GetHoldings {| gh_portfolio_id := 1; gh_response_format := MARKDOWN |})
             (backend_returning (JDict [("holdings", JList [JDict [("pnl", JInt 1)]])]))
             (Exception "KeyError" "'asset'")).
    reflexivity.
Defined.

(** ** Validation of the symbol list *)

Lemma upper_not_empty (s : string) : s <> "" -> Text.upper s <> "".
Proof.
  destruct s as [|c s]; [congruence|]. intros _. simpl. unfold Text.upper_char.
  repeat match goal with |- context [if ?b then _ else _] => destruct b end;
    simpl; discriminate.
Qed.

Lemma join_cons_not_empty (sep x : string) (l : list string) :
  x <> "" -> join sep (x :: l) <> "".
Proof.
  intros Hx. unfold join. simpl. destruct l.
  - exact Hx.
  - destruct x; [congruence | simpl; discriminate].
Qed.

Lemma validate_symbols_empty (v : string) :
  validate_symbols v = "" <-> Forall (fun seg => Text.strip seg = "") (Text.split_comma v).
Proof.
  unfold validate_symbols. induction (Text.split_comma v) as [|seg segs IH]; simpl.
  - split; [constructor | reflexivity].
  - destruct (String.eqb (Text.strip seg) "") eqn:E; simpl.
    + apply String.eqb_eq in E. rewrite IH. split.
      * intros H. constructor; assumption.
      * intros H. inversion H; assumption.
    + apply String.eqb_neq in E. split.
      * intros H. exfalso.
        apply (join_cons_not_empty "," (Text.upper (Text.strip seg))
                 (map (fun s => Text.upper (Text.strip s))
                    (filter (fun s => negb (String.eqb (Text.strip s) "")) segs)));
          [apply upper_not_empty; exact E | exact H].
      * intros H. inversion H. congruence.
Qed.

(** C2, as stated, fails: the input [","] is not empty after trimming, so
    the length check passes; [validate_symbols] then drops its two empty
    segments and returns the empty string without raising, and the request
    goes out with [symbols=""]. *)
Lemma comma_only_symbols_are_accepted :
  call_tool validate_GetPricesInput (portfolio_get_prices "http://localhost:3000")
    {| raw_symbols := Some "," |} (backend_returning (JDict []))
  = ([{| method := GET; path := "/api/prices/current";
         query := Some [("symbols", JStr "")]; json_body := None |}],
     Valid "No prices found for: ").
Proof. reflexivity. Qed.

(** C2, amended. With [s] the symbols input trimmed of surrounding white
    space: an empty [s] fails validation ([string_too_short]) and a
    [s] above 200 characters fails it ([string_too_long]), both before any
    request is sent; any other [s] is accepted and normalised by
    [validate_symbols], to the empty string exactly when no segment
    between its commas holds a non-blank character. *)
Theorem symbols_validation (url : string) (v : string) (ctx : context) :
  let s := Text.strip_with Text.is_white_space v in
  (s = "" ->
   call_tool validate_GetPricesInput (portfolio_get_prices url)
     {| raw_symbols := Some v |} ctx
   = ([], ValidationError [{| loc := "symbols"; error_type := "string_too_short" |}]))
  /\ ((200 < String.length s)%nat ->
      call_tool validate_GetPricesInput (portfolio_get_prices url)
        {| raw_symbols := Some v |} ctx
      = ([], ValidationError [{| loc := "symbols"; error_type := "string_too_long" |}]))
  /\ (s <> "" -> (String.length s <= 200)%nat ->
      validate_GetPricesInput {| raw_symbols := Some v |}
      = Valid {| gp_symbols := validate_symbols s |})
  /\ (validate_symbols s = ""
      <-> Forall (fun seg => Text.strip seg = "") (Text.split_comma s)).
Proof.
  intros s. repeat split.
  - intros E. unfold call_tool, validate_GetPricesInput, then_check, required, str_field.
    simpl. fold s. rewrite E. reflexivity.
  - intros L. unfold call_tool, validate_GetPricesInput, then_check, required, str_field.
    simpl. fold s.
    destruct (Nat.ltb (String.length s) 1) eqn:E1.
    { apply Nat.ltb_lt in E1. lia. }
    destruct (Nat.ltb 200 (String.length s)) eqn:E2; [reflexivity|].
    apply Nat.ltb_ge in E2. lia.
  - intros N L. unfold validate_GetPricesInput, then_check, required, str_field.
    simpl. fold s.
    destruct (Nat.ltb (String.length s) 1) eqn:E1.
    { apply Nat.ltb_lt in E1. destruct s; [congruence | simpl in E1; lia]. }
    destruct (Nat.ltb 200 (String.length s)) eqn:E2; [|reflexivity].
    apply Nat.ltb_lt in E2. lia.
  - apply validate_symbols_empty.
  - apply validate_symbols_empty.
Qed.

(** ** Validation of a transaction to add *)

Lemma both_inl {A B : Type} (x : checked A) (y : checked B) (es : list error_detail)
  (P : error_detail -> Prop) :
  both x y = inl es ->
  (forall e, x = inl e -> Forall P e) ->
  (forall e, y = inl e -> Forall P e) ->
  Forall P es.
Proof.
  destruct x, y; simpl; intros H Hx Hy; inversion H; subst.
  - apply Forall_app. split; [apply Hx | apply Hy]; reflexivity.
  - apply Hx; reflexivity.
  - apply Hy; reflexivity.
Qed.

Lemma errors_at_fails {A : Type} (field kind : string) : errors_at field (@fails A field kind).
Proof.
  intros es H. inversion H. repeat constructor.
Qed.

Lemma errors_at_inr {A : Type} (field : string) (a : A) : errors_at field (inr a).
Proof.
  intros es H. discriminate H.
Qed.

Create HintDb checks.
#[local] Hint Resolve errors_at_fails errors_at_inr : checks.

Lemma errors_at_int_ge (field : string) (lo v : Z) : errors_at field (int_ge field lo v).
Proof.
  unfold int_ge. destruct (lo <=? v); auto with checks.
Qed.

Lemma errors_at_float_ge0 (field : string) (v : float) : errors_at field (float_ge0 field v).
Proof.
  unfold float_ge0. destruct (PyFloat.compare_Z v 0) as [[ | | ]|]; auto with checks.
Qed.

Lemma errors_at_str_field (field : string) (lo : nat) (hi : option nat) (v : string) :
  errors_at field (str_field field lo hi v).
Proof.
  unfold str_field.
  destruct (Nat.ltb _ lo); [auto with checks|].
  destruct hi as [hi|]; [destruct (Nat.ltb hi _)|]; auto with checks.
Qed.

Lemma errors_at_required {A : Type} (field : string) (v : option A) :
  errors_at field (required field v).
Proof.
  destruct v; simpl; auto with checks.
Qed.

Lemma errors_at_then_check {A B : Type} (field : string) (c : checked A) (k : A -> checked B) :
  errors_at field c -> (forall a, errors_at field (k a)) -> errors_at field (then_check c k).
Proof.
  intros Hc Hk. destruct c as [e|a]; simpl.
  - intros es H. apply Hc. inversion H. reflexivity.
  - apply Hk.
Qed.

Lemma errors_at_optional {A : Type} (field : string) (check : A -> checked A) (v : option A) :
  (forall a, errors_at field (check a)) -> errors_at field (optional check v).
Proof.
  intros Hk. destruct v as [a|]; simpl; [|auto with checks].
  specialize (Hk a). destruct (check a) as [e|a']; [|auto with checks].
  intros es H. apply Hk. inversion H. reflexivity.
Qed.

Lemma errors_at_not_source {A : Type} (field : string) (c : checked A) (es : list error_detail) :
  errors_at field c -> is_source_field field = false -> c = inl es ->
  Forall (fun e => is_source_field (loc e) = false) es.
Proof.
  intros Hc Hf H. apply Hc in H. eapply Forall_impl; [|exact H].
  simpl. intros e He. rewrite He. exact Hf.
Qed.

Lemma shared_fields_errors (raw : RawAddTransaction) (es : list error_detail) :
  shared_fields raw = inl es -> Forall (fun e => is_source_field (loc e) = false) es.
Proof.
  unfold shared_fields. intros H.
  eapply both_inl; [exact H | |]; clear H es.
  { intros es H. apply (errors_at_not_source "portfolio_id" _ es) in H;
      [exact H | apply errors_at_int_ge | reflexivity]. }
  intros es H. eapply both_inl; [exact H | |]; clear H es.
  { intros es H. apply (errors_at_not_source "datetime" _ es) in H; [exact H | | reflexivity].
    apply errors_at_then_check; [apply errors_at_required | intros; apply errors_at_str_field]. }
  intros es H. eapply both_inl; [exact H | |]; clear H es.
  { intros es H. apply (errors_at_not_source "to_asset" _ es) in H; [exact H | | reflexivity].
    apply errors_at_then_check; [apply errors_at_required | intros; apply errors_at_str_field]. }
  intros es H. eapply both_inl; [exact H | |]; clear H es.
  { intros es H. apply (errors_at_not_source "to_quantity" _ es) in H; [exact H | | reflexivity].
    apply errors_at_then_check; [apply errors_at_required | intros; apply errors_at_float_ge0]. }
  intros es H. apply (errors_at_not_source "notes" _ es) in H; [exact H | | reflexivity].
  apply errors_at_optional. intros; apply errors_at_str_field.
Qed.

(** C6. A Swap input in which [from_asset], [from_quantity] and
    [from_price_usd] are all absent is validated exactly as its other
    fields are: accepted, with the three fields left [None], when they
    pass, and otherwise rejected with their errors alone; no error is ever
    reported at one of the three missing fields. *)
Theorem swap_without_source_is_accepted (raw : RawAddTransaction) :
  swap_without_source raw ->
  validate_AddTransactionInput raw
  = match shared_fields raw with
    | inr (pid, (dt, (ta, (tq, notes)))) =>
        Valid {| at_portfolio_id := pid; at_type := SWAP; at_datetime := dt;
                 at_to_asset := ta; at_to_quantity := tq;
                 at_to_price_usd := raw_to_price_usd raw;
                 at_from_asset := None; at_from_quantity := None;
                 at_from_price_usd := None;
                 at_fees_usd := raw_fees_usd raw; at_notes := notes |}
    | inl errors => ValidationError errors
    end
  /\ (forall errors, validate_AddTransactionInput raw = ValidationError errors ->
      Forall (fun e => is_source_field (loc e) = false) errors).
Proof.
  intros (Ht & Ha & Hq & Hp).
  assert (E : validate_AddTransactionInput raw
              = match shared_fields raw with
                | inr (pid, (dt, (ta, (tq, notes)))) =>
                    Valid {| at_portfolio_id := pid; at_type := SWAP; at_datetime := dt;
                             at_to_asset := ta; at_to_quantity := tq;
                             at_to_price_usd := raw_to_price_usd raw;
                             at_from_asset := None; at_from_quantity := None;
                             at_from_price_usd := None;
                             at_fees_usd := raw_fees_usd raw; at_notes := notes |}
                | inl errors => ValidationError errors
                end).
  { unfold validate_AddTransactionInput, shared_fields.
    rewrite Ht, Ha, Hq, Hp. simpl.
    destruct (int_ge "portfolio_id" 1 (with_default 1 (raw_portfolio_id raw)));
      destruct (then_check (required "datetime" (raw_datetime raw)) (str_field "datetime" 0 None));
      destruct (then_check (required "to_asset" (uppercase_asset (raw_to_asset raw)))
                  (str_field "to_asset" 1 (Some 10%nat)));
      destruct (then_check (required "to_quantity" (raw_to_quantity raw))
                  (float_ge0 "to_quantity"));
      destruct (optional (str_field "notes" 0 (Some 500%nat)) (raw_notes raw));
      reflexivity. }
  split; [exact E|].
  intros errors H. rewrite E in H.
  destruct (shared_fields raw) as [es | [pid [dt [ta [tq notes]]]]] eqn:S.
  - inversion H. subst. apply (shared_fields_errors raw). exact S.
  - discriminate H.
Qed.

Lemma swap_without_source_is_accepted_witness :
  swap_without_source
    {| raw_portfolio_id := None; raw_type := Some "Swap";
       raw_datetime := Some "2025-01-15T10:30:00Z"; raw_to_asset := Some " ada ";
       raw_to_quantity := Some (S754_finite false 5000 0); raw_to_price_usd := None;
       raw_from_asset := None; raw_from_quantity := None; raw_from_price_usd := None;
       raw_fees_usd := None; raw_notes := None |}
  /\ validate_AddTransactionInput
       {| raw_portfolio_id := None; raw_type := Some "Swap";
          raw_datetime := Some "2025-01-15T10:30:00Z"; raw_to_asset := Some " ada ";
          raw_to_quantity := Some (S754_finite false 5000 0); raw_to_price_usd := None;
          raw_from_asset := None; raw_from_quantity := None; raw_from_price_usd := None;
          raw_fees_usd := None; raw_notes := None |}
     = Valid
         {| at_portfolio_id := 1; at_type := SWAP; at_datetime := "2025-01-15T10:30:00Z";
            at_to_asset := "ADA"; at_to_quantity := S754_finite false 5000 0;
            at_to_price_usd := None; at_from_asset := None; at_from_quantity := None;
            at_from_price_usd := None; at_fees_usd := None; at_notes := None |}.
Proof.
  split.
  - repeat split.
  - exact (proj1 (swap_without_source_is_accepted
                    {| raw_portfolio_id := None; raw_type := Some "Swap";
                       raw_datetime := Some "2025-01-15T10:30:00Z";
                       raw_to_asset := Some " ada ";
                       raw_to_quantity := Some (S754_finite false 5000 0);
                       raw_to_price_usd := None; raw_from_asset := None;
                       raw_from_quantity := None; raw_from_price_usd := None;
                       raw_fees_usd := None; raw_notes := None |}
                    (conj eq_refl (conj eq_refl (conj eq_refl eq_refl))))).
Defined.

(** ** Strings and the error monad *)

Lemma append_assoc (a b c : string) : (a ++ b) ++ c = a ++ (b ++ c).
Proof.
  induction a as [|x a IH]; simpl; [reflexivity | rewrite IH; reflexivity].
Qed.

Lemma append_nil_r (a : string) : a ++ "" = a.
Proof.
  induction a as [|x a IH]; simpl; [reflexivity | rewrite IH; reflexivity].
Qed.

Lemma append_length (a b : string) :
  String.length (a ++ b) = (String.length a + String.length b)%nat.
Proof.
  induction a as [|x a IH]; simpl; [reflexivity | rewrite IH; reflexivity].
Qed.

Lemma bind_ok {A B : Type} (r : result A) (k : A -> result B) (b : B) :
  bind r k = Ok b -> exists a, r = Ok a /\ k a = Ok b.
Proof.
  destruct r as [a|e]; simpl; intros H; [exists a; auto | discriminate H].
Qed.


(** ** The transaction list *)

(** C3, as stated, fails in two ways. A Withdrawal line never shows the
    unit price: here the payload holds [toPriceUsd = 1], which [_fmt_usd]
    renders ["$1.00"], and the line has no such text. A Deposit line shows
    the price only when it is truthy: a price of zero, present in the
    payload, is left out. *)
Lemma withdrawal_line_omits_price :
  transaction_line withdrawal_with_price
  = Ok "- **2025-01-16** [Withdrawal] Withdraw 1,000.00 USDC (ID: 8)"
  /\ py_get withdrawal_with_price "toPriceUsd" JNull = Ok (JInt 1)
  /\ _fmt_usd (JInt 1) = Ok "$1.00"
  /\ contains "$1.00" "- **2025-01-16** [Withdrawal] Withdraw 1,000.00 USDC (ID: 8)" = false
  /\ transaction_line deposit_with_zero_price
     = Ok "- **2025-01-17** [Deposit] Deposit 2.0000 BTC (ID: 9)"
  /\ py_get deposit_with_zero_price "toPriceUsd" JNull = Ok (JInt 0)
  /\ _fmt_usd (JInt 0) = Ok "$0.000000"
  /\ contains "$0.000000" "- **2025-01-17** [Deposit] Deposit 2.0000 BTC (ID: 9)" = false.
Proof. repeat split; reflexivity. Qed.

(** C3, amended. For a transaction whose quantity renders as [q]: a
    Deposit is described by the quantity, the asset and, when the payload
    holds a truthy (present, non-zero) unit price, that price; a
    Withdrawal is described by the quantity and the asset; and the
    rendered line holds that description between its date and kind and
    its fees, notes and identifier. *)
Theorem deposit_withdrawal_description (d : list (string * json)) (q : string) :
  get_fmt _fmt_qty (JDict d) "toQuantity" = Ok q ->
  let asset := py_str (get_or d "toAsset" (JStr "?")) in
  let price := get_or d "toPriceUsd" JNull in
  (py_truthy price = false ->
   transaction_desc (JDict d) (JStr "Deposit") = Ok ("Deposit " ++ q ++ " " ++ asset))
  /\ (forall p, py_truthy price = true -> _fmt_usd price = Ok p ->
      transaction_desc (JDict d) (JStr "Deposit")
      = Ok ("Deposit " ++ q ++ " " ++ asset ++ " @ " ++ p))
  /\ transaction_desc (JDict d) (JStr "Withdrawal") = Ok ("Withdraw " ++ q ++ " " ++ asset)
  /\ (forall line, transaction_line (JDict d) = Ok line ->
      exists dt desc tail,
        transaction_desc (JDict d) (get_or d "type" (JStr "?")) = Ok desc
        /\ line = "- **" ++ dt ++ "** [" ++ py_str (get_or d "type" (JStr "?")) ++ "] "
                  ++ desc ++ tail).
Proof.
  intros Hq asset price. repeat split.
  - intros Hp. unfold transaction_desc. simpl. rewrite Hq. simpl.
    fold (get_or d "toPriceUsd" JNull). fold price. rewrite Hp. reflexivity.
  - intros p Hp Hu. unfold transaction_desc. simpl. rewrite Hq. simpl.
    fold (get_or d "toPriceUsd" JNull). fold price. rewrite Hp.
    unfold item_fmt, py_getitem. unfold price, get_or in Hp, Hu.
    destruct (lookup "toPriceUsd" d) as [v|]; [|discriminate Hp].
    simpl. rewrite Hu. simpl. unfold asset.
    rewrite !append_assoc. reflexivity.
  - unfold transaction_desc. simpl. rewrite Hq. reflexivity.
  - intros line H. unfold transaction_line in H.
    simpl in H. fold (get_or d "datetime" (JStr "")) in H.
    apply bind_ok in H. destruct H as (dt & Hdt & H).
    fold (get_or d "type" (JStr "?")) in H.
    apply bind_ok in H. destruct H as (desc & Hdesc & H).
    apply bind_ok in H. destruct H as (fees & Hfees & H).
    apply bind_ok in H. destruct H as (notes & Hnotes & H).
    apply bind_ok in H. destruct H as (id & Hid & H).
    inversion H. exists (py_str dt), desc, (fees ++ notes ++ " (ID: " ++ py_str id ++ ")").
    split; [exact Hdesc|]. reflexivity.
Qed.

Lemma deposit_withdrawal_description_witness :
  get_fmt _fmt_qty (JDict [("toAsset", JStr "BTC"); ("toQuantity", JInt 2);
                           ("toPriceUsd", JInt 67000)]) "toQuantity" = Ok "2.0000"
  /\ transaction_desc (JDict [("toAsset", JStr "BTC"); ("toQuantity", JInt 2);
                              ("toPriceUsd", JInt 67000)]) (JStr "Deposit")
     = Ok "Deposit 2.0000 BTC @ $67,000.00".
Proof.
  split.
  - reflexivity.
  - apply (deposit_withdrawal_description
             [("toAsset", JStr "BTC"); ("toQuantity", JInt 2); ("toPriceUsd", JInt 67000)]
             "2.0000" eq_refl); reflexivity.
Defined.

(** ** Truncation of the transaction and tax-event lists *)




(** In narrative mode the body follows the header of the list. *)
Lemma render_transactions_markdown (tx : json) (txs : list json) :
  render_transactions markdown_transactions (JList (tx :: txs))
  = (section <- transactions_section (JList (tx :: txs)) ;;
     Ok (join nl
           (List.app
              ["# Transactions (" ++ str_int (Z.of_nat (List.length (tx :: txs))) ++ " total)"; ""]
              section))).
Proof. reflexivity. Qed.

(** Scenario: 61 transactions, the last 50 shown (identifiers 12 to 61),
    "last 50 of 61". *)
Lemma sixty_one_transactions :
  transactions_section (JList (sample_transactions 61))
  = Ok (List.app (List.map sample_transaction_line (List.seq 12 50))
          [nl ++ "_Showing last 50 of 61 transactions. Use JSON format for all._"]).
Proof. vm_compute. reflexivity. Qed.

(** Scenario: 50 transactions, all shown, no notice. *)
Lemma fifty_transactions :
  transactions_section (JList (sample_transactions 50))
  = Ok (List.map sample_transaction_line (List.seq 1 50)).
Proof. vm_compute. reflexivity. Qed.

(** Scenario: 42 taxable events, the first 30 listed, "30 of 42". *)
Lemma forty_two_events :
  events_section (JList (sample_events 42))
  = Ok (List.app (List.map sample_event_line (List.seq 1 30))
          [nl ++ "_Showing 30 of 42 events. Use JSON format for all._"]).
Proof. vm_compute. reflexivity. Qed.

(** Scenario: 30 taxable events, all listed, no notice. *)
Lemma thirty_events :
  events_section (JList (sample_events 30))
  = Ok (List.map sample_event_line (List.seq 1 30)).
Proof. vm_compute. reflexivity. Qed.

(** ** The value history: no division by zero *)

Lemma no_zero_division_ok {A : Type} (a : A) : no_zero_division (Ok a).
Proof. intros e H. discriminate H. Qed.

Lemma no_zero_division_bind {A B : Type} (r : result A) (k : A -> result B) :
  no_zero_division r -> (forall a, r = Ok a -> no_zero_division (k a)) ->
  no_zero_division (bind r k).
Proof.
  intros Hr Hk. destruct r as [a|e]; simpl.
  - apply Hk. reflexivity.
  - intros e' H. inversion H. subst. apply Hr. reflexivity.
Qed.

Ltac no_zd :=
  intros ? ?;
  repeat match goal with
    | H : context [match ?x with _ => _ end] |- _ => destruct x; simpl in H
    | H : context [if ?c then _ else _] |- _ => destruct c; simpl in H
    | H : Ok _ = Raise _ |- _ => discriminate H
    | H : Raise _ = Raise _ |- _ => inversion H; clear H; subst
    end;
  try reflexivity.

Lemma no_zd_float_of_int (n : Z) : no_zero_division (float_of_int n).
Proof. unfold float_of_int, OverflowError. no_zd. Qed.

Lemma no_zd_py_get (v : json) (key : string) (default : json) :
  no_zero_division (py_get v key default).
Proof. unfold py_get, AttributeError. no_zd. Qed.

Lemma no_zd_py_getitem (v : json) (key : string) : no_zero_division (py_getitem v key).
Proof. unfold py_getitem, not_subscriptable, KeyError, TypeError. no_zd. Qed.

Lemma no_zd_py_first (v : json) : no_zero_division (py_first v).
Proof. unfold py_first, not_subscriptable, KeyError, TypeError. no_zd. Qed.

Lemma no_zd_py_last (v : json) : no_zero_division (py_last v).
Proof. unfold py_last, not_subscriptable, KeyError, TypeError. no_zd. Qed.

Lemma no_zd_py_iter (v : json) : no_zero_division (py_iter v).
Proof. unfold py_iter, TypeError. no_zd. Qed.

Lemma no_zd_py_abs (v : json) : no_zero_division (py_abs v).
Proof. unfold py_abs, TypeError. no_zd. Qed.

Lemma no_zd_py_ge (v : json) (n : Z) : no_zero_division (py_ge v n).
Proof. unfold py_ge, not_supported, TypeError. no_zd. Qed.

Lemma no_zd_py_gt (v : json) (n : Z) : no_zero_division (py_gt v n).
Proof. unfold py_gt, not_supported, TypeError. no_zd. Qed.

Lemma no_zd_py_format_f (grouped : bool) (p : nat) (v : json) :
  no_zero_division (py_format_f grouped p v).
Proof.
  unfold py_format_f. destruct (to_float v) as [r|] eqn:E.
  - apply no_zero_division_bind; [|intros; apply no_zero_division_ok].
    unfold to_float in E. destruct v; simpl in E; inversion E;
      try apply no_zd_float_of_int; apply no_zero_division_ok.
  - unfold ValueError, TypeError. no_zd.
Qed.

Lemma no_zd_py_sub (a b : json) : no_zero_division (py_sub a b).
Proof.
  unfold py_sub.
  destruct (as_int a), (as_int b); try apply no_zero_division_ok;
    (destruct (to_float a) as [ra|] eqn:Ea; [|unfold unsupported_operands, TypeError; no_zd]);
    (destruct (to_float b) as [rb|] eqn:Eb; [|unfold unsupported_operands, TypeError; no_zd]);
    (apply no_zero_division_bind;
     [ unfold to_float in Ea; destruct a; simpl in Ea; inversion Ea;
       try apply no_zd_float_of_int; apply no_zero_division_ok
     | intros; apply no_zero_division_bind;
       [ unfold to_float in Eb; destruct b; simpl in Eb; inversion Eb;
         try apply no_zd_float_of_int; apply no_zero_division_ok
       | intros; apply no_zero_division_ok ] ]).
Qed.

Lemma no_zd_fmt_usd (v : json) : no_zero_division (_fmt_usd v).
Proof.
  unfold _fmt_usd.
  apply no_zero_division_bind; [apply no_zd_py_abs | intros a _].
  apply no_zero_division_bind; [apply no_zd_py_ge | intros big _].
  destruct big; (apply no_zero_division_bind;
                 [apply no_zd_py_format_f | intros; apply no_zero_division_ok]).
Qed.

Lemma no_zd_fmt_pct (v : json) : no_zero_division (_fmt_pct v).
Proof.
  unfold _fmt_pct.
  apply no_zero_division_bind; [apply no_zd_py_ge | intros nonneg _].
  apply no_zero_division_bind; [apply no_zd_py_format_f | intros; apply no_zero_division_ok].
Qed.

Lemma no_zd_mapM {A B : Type} (f : A -> result B) (l : list A) :
  (forall x, no_zero_division (f x)) -> no_zero_division (mapM f l).
Proof.
  intros Hf. induction l as [|x l IH]; simpl.
  - apply no_zero_division_ok.
  - apply no_zero_division_bind; [apply Hf | intros y _].
    apply no_zero_division_bind; [apply IH | intros; apply no_zero_division_ok].
Qed.

Lemma no_zd_history_line (entry : json) : no_zero_division (history_line entry).
Proof.
  unfold history_line, item_fmt.
  apply no_zero_division_bind; [apply no_zd_py_getitem | intros date _].
  apply no_zero_division_bind; [|intros; apply no_zero_division_ok].
  apply no_zero_division_bind; [apply no_zd_py_getitem | intros; apply no_zd_fmt_usd].
Qed.

Ltac no_zd_chain :=
  lazymatch goal with
  | |- no_zero_division (bind _ _) =>
      apply no_zero_division_bind; [no_zd_chain | intros; no_zd_chain]
  | |- no_zero_division (Ok _) => apply no_zero_division_ok
  | |- no_zero_division (mapM _ _) => apply no_zd_mapM; intros; no_zd_chain
  | |- _ =>
      first [ apply no_zd_py_last | apply no_zd_py_first | apply no_zd_py_getitem
            | apply no_zd_py_get | apply no_zd_py_sub | apply no_zd_fmt_usd
            | apply no_zd_fmt_pct | apply no_zd_py_iter | apply no_zd_history_line ]
  end.

(** With a first value of zero the guard [first_val > 0] fails, and the
    percent change is the integer 0. *)
Lemma change_percent_of_zero (change first_val : json) :
  is_zero_number first_val = true -> change_percent change first_val = Ok (JInt 0).
Proof.
  unfold change_percent, py_gt, cmp_int, is_zero_number.
  destruct first_val as [ |b|n|f|s|l|d]; simpl; try discriminate.
  - destruct b; simpl; [discriminate | reflexivity].
  - intros H. apply Z.eqb_eq in H. subst. reflexivity.
  - destruct f; simpl; try discriminate; reflexivity.
Qed.

Lemma fmt_pct_of_zero : _fmt_pct (JInt 0) = Ok "+0.00%".
Proof. reflexivity. Qed.

Lemma history_summary_of_zero (first : json) (rest : list json) (first_val : json) :
  py_getitem first "totalValue" = Ok first_val ->
  is_zero_number first_val = true ->
  history_summary (JList (first :: rest))
  = (last <- py_last (JList (first :: rest)) ;;
     last_val <- py_getitem last "totalValue" ;;
     change <- py_sub last_val first_val ;;
     first_date <- py_getitem first "date" ;;
     last' <- py_last (JList (first :: rest)) ;;
     last_date <- py_getitem last' "date" ;;
     start <- _fmt_usd first_val ;;
     finish_ <- _fmt_usd last_val ;;
     change_usd <- _fmt_usd change ;;
     Ok [ "**Period:** " ++ py_str first_date ++ " to " ++ py_str last_date;
          "**Start:** " ++ start ++ " | **End:** " ++ finish_;
          "**Change:** " ++ change_usd ++ " (+0.00%)";
          "" ]).
Proof.
  intros Hv Hz. unfold history_summary.
  change (py_first (JList (first :: rest))) with (@Ok json first).
  cbn [bind]. rewrite Hv. cbn [bind].
  destruct (py_last (JList (first :: rest))) as [last|e]; [cbn [bind] | reflexivity].
  destruct (py_getitem last "totalValue") as [last_val|e]; [cbn [bind] | reflexivity].
  destruct (py_sub last_val first_val) as [change|e]; [cbn [bind] | reflexivity].
  rewrite (change_percent_of_zero change first_val Hz). cbn [bind].
  destruct (py_getitem first "date") as [first_date|e]; [cbn [bind] | reflexivity].
  destruct (py_getitem last "date") as [last_date|e]; [cbn [bind] | reflexivity].
  destruct (_fmt_usd first_val) as [start|e]; [cbn [bind] | reflexivity].
  destruct (_fmt_usd last_val) as [finish_|e]; [cbn [bind] | reflexivity].
  destruct (_fmt_usd change) as [change_usd|e]; [cbn [bind] | reflexivity].
  rewrite fmt_pct_of_zero. reflexivity.
Qed.

(** C5. For a non-empty history whose first entry has a total value of
    zero, the narrative rendering never raises [ZeroDivisionError], and
    whenever it returns, its change line ends with the percent change
    ["+0.00%"]. *)
Theorem history_with_zero_start (days : Z) (d : list (string * json))
  (first : json) (rest : list json) (first_val : json) :
  lookup "history" d = Some (JList (first :: rest)) ->
  py_getitem first "totalValue" = Ok first_val ->
  is_zero_number first_val = true ->
  no_zero_division (render_history (markdown_history days) (JDict d))
  /\ (forall out, render_history (markdown_history days) (JDict d) = Ok out ->
      exists period start_end change_usd days_lines,
        out = join nl
                (List.app
                   ["# Portfolio Value History (" ++ str_int days ++ " days)"; ""]
                   (List.app
                      [period; start_end; "**Change:** " ++ change_usd ++ " (+0.00%)"; ""]
                      days_lines))).
Proof.
  intros Hh Hv Hz.
  assert (E : render_history (markdown_history days) (JDict d)
              = (summary <- history_summary (JList (first :: rest)) ;;
                 days_lines <- mapM history_line (first :: rest) ;;
                 Ok (join nl
                       (List.app
                          ["# Portfolio Value History (" ++ str_int days ++ " days)"; ""]
                          (List.app summary days_lines))))).
  { unfold render_history. simpl. rewrite Hh. reflexivity. }
  rewrite E. rewrite (history_summary_of_zero first rest first_val Hv Hz). split.
  - no_zd_chain.
  - intros out H.
    apply bind_ok in H. destruct H as (summary & Hs & H).
    apply bind_ok in H. destruct H as (days_lines & _ & H).
    inversion H. clear H. subst out.
    repeat (apply bind_ok in Hs; let x := fresh "x" in destruct Hs as (x & _ & Hs)).
    inversion Hs. clear Hs. subst summary.
    eexists _, _, _, _. reflexivity.
Qed.

(** Scenario: a single entry whose value is 0 renders ["+0.00%"]. *)
Lemma single_zero_entry :
  render_history (markdown_history 7) (JDict single_zero_day)
  = Ok (join nl
          [ "# Portfolio Value History (7 days)";
            "";
            "**Period:** 2025-01-01 to 2025-01-01";
            "**Start:** $0.000000 | **End:** $0.000000";
            "**Change:** $0.000000 (+0.00%)";
            "";
            "- 2025-01-01: $0.000000" ]).
Proof. reflexivity. Qed.

Lemma history_with_zero_start_witness :
  lookup "history" single_zero_day
  = Some (JList [JDict [("date", JStr "2025-01-01"); ("totalValue", JInt 0)]])
  /\ py_getitem (JDict [("date", JStr "2025-01-01"); ("totalValue", JInt 0)]) "totalValue"
     = Ok (JInt 0)
  /\ is_zero_number (JInt 0) = true
  /\ no_zero_division (render_history (markdown_history 7) (JDict single_zero_day)).
Proof.
  refine (conj eq_refl (conj eq_refl (conj eq_refl _))).
  exact (proj1 (history_with_zero_start 7 single_zero_day
                  (JDict [("date", JStr "2025-01-01"); ("totalValue", JInt 0)]) []
                  (JInt 0) eq_refl eq_refl eq_refl)).
Defined.

(** ** Decimal digits *)

Lemma uint_digits (d : Decimal.uint) : all_chars is_digit (NilEmpty.string_of_uint d) = true.
Proof.
  induction d; simpl; try rewrite IHd; reflexivity.
Qed.

Lemma dec_digits (n : N) : all_chars is_digit (dec n) = true.
Proof.
  unfold dec, NilZero.string_of_uint.
  destruct (N.to_uint n); try reflexivity; apply uint_digits.
Qed.

Lemma dec_not_empty (n : N) : dec n <> "".
Proof.
  unfold dec, NilZero.string_of_uint.
  destruct (N.to_uint n); simpl; discriminate.
Qed.

(** The first character of a string, or [default]. *)
Lemma dec_head (n : N) : exists c r, dec n = String c r /\ is_digit c = true.
Proof.
  pose proof (dec_digits n) as H. pose proof (dec_not_empty n) as N0.
  destruct (dec n) as [|c r]; [congruence|].
  exists c, r. split; [reflexivity|].
  simpl in H. apply andb_true_iff in H. apply H.
Qed.

Lemma str_int_head (z : Z) :
  exists c r, str_int z = String c r /\ (is_digit c = true \/ c = "-"%char).
Proof.
  unfold str_int, NilZero.string_of_int.
  destruct (Z.to_int z) as [d|d].
  - unfold NilZero.string_of_uint.
    pose proof (uint_digits d) as H.
    destruct d; simpl in *; eauto.
  - eexists _, _. split; [reflexivity | right; reflexivity].
Qed.

(** ** Where an encoded value starts *)

Lemma shortest_digits_dec (m : positive) (e : Z) :
  exists n decpt, PyFloat.shortest_digits m e = (dec n, decpt).
Proof.
  unfold PyFloat.shortest_digits.
  destruct (PyFloat.shortest_from 16 1 m e (PyFloat.decimal_exponent m e)) as [d k].
  destruct (PyFloat.strip_zeros 17 d k) as [d' k']. eauto.
Qed.

Lemma repr_finite_head (n : N) (decpt : Z) :
  exists c r, PyFloat.repr_finite (dec n) decpt = String c r /\ is_digit c = true.
Proof.
  destruct (dec_head n) as (c & r & E & D). rewrite E. unfold PyFloat.repr_finite.
  destruct ((decpt <=? -4) || (16 <? decpt)) eqn:X.
  - simpl. eauto.
  - destruct (decpt <=? 0) eqn:L0.
    + simpl. eexists _, _. split; reflexivity.
    + destruct (Z.of_nat (String.length (String c r)) <=? decpt).
      * simpl. eauto.
      * apply Z.leb_gt in L0. destruct (Z.to_nat decpt) eqn:T; [lia|]. simpl. eauto.
Qed.

Lemma digit_value_start (c : ascii) : is_digit c = true -> value_start c = true.
Proof.
  intros H. unfold value_start. rewrite H. reflexivity.
Qed.

Lemma encode_float_head (f : float) :
  exists c r, encode_float f = String c r /\ value_start c = true.
Proof.
  destruct f as [s|s| |s m e].
  - destruct s; simpl; eexists _, _; split; reflexivity.
  - destruct s; simpl; eexists _, _; split; reflexivity.
  - simpl; eexists _, _; split; reflexivity.
  - unfold encode_float, PyFloat.repr.
    destruct (shortest_digits_dec m e) as (n & decpt & E). rewrite E.
    destruct (repr_finite_head n decpt) as (c & r & R & D). rewrite R.
    destruct s; simpl.
    + eexists _, _; split; reflexivity.
    + exists c, r. split; [reflexivity | apply digit_value_start; exact D].
Qed.

Lemma encode_head (level : nat) (v : json) :
  exists c r, encode level v = String c r /\ value_start c = true.
Proof.
  destruct v as [ |b|n|f|s|l|d].
  - simpl; eexists _, _; split; reflexivity.
  - destruct b; simpl; eexists _, _; split; reflexivity.
  - simpl. destruct (str_int_head n) as (c & r & E & [D|D]); rewrite E; exists c, r.
    + split; [reflexivity | apply digit_value_start; exact D].
    + subst c. split; reflexivity.
  - apply encode_float_head.
  - simpl. unfold encode_str. eexists _, _. split; [reflexivity|].
    reflexivity.
  - destruct l; simpl; eexists _, _; split; reflexivity.
  - destruct d; simpl; eexists _, _; split; reflexivity.
Qed.

Lemma dumps_not_sentence (data : json) : Json.dumps data <> empty_portfolio.
Proof.
  unfold Json.dumps. destruct (encode_head 0 data) as (c & r & E & S). rewrite E.
  unfold empty_portfolio. intros H. inversion H. subst c. discriminate S.
Qed.

Lemma handle_error_not_sentence (url : string) (e : exn) : _handle_error url e <> empty_portfolio.
Proof.
  intros H. pose proof (handle_error_prefix url e) as P. rewrite H in P. discriminate P.
Qed.

(** ** The holdings tool: output mode before emptiness *)

Lemma render_holdings_empty (portfolio_id : Z) (d : list (string * json)) :
  py_truthy (get_or d "holdings" (JList [])) = false ->
  render_holdings {| gh_portfolio_id := portfolio_id; gh_response_format := MARKDOWN |}
    (JDict d)
  = Ok empty_portfolio.
Proof.
  intros T. unfold render_holdings. cbn [is_json gh_response_format py_get bind].
  unfold get_or in T. rewrite T. reflexivity.
Qed.

(** C10. In structured (JSON) mode the holdings tool returns the JSON echo
    of whatever payload the Gateway returned, an empty holdings list
    included, and never the sentence for an empty portfolio; that
    sentence is what narrative mode returns for a payload whose holdings
    are empty. *)
Theorem holdings_mode_before_empty_check (url : string) (portfolio_id : Z) (ctx : context) :
  let structured := {| gh_portfolio_id := portfolio_id; gh_response_format := JSON |} in
  let narrative := {| gh_portfolio_id := portfolio_id; gh_response_format := MARKDOWN |} in
  (forall data,
      snd (send ctx (request_of (GetHoldings structured))) = Ok data ->
      snd (portfolio_get_holdings url structured ctx) = Json.dumps data)
  /\ snd (portfolio_get_holdings url structured ctx) <> empty_portfolio
  /\ (forall d,
         snd (send ctx (request_of (GetHoldings narrative))) = Ok (JDict d) ->
         py_truthy (get_or d "holdings" (JList [])) = false ->
         snd (portfolio_get_holdings url narrative ctx) = empty_portfolio).
Proof.
  intros structured narrative. subst structured narrative. repeat split.
  - intros data H.
    match goal with
    | |- snd (portfolio_get_holdings url ?p ctx) = _ =>
        change (portfolio_get_holdings url p ctx) with (run_tool url (GetHoldings p) ctx)
    end.
    rewrite run_tool_attempt. cbn [snd]. unfold attempt. rewrite H. reflexivity.
  - match goal with
    | |- snd (portfolio_get_holdings url ?p ctx) <> _ =>
        change (portfolio_get_holdings url p ctx) with (run_tool url (GetHoldings p) ctx)
    end.
    rewrite run_tool_attempt. cbn [snd]. unfold attempt.
    destruct (snd (send ctx _)) as [data|e]; simpl.
    + apply dumps_not_sentence.
    + apply handle_error_not_sentence.
  - intros d H T.
    match goal with
    | |- snd (portfolio_get_holdings url ?p ctx) = _ =>
        change (portfolio_get_holdings url p ctx) with (run_tool url (GetHoldings p) ctx)
    end.
    rewrite run_tool_attempt. cbn [snd]. unfold attempt. rewrite H.
    cbn [bind render_of]. rewrite (render_holdings_empty portfolio_id d T). reflexivity.
Qed.

(** Scenario: an empty holdings list, in both modes. *)
Lemma empty_holdings_in_both_modes :
  snd (portfolio_get_holdings "http://localhost:3000"
         {| gh_portfolio_id := 1; gh_response_format := JSON |}
         (backend_returning (JDict [("holdings", JList [])])))
  = "{" ++ nl ++ "  " ++ String dquote "holdings" ++ String dquote ": []" ++ nl ++ "}"
  /\ snd (portfolio_get_holdings "http://localhost:3000"
            {| gh_portfolio_id := 1; gh_response_format := MARKDOWN |}
            (backend_returning (JDict [("holdings", JList [])])))
     = "Portfolio is empty - no holdings found.".
Proof. split; reflexivity. Qed.

(** ** The numeric formatters *)


Lemma all_chars_app (p : ascii -> bool) (a b : string) :
  all_chars p (a ++ b) = all_chars p a && all_chars p b.
Proof.
  induction a as [|c a IH]; simpl; [reflexivity|].
  rewrite IH. apply andb_assoc.
Qed.







(** How [abs(value) >= n] evaluates on a float. *)
Lemma cmp_dyadic_exponents (m e n : Z) :
  PyFloat.cmp_dyadic m e n 0 = (m * 2 ^ Z.max e 0 ?= n * 2 ^ Z.max (- e) 0).
Proof.
  unfold PyFloat.cmp_dyadic.
  replace (e - Z.min e 0) with (Z.max e 0) by lia.
  replace (0 - Z.min e 0) with (Z.max (- e) 0) by lia.
  reflexivity.
Qed.





(** The tier boundaries of the spec: 0.999999 and 1.00 for currency;
    0.99999999, 1.0, 99.9999 and 100 for quantities. *)
Lemma tier_boundaries :
  _fmt_usd (JFloat (PyFloat.of_decimal false 999999 (-6))) = Ok "$0.999999"
  /\ _fmt_usd (JFloat (PyFloat.of_decimal false 1 0)) = Ok "$1.00"
  /\ _fmt_usd (JFloat (PyFloat.of_decimal false 123456789 (-2))) = Ok "$1,234,567.89"
  /\ _fmt_usd (JFloat (PyFloat.of_decimal true 15 (-1))) = Ok "$-1.50"
  /\ _fmt_qty (JFloat (PyFloat.of_decimal false 99999999 (-8))) = Ok "0.99999999"
  /\ _fmt_qty (JFloat (PyFloat.of_decimal false 1 0)) = Ok "1.0000"
  /\ _fmt_qty (JFloat (PyFloat.of_decimal false 999999 (-4))) = Ok "99.9999"
  /\ _fmt_qty (JFloat (PyFloat.of_decimal false 100 0)) = Ok "100.00"
  /\ _fmt_qty (JFloat (PyFloat.of_decimal false 12345678 (-1))) = Ok "1,234,567.80".
Proof. repeat split; vm_compute; reflexivity. Qed.

(** Every float but a NaN falls in exactly one tier at each boundary. *)
Lemma magnitude_tiers (v : float) (n : Z) :
  0 < n -> v <> S754_nan ->
  (magnitude_ge v n \/ magnitude_lt v n) /\ ~ (magnitude_ge v n /\ magnitude_lt v n).
Proof.
  intros Hn Hv. destruct v as [s|s| |s m e]; simpl; try congruence; lia.
Qed.

(** ** The percentage formatter *)

Lemma pow2_pos (k : Z) : 0 <= k -> 0 < 2 ^ k.
Proof.
  intros H. apply Z.pow_pos_nonneg; lia.
Qed.





(** The sign on sample values, zero included. *)
Lemma percent_samples :
  _fmt_pct (JInt 0) = Ok "+0.00%"
  /\ _fmt_pct (JFloat (S754_zero true)) = Ok "+-0.00%"
  /\ _fmt_pct (JFloat (PyFloat.of_decimal false 1234 (-2))) = Ok "+12.34%"
  /\ _fmt_pct (JFloat (PyFloat.of_decimal true 5 (-1))) = Ok "-0.50%"
  /\ _fmt_pct (JFloat (PyFloat.of_decimal true 1 (-3))) = Ok "-0.00%"
  /\ _fmt_pct (JFloat (PyFloat.of_decimal false 1234567 (-1))) = Ok "+123456.70%".
Proof. repeat split; vm_compute; reflexivity. Qed.

(** ** Reading back what the encoder writes: strings *)




(** ** Reading back what the encoder writes: numbers *)













(** ** Reading back what the encoder writes: values *)


















(** ** Reading back what the encoder writes: the items of an array *)





(** ** Reading back what the encoder writes: the members of an object *)







(** ** Reading back what the encoder writes: dicts keep their members *)





(** ** Reading back what the encoder writes: the whole payload *)

Lemma encode_list (level : nat) (x : json) (l : list json) :
  encode level (JList (x :: l))
  = "[" ++ newline_indent (S level) ++ items_text level (x :: l)
    ++ newline_indent level ++ "]".
Proof. reflexivity. Qed.

Lemma encode_dict (level : nat) (kv : string * json) (d : list (string * json)) :
  encode level (JDict (kv :: d))
  = "{" ++ newline_indent (S level) ++ members_text level (kv :: d)
    ++ newline_indent level ++ "}".
Proof. reflexivity. Qed.





(** ** Structured output *)



(** ** The Gateway under every tool *)

(** X1. With a client, every tool sends exactly one request, whatever the
    client answers: a GET without body for the eight reading tools, a POST
    with a JSON body for [portfolio_add_transaction], a DELETE without body
    for [portfolio_delete_transaction].  Without a context ([ctx=None],
    the default) nothing is sent and every tool returns the same
    [AttributeError] string. *)
Theorem one_request_per_call (url : string) (call : tool_call) (http : client) :
  (exists req,
     fst (run_tool url call (Some http)) = [req]
     /\ method req = match call with
                     | AddTransaction _ => POST
                     | DeleteTransaction _ => DELETE
                     | _ => GET
                     end
     /\ json_body req = match call with
                        | AddTransaction p => Some (add_transaction_body p)
                        | _ => None
                        end)
  /\ run_tool url call None
     = ([], "Error: AttributeError: 'NoneType' object has no attribute 'request_context'").
Proof.
  rewrite !run_tool_attempt. cbn [fst send]. split; [|reflexivity].
  exists (request_of call). split; [reflexivity|].
  destruct call; split; reflexivity.
Qed.

Lemma attempt_status_error (call : tool_call) (http : client) (resp : response) :
  http (request_of call) = Ok resp ->
  (200 <=? status_code resp) && (status_code resp <=? 299) = false ->
  attempt call (Some http)
  = Raise (HTTPStatusError (status_code resp) (text resp) (body_of resp)).
Proof.
  intros H S. unfold attempt, send. cbn [snd]. rewrite H. cbn [bind].
  unfold raise_for_status. rewrite S. reflexivity.
Qed.

(** X2. When the backend answers a tool's request with a status outside
    200..299, the payload is never formatted, in either output mode: the
    tool returns the Error Classifier's string for that status, the body
    text and the decoded body. *)
Theorem status_error_skips_the_formatter (url : string) (call : tool_call) (http : client)
  (resp : response) :
  http (request_of call) = Ok resp ->
  status_code resp < 200 \/ 299 < status_code resp ->
  snd (run_tool url call (Some http))
  = _handle_error url (HTTPStatusError (status_code resp) (text resp) (body_of resp)).
Proof.
  intros H S. rewrite run_tool_attempt. cbn [snd].
  rewrite (attempt_status_error call http resp H); [reflexivity|].
  apply andb_false_iff. destruct S; [left | right]; lia.
Qed.

Lemma status_error_skips_the_formatter_witness :
  snd (run_tool "http://localhost:3000"
         (GetHoldings {| gh_portfolio_id := 1; gh_response_format := JSON |})
         (Some (answering {| status_code := 503; text := "Service Unavailable";
                             decoded := Ok (JDict [("error", JStr "down for maintenance")]) |})))
  = "Error: API returned status 503. down for maintenance".
Proof.
  apply (status_error_skips_the_formatter "http://localhost:3000"
           (GetHoldings {| gh_portfolio_id := 1; gh_response_format := JSON |})
           (answering {| status_code := 503; text := "Service Unavailable";
                         decoded := Ok (JDict [("error", JStr "down for maintenance")]) |})
           {| status_code := 503; text := "Service Unavailable";
              decoded := Ok (JDict [("error", JStr "down for maintenance")]) |}).
  - reflexivity.
  - right. reflexivity.
Defined.

Lemma take_length (n : nat) (s : string) : (String.length (take n s) <= n)%nat.
Proof.
  revert s. induction n as [|n IH]; intros [|c s]; simpl; try lia.
  specialize (IH s). lia.
Qed.

Lemma take_take (n : nat) (s : string) : take n (take n s) = take n s.
Proof.
  revert s. induction n as [|n IH]; intros [|c s]; simpl; try reflexivity.
  rewrite IH. reflexivity.
Qed.

(** X3. For an HTTP error whose body does not decode to a JSON object (not
    JSON at all, or a JSON list, string, number or null), the Error
    Classifier reads only the first 200 characters of the body text: the
    string is the one it returns for that prefix alone, and it is at most
    269 characters longer than the status number. *)
Theorem error_detail_is_truncated (url : string) (status : Z) (body_text : string)
  (body : option json) :
  is_dict body = false ->
  _handle_error url (HTTPStatusError status body_text body)
  = _handle_error url (HTTPStatusError status (take 200 body_text) None)
  /\ (String.length (_handle_error url (HTTPStatusError status body_text body))
      <= 269 + String.length (str_int status))%nat.
Proof.
  intros H.
  assert (_handle_error url (HTTPStatusError status body_text body)
          = "Error: "
            ++ (if status =? 401 then
                  "Authentication failed. Check your PORTFOLIO_API_KEY. Detail: "
                  ++ take 200 body_text
                else if status =? 403 then "Permission denied. " ++ take 200 body_text
                else if status =? 404 then "Not found. " ++ take 200 body_text
                else if status =? 429 then "Rate limit exceeded. Wait a moment and retry."
                else "API returned status " ++ str_int status ++ ". " ++ take 200 body_text))
    as E.
  { destruct body as [[ | | | | | |d]|]; try discriminate H; reflexivity. }
  split.
  - rewrite E. cbn [_handle_error]. rewrite take_take. reflexivity.
  - rewrite E. pose proof (take_length 200 body_text) as L.
    destruct (status =? 401); [|destruct (status =? 403); [|destruct (status =? 404);
      [|destruct (status =? 429)]]];
      repeat (rewrite append_length; cbn [String.length]); lia.
Qed.

Lemma error_detail_is_truncated_witness :
  _handle_error "http://localhost:3000"
    (HTTPStatusError 500 (repeat_char "x" 5000) (Some (JList [JStr "oops"])))
  = _handle_error "http://localhost:3000"
      (HTTPStatusError 500 (take 200 (repeat_char "x" 5000)) None)
  /\ (String.length
        (_handle_error "http://localhost:3000"
           (HTTPStatusError 500 (repeat_char "x" 5000) (Some (JList [JStr "oops"]))))
      <= 269 + String.length (str_int 500))%nat.
Proof.
  apply (error_detail_is_truncated "http://localhost:3000" 500 (repeat_char "x" 5000)
           (Some (JList [JStr "oops"]))).
  reflexivity.
Defined.
(** ** The Validation Layer in front of the handlers *)

Lemma call_tool_sent {Raw Input : Type} (validate : Raw -> validated Input)
  (handler : Input -> context -> list request * string) (raw : Raw) (ctx : context)
  (req : request) :
  In req (requests_sent validate handler raw ctx) ->
  exists params, validate raw = Valid params /\ In req (fst (handler params ctx)).
Proof.
  unfold requests_sent, call_tool. destruct (validate raw) as [params|errors].
  - intros H. exists params. split; [reflexivity|].
    destruct (handler params ctx). exact H.
  - intros [].
Qed.

Lemma sent_request (url : string) (call : tool_call) (ctx : context) (req : request) :
  In req (fst (run_tool url call ctx)) -> req = request_of call.
Proof.
  rewrite run_tool_attempt. destruct ctx as [http|]; cbn [fst send].
  - intros [H|[]]. symmetry. exact H.
  - intros [].
Qed.

Lemma history_input_bounds (raw : RawGetHistory) (p : GetHistoryInput) :
  validate_GetHistoryInput raw = Valid p ->
  hi_portfolio_id p = with_default 1 (raw_hi_portfolio_id raw)
  /\ hi_days p = with_default 7 (raw_hi_days raw)
  /\ 1 <= hi_portfolio_id p /\ 1 <= hi_days p <= 90.
Proof.
  unfold validate_GetHistoryInput, int_ge, int_range, finish, both.
  destruct (1 <=? with_default 1 (raw_hi_portfolio_id raw)) eqn:P;
    destruct (with_default 7 (raw_hi_days raw) <? 1) eqn:D1;
    destruct (90 <? with_default 7 (raw_hi_days raw)) eqn:D2;
    destruct (parse_format "response_format" (raw_hi_response_format raw));
    intros H; inversion H; subst; cbn [hi_portfolio_id hi_days]; lia.
Qed.

(** X4. Every request the history tool sends, from raw arguments on, is a
    GET of [/api/ticker/portfolio/history] whose [days] lies in 1..90 (7
    when the argument is absent) and whose [portfolioId] is at least 1 (1
    when absent): out-of-range arguments never reach the backend. *)
Theorem history_request_is_bounded (url : string) (raw : RawGetHistory) (ctx : context)
  (req : request) :
  In req (requests_sent validate_GetHistoryInput (portfolio_get_history url) raw ctx) ->
  exists portfolio_id days,
    req = {| method := GET; path := "/api/ticker/portfolio/history";
             query := Some [("portfolioId", JInt portfolio_id); ("days", JInt days)];
             json_body := None |}
    /\ portfolio_id = with_default 1 (raw_hi_portfolio_id raw)
    /\ days = with_default 7 (raw_hi_days raw)
    /\ 1 <= portfolio_id /\ 1 <= days <= 90.
Proof.
  intros H. apply call_tool_sent in H. destruct H as (p & V & H).
  apply (sent_request url (GetHistory p) ctx) in H.
  destruct (history_input_bounds raw p V) as (E1 & E2 & B1 & B2).
  exists (hi_portfolio_id p), (hi_days p). subst req. auto.
Qed.

Lemma history_request_is_bounded_witness :
  exists portfolio_id days,
    {| method := GET; path := "/api/ticker/portfolio/history";
       query := Some [("portfolioId", JInt 1); ("days", JInt 30)];
       json_body := None |}
    = {| method := GET; path := "/api/ticker/portfolio/history";
         query := Some [("portfolioId", JInt portfolio_id); ("days", JInt days)];
         json_body := None |}
    /\ portfolio_id = with_default 1 None
    /\ days = with_default 7 (Some 30)
    /\ 1 <= portfolio_id /\ 1 <= days <= 90.
Proof.
  apply (history_request_is_bounded "http://localhost:3000"
           {| raw_hi_portfolio_id := None; raw_hi_days := Some 30;
              raw_hi_response_format := Some "json" |}
           (backend_returning JNull)).
  left. reflexivity.
Defined.

(** X5. The delete tool sends its DELETE only for a transaction id that is
    given and at least 1, and the request names exactly that id; a missing
    id is rejected as [missing], an id below 1 as [greater_than_equal], and
    then nothing is sent. *)
Theorem delete_needs_a_positive_id (url : string) (raw : RawDeleteTransaction)
  (ctx : context) :
  (forall req,
     In req (requests_sent validate_DeleteTransactionInput
               (portfolio_delete_transaction url) raw ctx) ->
     exists id,
       raw_dt_transaction_id raw = Some id /\ 1 <= id
       /\ req = {| method := DELETE; path := "/api/transactions";
                   query := Some [("id", JInt id)]; json_body := None |})
  /\ (raw_dt_transaction_id raw = None ->
      call_tool validate_DeleteTransactionInput (portfolio_delete_transaction url) raw ctx
      = ([], ValidationError [{| loc := "transaction_id"; error_type := "missing" |}]))
  /\ (forall id,
        raw_dt_transaction_id raw = Some id -> id < 1 ->
        call_tool validate_DeleteTransactionInput (portfolio_delete_transaction url) raw ctx
        = ([], ValidationError
                 [{| loc := "transaction_id"; error_type := "greater_than_equal" |}])).
Proof.
  split; [|split].
  - intros req H. apply call_tool_sent in H. destruct H as (p & V & H).
    apply (sent_request url (DeleteTransaction p) ctx) in H. subst req.
    unfold validate_DeleteTransactionInput, required, int_ge, finish in V.
    destruct (raw_dt_transaction_id raw) as [id|]; [|discriminate V].
    destruct (1 <=? id) eqn:B; inversion V; subst.
    exists id. repeat split. lia.
  - intros E. unfold call_tool, validate_DeleteTransactionInput. rewrite E. reflexivity.
  - intros id E B. unfold call_tool, validate_DeleteTransactionInput, int_ge. rewrite E.
    cbn [required]. replace (1 <=? id) with false by (symmetry; apply Z.leb_gt; lia).
    reflexivity.
Qed.
Lemma tax_input_bounds (raw : RawGetTaxReport) (p : GetTaxReportInput) :
  validate_GetTaxReportInput raw = Valid p ->
  tr_year p = with_default 2025 (raw_tr_year raw)
  /\ tr_portfolio_id p = raw_tr_portfolio_id raw
  /\ 2015 <= tr_year p <= 2030.
Proof.
  unfold validate_GetTaxReportInput, int_range, finish, both.
  destruct (with_default 2025 (raw_tr_year raw) <? 2015) eqn:D1;
    destruct (2030 <? with_default 2025 (raw_tr_year raw)) eqn:D2;
    destruct (parse_strategy "asset_strategy" (raw_tr_asset_strategy raw));
    destruct (parse_strategy "cash_strategy" (raw_tr_cash_strategy raw));
    destruct (parse_format "response_format" (raw_tr_response_format raw));
    intros H; inversion H; subst; cbn [tr_year tr_portfolio_id];
    repeat split; try reflexivity; lia.
Qed.

(** X6. Every request the tax tool sends is a GET of [/api/tax/romania]
    whose [year] is the decimal text of a year in 2015..2030 (2025 when
    absent), followed by the two strategies by name.  The portfolio id is
    not range-checked: any integer, zero and negatives included, is passed
    on as decimal text, and an absent one adds no parameter. *)
Theorem tax_request_query (url : string) (raw : RawGetTaxReport) (ctx : context)
  (req : request) :
  In req (requests_sent validate_GetTaxReportInput (portfolio_get_tax_report url) raw ctx) ->
  exists year asset cash,
    req = {| method := GET; path := "/api/tax/romania";
             query :=
               Some (List.app
                       [ ("year", JStr (str_int year));
                         ("assetStrategy", JStr (TaxStrategy_value asset));
                         ("cashStrategy", JStr (TaxStrategy_value cash)) ]
                       match raw_tr_portfolio_id raw with
                       | Some id => [("portfolioId", JStr (str_int id))]
                       | None => []
                       end);
             json_body := None |}
    /\ year = with_default 2025 (raw_tr_year raw)
    /\ 2015 <= year <= 2030.
Proof.
  intros H. apply call_tool_sent in H. destruct H as (p & V & H).
  apply (sent_request url (GetTaxReport p) ctx) in H.
  destruct (tax_input_bounds raw p V) as (E1 & E2 & B).
  exists (tr_year p), (tr_asset_strategy p), (tr_cash_strategy p).
  subst req. cbn [request_of]. rewrite E2. unfold optional_entry. auto.
Qed.

Lemma tax_request_query_witness :
  exists year asset cash,
    {| method := GET; path := "/api/tax/romania";
       query := Some [("year", JStr "2025"); ("assetStrategy", JStr "HIFO");
                      ("cashStrategy", JStr "FIFO"); ("portfolioId", JStr "-5")];
       json_body := None |}
    = {| method := GET; path := "/api/tax/romania";
         query :=
           Some (List.app
                   [ ("year", JStr (str_int year));
                     ("assetStrategy", JStr (TaxStrategy_value asset));
                     ("cashStrategy", JStr (TaxStrategy_value cash)) ]
                   match Some (-5) with
                   | Some id => [("portfolioId", JStr (str_int id))]
                   | None => []
                   end);
         json_body := None |}
    /\ year = with_default 2025 None
    /\ 2015 <= year <= 2030.
Proof.
  apply (tax_request_query "http://localhost:3000"
           {| raw_tr_year := None; raw_tr_portfolio_id := Some (-5);
              raw_tr_asset_strategy := Some "HIFO"; raw_tr_cash_strategy := None;
              raw_tr_response_format := None |}
           (backend_returning JNull)).
  left. reflexivity.
Defined.

Lemma parse_format_unknown (field s : string) :
  s <> "markdown" -> s <> "json" -> parse_format field (Some s) = fails field "enum".
Proof.
  intros M J. unfold parse_format.
  destruct (String.eqb_spec s "markdown"); [contradiction|].
  destruct (String.eqb_spec s "json"); [contradiction | reflexivity].
Qed.

Lemma both_fails_r {A B : Type} (x : checked A) (field kind : string) :
  exists es, both x (@fails B field kind) = inl es
             /\ In {| loc := field; error_type := kind |} es.
Proof.
  destruct x as [e|a]; simpl.
  - exists (e ++ [{| loc := field; error_type := kind |}])%list.
    split; [reflexivity | apply in_or_app; right; left; reflexivity].
  - eexists. split; [reflexivity | left; reflexivity].
Qed.

Lemma both_inl_r {A B : Type} (x : checked A) (y : checked B) (e : error_detail)
  (es : list error_detail) :
  y = inl es -> In e es -> exists es', both x y = inl es' /\ In e es'.
Proof.
  intros Hy He. subst y. destruct x as [e0|a]; simpl.
  - exists (e0 ++ es)%list. split; [reflexivity | apply in_or_app; right; exact He].
  - exists es. split; [reflexivity | exact He].
Qed.

Lemma rejected_sends_nothing {Raw Input : Type} (validate : Raw -> validated Input)
  (field kind : string) (raw : Raw) :
  rejected_at field kind (validate raw) ->
  forall handler ctx, requests_sent validate handler raw ctx = [].
Proof.
  unfold rejected_at, requests_sent, call_tool.
  destruct (validate raw); [intros [] | reflexivity].
Qed.

Lemma finish_rejected {A B : Type} (build : A -> B) (c : checked A) (field kind : string)
  (es : list error_detail) :
  c = inl es -> In {| loc := field; error_type := kind |} es ->
  rejected_at field kind (finish build c).
Proof.
  intros E H. subst c. exact H.
Qed.


Lemma rejects_mode_intro {Raw Input : Type} (validate : Raw -> validated Input)
  (format_of : Raw -> option string) (s : string) :
  (forall raw, format_of raw = Some s -> rejected_at "response_format" "enum" (validate raw)) ->
  rejects_mode validate format_of s.
Proof.
  intros H raw E. split; [exact (H raw E)|].
  apply (rejected_sends_nothing validate "response_format" "enum" raw (H raw E)).
Qed.

(** The error of the last check of a chain is among the errors of the chain. *)
Ltac last_check_fails :=
  lazymatch goal with
  | |- context [both ?x (@fails ?B ?f ?k)] =>
      let es := fresh "es" in
      let E := fresh "E" in
      let I := fresh "I" in
      destruct (@both_fails_r _ B x f k) as (es & E & I); rewrite E; clear E;
      repeat
        lazymatch goal with
        | |- context [both ?y (@inl ?L ?R es)] =>
            let es' := fresh "es" in
            let E' := fresh "E" in
            let I' := fresh "I" in
            destruct (both_inl_r y (@inl L R es) _ es eq_refl I) as (es' & E' & I');
            rewrite E'; clear E' I; rename I' into I; clear es; rename es' into es
        end;
      exact I
  | |- context [@fails ?B ?f ?k] => left; reflexivity
  end.

(** X7. Each of the six tools with an output mode accepts only the exact
    texts [markdown] and [json] for it: any other text (another case,
    surrounding spaces, another word) fails validation with an [enum]
    error at [response_format], and no request is sent. *)
Theorem unknown_output_mode_is_rejected (s : string) :
  s <> "markdown" -> s <> "json" ->
  rejects_mode validate_GetHoldingsInput raw_gh_response_format s
  /\ rejects_mode validate_GetHistoryInput raw_hi_response_format s
  /\ rejects_mode validate_ListPortfoliosInput raw_lp_response_format s
  /\ rejects_mode validate_ListTransactionsInput raw_lt_response_format s
  /\ rejects_mode validate_GetCashflowInput raw_cf_response_format s
  /\ rejects_mode validate_GetTaxReportInput raw_tr_response_format s.
Proof.
  intros M J.
  assert (forall field, parse_format field (Some s) = fails field "enum") as P.
  { intros field. apply parse_format_unknown; assumption. }
  split; [|split; [|split; [|split; [|split]]]]; apply rejects_mode_intro; intros raw H.
  - unfold validate_GetHoldingsInput. rewrite H, P. last_check_fails.
  - unfold validate_GetHistoryInput. rewrite H, P. last_check_fails.
  - unfold validate_ListPortfoliosInput. rewrite H, P. last_check_fails.
  - unfold validate_ListTransactionsInput. rewrite H, P. last_check_fails.
  - unfold validate_GetCashflowInput. rewrite H, P. last_check_fails.
  - unfold validate_GetTaxReportInput. rewrite H, P. last_check_fails.
Qed.

Lemma unknown_output_mode_is_rejected_witness :
  rejects_mode validate_GetHoldingsInput raw_gh_response_format "JSON"
  /\ rejects_mode validate_GetHistoryInput raw_hi_response_format "JSON"
  /\ rejects_mode validate_ListPortfoliosInput raw_lp_response_format "JSON"
  /\ rejects_mode validate_ListTransactionsInput raw_lt_response_format "JSON"
  /\ rejects_mode validate_GetCashflowInput raw_cf_response_format "JSON"
  /\ rejects_mode validate_GetTaxReportInput raw_tr_response_format "JSON".
Proof.
  apply (unknown_output_mode_is_rejected "JSON"); discriminate.
Defined.
Lemma both_inr {A B : Type} (x : checked A) (y : checked B) (a : A) (b : B) :
  both x y = inr (a, b) -> x = inr a /\ y = inr b.
Proof.
  destruct x, y; simpl; intros H; inversion H. split; reflexivity.
Qed.

Lemma str_field_inr (field : string) (lo : nat) (hi : option nat) (v s : string) :
  str_field field lo hi v = inr s ->
  s = Text.strip_with Text.is_white_space v
  /\ (lo <= String.length s)%nat
  /\ match hi with
     | Some n => (String.length s <= n)%nat
     | None => True
     end.
Proof.
  unfold str_field.
  destruct (Nat.ltb_spec (String.length (Text.strip_with Text.is_white_space v)) lo);
    [discriminate|].
  destruct hi as [n|].
  - destruct (Nat.ltb_spec n (String.length (Text.strip_with Text.is_white_space v)));
      [discriminate|].
    intros E. inversion E. subst. auto.
  - intros E. inversion E. subst. auto.
Qed.

Lemma float_ge0_inr (field : string) (v q : float) :
  float_ge0 field v = inr q -> q = v /\ nonnegative q.
Proof.
  unfold float_ge0, PyFloat.compare_Z.
  destruct v as [s|s| |s m e]; cbn [PyFloat.dyadic].
  - intros E. inversion E. split; [reflexivity | exact I].
  - destruct s; intros E; inversion E. split; reflexivity.
  - discriminate.
  - rewrite cmp_dyadic_exponents.
    pose proof (pow2_pos (Z.max e 0) ltac:(lia)).
    destruct s;
      match goal with
      | |- context [?a ?= ?b] => destruct (Z.compare_spec a b)
      end; intros E; inversion E; subst; try (split; reflexivity); exfalso; nia.
Qed.

Lemma optional_inr {A : Type} (check : A -> checked A) (v r : option A) :
  optional check v = inr r ->
  match r with
  | Some a' => exists a, v = Some a /\ check a = inr a'
  | None => v = None
  end.
Proof.
  destruct v as [a|]; simpl.
  - destruct (check a) as [e|a'] eqn:E; intros H; inversion H. exists a. auto.
  - intros H. inversion H. reflexivity.
Qed.

Lemma then_check_inr {A B : Type} (c : checked A) (k : A -> checked B) (b : B) :
  then_check c k = inr b -> exists a, c = inr a /\ k a = inr b.
Proof.
  destruct c as [e|a]; simpl; [discriminate|]. intros H. exists a. auto.
Qed.

(** X8. A transaction input that passes validation has a portfolio id of
    at least 1; an asset received that is the upper-cased, trimmed text
    given, 1 to 10 characters long; a quantity received that is
    non-negative (never a NaN); an asset sold of at most 10 characters and
    a quantity sold that is non-negative, when given; notes of at most 500
    characters.  The two unit prices and the fees are not checked: they
    are carried over as given, whatever their sign. *)
Theorem valid_transaction_fields (raw : RawAddTransaction) (p : AddTransactionInput) :
  validate_AddTransactionInput raw = Valid p ->
  1 <= at_portfolio_id p
  /\ (exists given,
        raw_to_asset raw = Some given
        /\ at_to_asset p = Text.strip_with Text.is_white_space (Text.upper given))
  /\ (1 <= String.length (at_to_asset p) <= 10)%nat
  /\ nonnegative (at_to_quantity p)
  /\ (forall a, at_from_asset p = Some a -> (String.length a <= 10)%nat)
  /\ (forall q, at_from_quantity p = Some q -> nonnegative q)
  /\ (forall n, at_notes p = Some n -> (String.length n <= 500)%nat)
  /\ at_to_price_usd p = raw_to_price_usd raw
  /\ at_from_price_usd p = raw_from_price_usd raw
  /\ at_fees_usd p = raw_fees_usd raw.
Proof.
  unfold validate_AddTransactionInput, finish.
  match goal with |- match ?c with _ => _ end = _ -> _ => destruct c as [e|t] eqn:C end;
    [discriminate|].
  destruct t as (pid & ty & dt & ta & tq & fa & fq & notes).
  intros H. inversion H. subst p. clear H.
  cbn [at_portfolio_id at_to_asset at_to_quantity at_from_asset at_from_quantity at_notes
       at_to_price_usd at_from_price_usd at_fees_usd].
  apply both_inr in C. destruct C as [Cpid C].
  apply both_inr in C. destruct C as [_ C].
  apply both_inr in C. destruct C as [_ C].
  apply both_inr in C. destruct C as [Cta C].
  apply both_inr in C. destruct C as [Ctq C].
  apply both_inr in C. destruct C as [Cfa C].
  apply both_inr in C. destruct C as [Cfq Cn].
  repeat split.
  - unfold int_ge in Cpid. destruct (Z.leb_spec 1 (with_default 1 (raw_portfolio_id raw)));
      inversion Cpid. subst. assumption.
  - apply then_check_inr in Cta. destruct Cta as (u & R & S).
    destruct (raw_to_asset raw) as [given|]; [|discriminate R].
    inversion R. subst u. exists given. split; [reflexivity|].
    apply str_field_inr in S. apply S.
  - apply then_check_inr in Cta. destruct Cta as (u & _ & S).
    apply str_field_inr in S. apply S.
  - apply then_check_inr in Cta. destruct Cta as (u & _ & S).
    apply str_field_inr in S. apply S.
  - apply then_check_inr in Ctq. destruct Ctq as (q & _ & S).
    apply float_ge0_inr in S. apply S.
  - intros a E. subst fa. apply optional_inr in Cfa. destruct Cfa as (a0 & _ & S).
    apply str_field_inr in S. apply S.
  - intros q E. subst fq. apply optional_inr in Cfq. destruct Cfq as (q0 & _ & S).
    apply float_ge0_inr in S. apply S.
  - intros n E. subst notes. apply optional_inr in Cn. destruct Cn as (n0 & _ & S).
    apply str_field_inr in S. apply S.
Qed.

Lemma valid_transaction_fields_witness :
  1 <= 1
  /\ (exists given,
        Some " btc " = Some given
        /\ "BTC" = Text.strip_with Text.is_white_space (Text.upper given))
  /\ (1 <= String.length "BTC" <= 10)%nat
  /\ nonnegative (PyFloat.of_decimal false 5 (-1))
  /\ (forall a, @None string = Some a -> (String.length a <= 10)%nat)
  /\ (forall q, @None float = Some q -> nonnegative q)
  /\ (forall n, Some "first buy" = Some n -> (String.length n <= 500)%nat)
  /\ Some (PyFloat.of_decimal true 67000 0) = Some (PyFloat.of_decimal true 67000 0)
  /\ @None float = None
  /\ Some S754_nan = Some S754_nan.
Proof.
  apply (valid_transaction_fields
           {| raw_portfolio_id := None; raw_type := Some "Deposit";
              raw_datetime := Some "2025-01-15T10:30:00Z"; raw_to_asset := Some " btc ";
              raw_to_quantity := Some (PyFloat.of_decimal false 5 (-1));
              raw_to_price_usd := Some (PyFloat.of_decimal true 67000 0);
              raw_from_asset := None; raw_from_quantity := None;
              raw_from_price_usd := None; raw_fees_usd := Some S754_nan;
              raw_notes := Some "first buy" |}
           {| at_portfolio_id := 1; at_type := DEPOSIT;
              at_datetime := "2025-01-15T10:30:00Z"; at_to_asset := "BTC";
              at_to_quantity := PyFloat.of_decimal false 5 (-1);
              at_to_price_usd := Some (PyFloat.of_decimal true 67000 0);
              at_from_asset := None; at_from_quantity := None;
              at_from_price_usd := None; at_fees_usd := Some S754_nan;
              at_notes := Some "first buy" |}).
  vm_compute. reflexivity.
Defined.

(** ** The transaction tools *)

Lemma attempt_backend_returning (call : tool_call) (data : json) :
  attempt call (backend_returning data) = render_of call data.
Proof. reflexivity. Qed.

Lemma run_tool_backend_returning (url : string) (call : tool_call) (data : json) :
  run_tool url call (backend_returning data)
  = ([request_of call], try_except url (render_of call data)).
Proof.
  rewrite run_tool_attempt, attempt_backend_returning. reflexivity.
Qed.

(** X9. In the narrative transaction list, every kind other than [Swap]
    and [Deposit] (a missing kind, shown as [?], included) is described as
    a withdrawal of the received quantity and asset; and a [Swap] whose
    payload names neither source asset nor source quantity is described
    with the placeholders [0.00000000 ?] in their place. *)
Theorem other_kinds_read_as_withdrawals (d : list (string * json)) (kind : json)
  (q : string) :
  get_fmt _fmt_qty (JDict d) "toQuantity" = Ok q ->
  let asset := py_str (get_or d "toAsset" (JStr "?")) in
  (py_eq_str kind "Swap" = false -> py_eq_str kind "Deposit" = false ->
   transaction_desc (JDict d) kind = Ok ("Withdraw " ++ q ++ " " ++ asset))
  /\ (lookup "fromAsset" d = None -> lookup "fromQuantity" d = None ->
      transaction_desc (JDict d) (JStr "Swap")
      = Ok ("Swap 0.00000000 ? -> " ++ q ++ " " ++ asset)).
Proof.
  intros Hq asset. split.
  - intros S D. unfold transaction_desc. rewrite S, D, Hq. reflexivity.
  - intros A Q. unfold transaction_desc. cbn [py_eq_str String.eqb Ascii.eqb Bool.eqb].
    cbv iota. unfold get_fmt at 1. unfold py_get at 1 2. rewrite A, Q.
    cbn [bind]. change (_fmt_qty (JInt 0)) with (@Ok string "0.00000000").
    cbn [bind]. rewrite Hq. reflexivity.
Qed.

Lemma other_kinds_read_as_withdrawals_witness :
  transaction_desc (JDict [("toQuantity", JInt 3); ("toAsset", JStr "ETH")]) (JStr "Transfer")
  = Ok "Withdraw 3.0000 ETH"
  /\ transaction_desc (JDict [("toQuantity", JInt 3); ("toAsset", JStr "ETH")]) (JStr "Swap")
     = Ok "Swap 0.00000000 ? -> 3.0000 ETH".
Proof.
  destruct (other_kinds_read_as_withdrawals
              [("toQuantity", JInt 3); ("toAsset", JStr "ETH")] (JStr "Transfer") "3.0000"
              eq_refl) as [W S].
  split; [apply W; reflexivity | apply S; reflexivity].
Defined.

(** X10. The body [portfolio_add_transaction] posts holds the five
    mandatory fields under their camel-case names and, of the six optional
    ones, exactly those that are given: its keys are distinct, no value is
    [None], and an absent optional field has no key. *)
Theorem transaction_body_fields (p : AddTransactionInput) :
  exists d,
    add_transaction_body p = JDict d
    /\ distinct (List.map fst d) = true
    /\ no_null d
    /\ lookup "portfolioId" d = Some (JInt (at_portfolio_id p))
    /\ lookup "type" d = Some (JStr (TransactionType_value (at_type p)))
    /\ lookup "datetime" d = Some (JStr (at_datetime p))
    /\ lookup "toAsset" d = Some (JStr (at_to_asset p))
    /\ lookup "toQuantity" d = Some (JFloat (at_to_quantity p))
    /\ lookup "toPriceUsd" d = option_map JFloat (at_to_price_usd p)
    /\ lookup "fromAsset" d = option_map JStr (at_from_asset p)
    /\ lookup "fromQuantity" d = option_map JFloat (at_from_quantity p)
    /\ lookup "fromPriceUsd" d = option_map JFloat (at_from_price_usd p)
    /\ lookup "feesUsd" d = option_map JFloat (at_fees_usd p)
    /\ lookup "notes" d = option_map JStr (at_notes p).
Proof.
  destruct p as [pid ty dt ta tq tp fa fq fp fees notes].
  unfold add_transaction_body, no_null.
  cbn [at_portfolio_id at_type at_datetime at_to_asset at_to_quantity at_to_price_usd
       at_from_asset at_from_quantity at_from_price_usd at_fees_usd at_notes].
  eexists. split; [reflexivity|].
  destruct tp, fa, fq, fp, fees, notes; cbn [optional_entry List.app option_map];
    (split; [reflexivity|]); (split; [repeat constructor; discriminate|]);
    repeat split.
Qed.

Lemma render_add_without_price (p : AddTransactionInput) (r : list (string * json)) :
  float_truthy (at_to_price_usd p) = false ->
  render_add_transaction p (JDict r) = Ok (created_text (get_or r "id" (JStr "?")) p).
Proof.
  intros H. unfold render_add_transaction, created_text. cbn [py_get bind]. rewrite H.
  cbn [bind]. fold (get_or r "id" (JStr "?")). rewrite append_nil_r.
  rewrite ?append_assoc. reflexivity.
Qed.

(** X11. When the unit price given to [portfolio_add_transaction] is zero
    (either sign), the posted body still carries it as [toPriceUsd], but
    the confirmation leaves the price out, as it does for an absent price:
    the text ends with the quantity and the asset. *)
Theorem zero_price_is_sent_but_not_confirmed (url : string) (p : AddTransactionInput)
  (sign : bool) (r : list (string * json)) :
  at_to_price_usd p = Some (S754_zero sign) ->
  run_tool url (AddTransaction p) (backend_returning (JDict r))
  = ([ {| method := POST; path := "/api/transactions"; query := None;
          json_body := Some (add_transaction_body p) |} ],
     created_text (get_or r "id" (JStr "?")) p)
  /\ py_get (add_transaction_body p) "toPriceUsd" JNull = Ok (JFloat (S754_zero sign)).
Proof.
  intros H. split.
  - rewrite run_tool_backend_returning. cbn [request_of render_of].
    rewrite render_add_without_price; [reflexivity|]. rewrite H. destruct sign; reflexivity.
  - unfold add_transaction_body. rewrite H. reflexivity.
Qed.

Lemma zero_price_is_sent_but_not_confirmed_witness :
  snd (run_tool "http://localhost:3000"
         (AddTransaction
            {| at_portfolio_id := 1; at_type := DEPOSIT;
               at_datetime := "2025-01-15T10:30:00Z"; at_to_asset := "BTC";
               at_to_quantity := PyFloat.of_decimal false 5 (-1);
               at_to_price_usd := Some (S754_zero false);
               at_from_asset := None; at_from_quantity := None;
               at_from_price_usd := None; at_fees_usd := None; at_notes := None |})
         (backend_returning (JDict [("id", JInt 42)])))
  = "Transaction created (ID: 42). Type: Deposit, Asset: 0.5 BTC".
Proof.
  exact (f_equal snd
           (proj1 (zero_price_is_sent_but_not_confirmed "http://localhost:3000"
                     {| at_portfolio_id := 1; at_type := DEPOSIT;
                        at_datetime := "2025-01-15T10:30:00Z"; at_to_asset := "BTC";
                        at_to_quantity := PyFloat.of_decimal false 5 (-1);
                        at_to_price_usd := Some (S754_zero false);
                        at_from_asset := None; at_from_quantity := None;
                        at_from_price_usd := None; at_fees_usd := None; at_notes := None |}
                     false [("id", JInt 42)] eq_refl))).
Defined.
(** X12. When the backend accepts the POST of [portfolio_add_transaction]
    (status 2xx) but replies with JSON that is not an object (a list, a
    string, a number, [null]), the request has been sent and the tool
    still returns an error: the [AttributeError] of reading [id] off the
    reply. *)
Theorem created_reply_must_be_an_object (url : string) (p : AddTransactionInput)
  (reply : json) :
  not_an_object reply = true ->
  run_tool url (AddTransaction p) (backend_returning reply)
  = ([ {| method := POST; path := "/api/transactions"; query := None;
          json_body := Some (add_transaction_body p) |} ],
     "Error: AttributeError: '" ++ type_name reply ++ "' object has no attribute 'get'").
Proof.
  intros H. rewrite run_tool_backend_returning. cbn [request_of render_of]. f_equal.
  unfold render_add_transaction.
  destruct reply as [ |b|n|f|s|l|d]; try discriminate H; cbn [py_get bind];
    cbn [AttributeError try_except bind _handle_error quoted type_name];
    rewrite ?append_assoc; reflexivity.
Qed.

Lemma created_reply_must_be_an_object_witness :
  snd (run_tool "http://localhost:3000"
         (AddTransaction
            {| at_portfolio_id := 1; at_type := WITHDRAWAL;
               at_datetime := "2025-02-01T00:00:00Z"; at_to_asset := "USDC";
               at_to_quantity := PyFloat.of_decimal false 1000 0;
               at_to_price_usd := None; at_from_asset := None; at_from_quantity := None;
               at_from_price_usd := None; at_fees_usd := None; at_notes := None |})
         (backend_returning (JList [JDict [("id", JInt 7)]])))
  = "Error: AttributeError: 'list' object has no attribute 'get'".
Proof.
  exact (f_equal snd
           (created_reply_must_be_an_object "http://localhost:3000"
              {| at_portfolio_id := 1; at_type := WITHDRAWAL;
                 at_datetime := "2025-02-01T00:00:00Z"; at_to_asset := "USDC";
                 at_to_quantity := PyFloat.of_decimal false 1000 0;
                 at_to_price_usd := None; at_from_asset := None; at_from_quantity := None;
                 at_from_price_usd := None; at_fees_usd := None; at_notes := None |}
              (JList [JDict [("id", JInt 7)]]) eq_refl)).
Defined.

(** X13. After a DELETE answered with a status in 200..299,
    [portfolio_delete_transaction] confirms the deletion whatever JSON the
    body holds, without reading it; but when the body is not JSON (as the
    empty body of a 204), decoding it raises and the tool returns that
    error, although the request was sent and accepted. *)
Theorem delete_confirmation_ignores_the_body (url : string) (p : DeleteTransactionInput)
  (http : client) (resp : response) :
  http (request_of (DeleteTransaction p)) = Ok resp ->
  200 <= status_code resp <= 299 ->
  fst (run_tool url (DeleteTransaction p) (Some http))
  = [ {| method := DELETE; path := "/api/transactions";
         query := Some [("id", JInt (dt_transaction_id p))]; json_body := None |} ]
  /\ (forall body,
        decoded resp = Ok body ->
        snd (run_tool url (DeleteTransaction p) (Some http))
        = "Transaction " ++ str_int (dt_transaction_id p) ++ " deleted successfully.")
  /\ (forall e,
        decoded resp = Raise e ->
        snd (run_tool url (DeleteTransaction p) (Some http)) = _handle_error url e).
Proof.
  intros H S. rewrite run_tool_attempt. cbn [fst snd send]. split; [reflexivity|].
  unfold attempt, send. cbn [snd]. rewrite H. cbn [bind]. unfold raise_for_status.
  replace ((200 <=? status_code resp) && (status_code resp <=? 299)) with true
    by (symmetry; apply andb_true_iff; split; apply Z.leb_le; lia).
  cbn [bind]. split; intros x E; rewrite E; reflexivity.
Qed.

Lemma delete_confirmation_ignores_the_body_witness :
  snd (run_tool "http://localhost:3000" (DeleteTransaction {| dt_transaction_id := 12 |})
         (Some (answering
                  {| status_code := 204; text := "";
                     decoded := Raise (Exception "JSONDecodeError"
                                         "Expecting value: line 1 column 1 (char 0)") |})))
  = "Error: JSONDecodeError: Expecting value: line 1 column 1 (char 0)".
Proof.
  exact (proj2 (proj2
           (delete_confirmation_ignores_the_body "http://localhost:3000"
              {| dt_transaction_id := 12 |}
              (answering
                 {| status_code := 204; text := "";
                    decoded := Raise (Exception "JSONDecodeError"
                                        "Expecting value: line 1 column 1 (char 0)") |})
              {| status_code := 204; text := "";
                 decoded := Raise (Exception "JSONDecodeError"
                                     "Expecting value: line 1 column 1 (char 0)") |}
              eq_refl ltac:(simpl; lia)))
           (Exception "JSONDecodeError" "Expecting value: line 1 column 1 (char 0)")
           eq_refl).
Defined.
(** ** The price tools *)


(** ** [sorted(d.items())] *)

Lemma insert_sorted_perm (kv : string * json) (l : list (string * json)) :
  Permutation (kv :: l) (insert_sorted kv l).
Proof.
  induction l as [|kv' l IH]; simpl; [apply Permutation_refl|].
  destruct (String.leb (fst kv) (fst kv')); [apply Permutation_refl|].
  eapply Permutation_trans; [apply perm_swap|]. apply perm_skip. exact IH.
Qed.

Lemma sorted_items_perm (d : list (string * json)) :
  Permutation d (List.fold_right insert_sorted [] d).
Proof.
  induction d as [|kv d IH]; simpl; [apply Permutation_refl|].
  eapply Permutation_trans; [|apply insert_sorted_perm]. apply perm_skip. exact IH.
Qed.

Lemma insert_sorted_head (kv x : string * json) (l : list (string * json)) :
  String.leb (fst x) (fst kv) = true ->
  HdRel (fun a b => String.leb (fst a) (fst b) = true) x l ->
  HdRel (fun a b => String.leb (fst a) (fst b) = true) x (insert_sorted kv l).
Proof.
  intros Hx H. destruct l as [|kv' l]; simpl.
  - constructor. exact Hx.
  - destruct (String.leb (fst kv) (fst kv')); constructor; [exact Hx|].
    inversion H. assumption.
Qed.

Lemma insert_sorted_sorted (kv : string * json) (l : list (string * json)) :
  Sorted (fun a b => String.leb (fst a) (fst b) = true) l ->
  Sorted (fun a b => String.leb (fst a) (fst b) = true) (insert_sorted kv l).
Proof.
  induction 1 as [|kv' l S IH H]; simpl.
  - repeat constructor.
  - destruct (String.leb (fst kv) (fst kv')) eqn:E.
    + constructor; [constructor; assumption | constructor; exact E].
    + constructor; [exact IH|]. apply insert_sorted_head; [|exact H].
      destruct (String.leb_total (fst kv) (fst kv')) as [T|T]; [congruence | exact T].
Qed.

Lemma sorted_items_sorted (d : list (string * json)) :
  Sorted (fun a b => String.leb (fst a) (fst b) = true) (List.fold_right insert_sorted [] d).
Proof.
  induction d as [|kv d IH]; simpl; [constructor | apply insert_sorted_sorted, IH].
Qed.

Lemma distinct_NoDup (keys : list string) : distinct keys = true -> NoDup keys.
Proof.
  induction keys as [|k ks IH]; simpl; intros H; constructor.
  - apply andb_true_iff in H. destruct H as [H _]. apply negb_true_iff in H.
    intros I. assert (List.existsb (String.eqb k) ks = true) as X.
    { apply List.existsb_exists. exists k. split; [exact I | apply String.eqb_refl]. }
    congruence.
  - apply andb_true_iff in H. apply IH, H.
Qed.

Lemma leb_ltb (a b : string) : String.leb a b = true -> a <> b -> String.ltb a b = true.
Proof.
  unfold String.leb, String.ltb. destruct (String.compare a b) eqn:C; try congruence.
  apply String.compare_eq_iff in C. congruence.
Qed.

Lemma sorted_strict (l : list (string * json)) :
  Sorted (fun a b => String.leb (fst a) (fst b) = true) l ->
  NoDup (List.map fst l) -> ascending l.
Proof.
  unfold ascending. induction 1 as [|x l S IH H]; simpl; intros N; constructor.
  - apply IH. inversion N. assumption.
  - destruct H as [|y l H]; constructor.
    apply leb_ltb; [exact H|]. inversion N as [|? ? Hx _]. subst.
    intros E. apply Hx. left. symmetry. exact E.
Qed.

Lemma mapM_Forall2 {A B : Type} (f : A -> result B) (l : list A) (out : list B) :
  mapM f l = Ok out -> Forall2 (fun x y => f x = Ok y) l out.
Proof.
  revert out. induction l as [|x l IH]; simpl; intros out H.
  - inversion H. constructor.
  - apply bind_ok in H. destruct H as (y & Hy & H).
    apply bind_ok in H. destruct H as (ys & Hys & H).
    inversion H. constructor; [exact Hy | apply IH, Hys].
Qed.

(** X15. [portfolio_get_prices] lists the prices it received in strictly
    ascending order of their symbols, whatever their order in the
    payload: when it returns a list, the lines after the title are those
    of a rearrangement of the payload's prices, sorted by symbol, each
    line built from its symbol and its price as [_fmt_usd] renders it. *)
Theorem prices_are_listed_by_symbol (p : GetPricesInput) (d prices : list (string * json))
  (out : string) :
  lookup "prices" d = Some (JDict prices) ->
  prices <> [] ->
  distinct (List.map fst prices) = true ->
  render_prices p (JDict d) = Ok out ->
  exists items lines,
    Permutation prices items
    /\ ascending items
    /\ Forall2 (fun item line =>
                  exists amount,
                    _fmt_usd (snd item) = Ok amount /\ line = price_text item amount)
         items lines
    /\ out = join nl ("# Current Prices" :: "" :: lines).
Proof.
  intros E N D H. unfold render_prices in H. cbn [py_get bind] in H. rewrite E in H.
  destruct prices as [|kv prices]; [congruence|].
  cbn [py_truthy negb sorted_items bind] in H.
  apply bind_ok in H. destruct H as (lines & M & H). inversion H.
  exists (List.fold_right insert_sorted [] (kv :: prices)), lines.
  split; [apply sorted_items_perm|]. split; [|split; [|reflexivity]].
  - apply sorted_strict; [apply sorted_items_sorted|].
    apply (Permutation_NoDup (l := List.map fst (kv :: prices))).
    + apply Permutation_map, sorted_items_perm.
    + apply distinct_NoDup, D.
  - apply mapM_Forall2 in M. eapply Forall2_impl; [|exact M].
    intros [symbol price] line L. unfold price_line in L.
    apply bind_ok in L. destruct L as (amount & A & L). inversion L.
    exists amount. split; [exact A | reflexivity].
Qed.

Lemma prices_are_listed_by_symbol_witness :
  exists items lines,
    Permutation [("ETH", JInt 3200); ("ADA", JFloat (PyFloat.of_decimal false 45 (-2)));
                 ("BTC", JInt 97000)] items
    /\ ascending items
    /\ Forall2 (fun item line =>
                  exists amount,
                    _fmt_usd (snd item) = Ok amount /\ line = price_text item amount)
         items lines
    /\ join nl ["# Current Prices"; ""; "- **ADA**: $0.450000"; "- **BTC**: $97,000.00";
                "- **ETH**: $3,200.00"]
       = join nl ("# Current Prices" :: "" :: lines).
Proof.
  apply (prices_are_listed_by_symbol {| gp_symbols := "ETH,ADA,BTC" |}
           [("prices",
             JDict [("ETH", JInt 3200); ("ADA", JFloat (PyFloat.of_decimal false 45 (-2)));
                    ("BTC", JInt 97000)])]
           [("ETH", JInt 3200); ("ADA", JFloat (PyFloat.of_decimal false 45 (-2)));
            ("BTC", JInt 97000)]).
  - reflexivity.
  - discriminate.
  - reflexivity.
  - vm_compute. reflexivity.
Defined.
(** ** Missing and null amounts *)

(** X16. In the narrative cash-flow report a missing amount counts as
    zero, a null one is an error: for a payload with neither [summary]
    nor [yearlyFlow] the tool returns the full report with every amount
    [$0.000000] and both counts [0]; for a payload whose summary holds
    [totalMoneyIn: null] it returns the [TypeError] of [abs(None)] and no
    report. *)
Theorem missing_amount_is_zero_null_is_an_error (url : string) (p : GetCashflowInput)
  (d : list (string * json)) :
  cf_response_format p = MARKDOWN ->
  (lookup "summary" d = None -> lookup "yearlyFlow" d = None ->
   snd (run_tool url (GetCashflow p) (backend_returning (JDict d))) = empty_cashflow_report)
  /\ (forall s,
        lookup "summary" d = Some (JDict s) -> lookup "totalMoneyIn" s = Some JNull ->
        snd (run_tool url (GetCashflow p) (backend_returning (JDict d)))
        = "Error: TypeError: bad operand type for abs(): 'NoneType'").
Proof.
  intros F. rewrite run_tool_backend_returning. cbn [snd render_of].
  unfold render_cashflow. rewrite F. cbn [is_json py_get bind]. split.
  - intros S Y. rewrite S, Y. reflexivity.
  - intros s S N. rewrite S. unfold get_fmt at 1. cbn [py_get bind]. rewrite N.
    reflexivity.
Qed.

Lemma missing_amount_is_zero_null_is_an_error_witness :
  snd (run_tool "http://localhost:3000"
         (GetCashflow {| cf_portfolio_id := 1; cf_response_format := MARKDOWN |})
         (backend_returning
            (JDict [("summary", JDict [("totalMoneyIn", JNull); ("totalMoneyOut", JInt 5)])])))
  = "Error: TypeError: bad operand type for abs(): 'NoneType'".
Proof.
  apply (proj2 (missing_amount_is_zero_null_is_an_error "http://localhost:3000"
                  {| cf_portfolio_id := 1; cf_response_format := MARKDOWN |}
                  [("summary", JDict [("totalMoneyIn", JNull); ("totalMoneyOut", JInt 5)])]
                  eq_refl)
           [("totalMoneyIn", JNull); ("totalMoneyOut", JInt 5)]); reflexivity.
Defined.

(** ** Configuration *)

Lemma env_get_app (e : Env.environ) (key value k : string) :
  Env.get (e ++ [(key, value)])%list k
  = match Env.get e k with
    | Some v => Some v
    | None => if String.eqb key k then Some value else None
    end.
Proof.
  induction e as [|[k0 v0] e IH]; simpl; [reflexivity|].
  destruct (String.eqb k0 k); [reflexivity | exact IH].
Qed.

Lemma setdefault_get (e e' : Env.environ) (key value k : string) :
  Env.setdefault e key value = Ok e' ->
  Env.get e' k
  = match Env.get e k with
    | Some v => Some v
    | None => if String.eqb key k then Some value else None
    end.
Proof.
  unfold Env.setdefault. destruct (Env.get e key) as [v0|] eqn:G.
  - intros H. inversion H. subst e'.
    destruct (Env.get e k) as [v|] eqn:Gk; [reflexivity|].
    destruct (String.eqb_spec key k); [congruence | reflexivity].
  - destruct (has_char Env.nul key || has_char Env.nul value); [discriminate|].
    destruct (String.eqb key ""); [discriminate|].
    intros H. inversion H. apply env_get_app.
Qed.

Lemma load_lines_get (lines : list string) (e e' : Env.environ) (k : string) :
  Env.load_lines lines e = Ok e' ->
  Env.get e' k
  = match Env.get e k with
    | Some v => Some v
    | None =>
        Env.get
          (List.flat_map
             (fun line =>
                match Env.entry_of_line line with
                | Some kv => [kv]
                | None => []
                end) lines) k
    end.
Proof.
  revert e. induction lines as [|line lines IH]; intros e H; simpl in *.
  - inversion H. destruct (Env.get e' k); reflexivity.
  - destruct (Env.entry_of_line line) as [[key value]|].
    + apply bind_ok in H. destruct H as (e1 & S & H).
      rewrite (IH e1 H), (setdefault_get e e1 key value k S). simpl.
      destruct (Env.get e k); [reflexivity|].
      destruct (String.eqb key k); reflexivity.
    + simpl. apply IH, H.
Qed.

(** X17. When the module has loaded its [.env] file, a variable that was
    set in the environment keeps its value whatever the file says, and a
    variable that was not set has the value of the first line of the file
    that sets it, later lines for the same name being ignored.  So
    [API_BASE_URL] is the environment's [PORTFOLIO_API_URL], else the
    file's first one, else [http://localhost:3000], and [API_KEY] likewise
    with the empty text as its default. *)
Theorem environment_wins_over_the_file (file : option string) (e e' : Env.environ) :
  Env.load_env file e = Ok e' ->
  (forall key value, Env.get e key = Some value -> Env.get e' key = Some value)
  /\ (forall key, Env.get e key = None -> Env.get e' key = file_value file key)
  /\ Env.API_BASE_URL e'
     = match Env.get e "PORTFOLIO_API_URL", file_value file "PORTFOLIO_API_URL" with
       | Some url, _ => url
       | None, Some url => url
       | None, None => "http://localhost:3000"
       end
  /\ Env.API_KEY e'
     = match Env.get e "PORTFOLIO_API_KEY", file_value file "PORTFOLIO_API_KEY" with
       | Some key, _ => key
       | None, Some key => key
       | None, None => ""
       end.
Proof.
  intros H.
  assert (forall k, Env.get e' k
                    = match Env.get e k with
                      | Some v => Some v
                      | None => file_value file k
                      end) as G.
  { intros k. destruct file as [text|]; simpl in H.
    - apply (load_lines_get _ _ _ k H).
    - inversion H. simpl. destruct (Env.get e' k); reflexivity. }
  split; [|split; [|split]].
  - intros key value E. rewrite G, E. reflexivity.
  - intros key E. rewrite G, E. reflexivity.
  - unfold Env.API_BASE_URL, Env.get_or_default. rewrite G.
    destruct (Env.get e "PORTFOLIO_API_URL"); [reflexivity|].
    destruct (file_value file "PORTFOLIO_API_URL"); reflexivity.
  - unfold Env.API_KEY, Env.get_or_default. rewrite G.
    destruct (Env.get e "PORTFOLIO_API_KEY"); [reflexivity|].
    destruct (file_value file "PORTFOLIO_API_KEY"); reflexivity.
Qed.

Lemma environment_wins_over_the_file_witness :
  Env.API_BASE_URL
    [("HOME", "/root"); ("PORTFOLIO_API_URL", "https://tracker.example");
     ("PORTFOLIO_API_KEY", "k-1")]
  = "https://tracker.example"
  /\ Env.API_KEY
       [("HOME", "/root"); ("PORTFOLIO_API_URL", "https://tracker.example");
        ("PORTFOLIO_API_KEY", "k-1")]
     = "k-1".
Proof.
  destruct (environment_wins_over_the_file
              (Some ("# local settings" ++ nl ++ "PORTFOLIO_API_URL = http://10.0.0.2:3000"
                     ++ nl ++ "PORTFOLIO_API_KEY=k-1" ++ nl ++ "PORTFOLIO_API_KEY=k-2" ++ nl))
              [("HOME", "/root"); ("PORTFOLIO_API_URL", "https://tracker.example")]
              [("HOME", "/root"); ("PORTFOLIO_API_URL", "https://tracker.example");
               ("PORTFOLIO_API_KEY", "k-1")]
              eq_refl) as (_ & _ & U & K).
  split; [exact U | exact K].
Defined.
(** *** [str.strip] *)

Lemma lstrip_blank (a s : string) :
  blank a = true -> Text.lstrip Text.is_space (a ++ s) = Text.lstrip Text.is_space s.
Proof.
  unfold blank. induction a as [|x a IH]; simpl; [reflexivity|].
  intros H. apply andb_true_iff in H. destruct H as [Hx Ha]. rewrite Hx. exact (IH Ha).
Qed.

Lemma rstrip_blank (b : string) : blank b = true -> Text.rstrip Text.is_space b = "".
Proof.
  unfold blank. induction b as [|x b IH]; simpl; [reflexivity|].
  intros H. apply andb_true_iff in H. destruct H as [Hx Hb]. rewrite (IH Hb), Hx. reflexivity.
Qed.

Lemma rstrip_app_blank (s b : string) :
  blank b = true -> Text.rstrip Text.is_space (s ++ b) = Text.rstrip Text.is_space s.
Proof.
  intros H. induction s as [|x s IH]; simpl; [apply rstrip_blank, H|].
  rewrite IH. reflexivity.
Qed.

Lemma rstrip_app (x y : string) :
  Text.rstrip Text.is_space y <> "" ->
  Text.rstrip Text.is_space (x ++ y) = x ++ Text.rstrip Text.is_space y.
Proof.
  intros H. induction x as [|c x IH]; simpl; [reflexivity|].
  rewrite IH. destruct (x ++ Text.rstrip Text.is_space y) eqn:E; [|reflexivity].
  destruct x; simpl in E; [contradiction | discriminate E].
Qed.

Lemma lstrip_length (p : ascii -> bool) (s : string) :
  (String.length (Text.lstrip p s) <= String.length s)%nat.
Proof.
  induction s as [|c s IH]; simpl; [lia|]. destruct (p c); simpl; lia.
Qed.

Lemma rstrip_length (p : ascii -> bool) (s : string) :
  (String.length (Text.rstrip p s) <= String.length s)%nat.
Proof.
  induction s as [|c s IH]; simpl; [lia|].
  destruct (Text.rstrip p s); [destruct (p c)|]; simpl in *; lia.
Qed.

Lemma lstrip_same_length (p : ascii -> bool) (s : string) :
  String.length (Text.lstrip p s) = String.length s -> Text.lstrip p s = s.
Proof.
  destruct s as [|c s]; simpl; [reflexivity|].
  destruct (p c); [|reflexivity].
  pose proof (lstrip_length p s) as L. intros H. lia.
Qed.

(** A text that [strip] leaves as it is has no white space at either end. *)
Lemma strip_fixed (s : string) :
  Text.strip s = s ->
  Text.lstrip Text.is_space s = s /\ Text.rstrip Text.is_space s = s.
Proof.
  unfold Text.strip, Text.strip_with. intros H.
  assert (Text.lstrip Text.is_space s = s) as L.
  { apply lstrip_same_length.
    pose proof (lstrip_length Text.is_space s) as L0.
    pose proof (rstrip_length Text.is_space (Text.lstrip Text.is_space s)) as R.
    rewrite H in R. lia. }
  split; [exact L|]. rewrite L in H. exact H.
Qed.

Lemma lstrip_head (k s : string) :
  k <> "" -> Text.lstrip Text.is_space k = k ->
  Text.lstrip Text.is_space (k ++ s) = k ++ s.
Proof.
  destruct k as [|c k]; [congruence|]. intros _. simpl.
  destruct (Text.is_space c) eqn:E; [|reflexivity].
  intros H. pose proof (lstrip_length Text.is_space k) as L. rewrite H in L. simpl in L. lia.
Qed.

Lemma has_char_app (c : ascii) (a b : string) :
  has_char c (a ++ b) = has_char c a || has_char c b.
Proof.
  induction a as [|x a IH]; [reflexivity|].
  cbn [append has_char]. rewrite IH. apply orb_assoc.
Qed.

Lemma blank_has_no_sign (b : string) : blank b = true -> has_char "=" b = false.
Proof.
  unfold blank. induction b as [|x b IH]; [reflexivity|].
  cbn [all_chars has_char]. intros H. apply andb_true_iff in H. destruct H as [Hx Hb].
  rewrite (IH Hb). destruct (Ascii.eqb "=" x) eqn:E; [|reflexivity].
  apply Ascii.eqb_eq in E. subst x. discriminate Hx.
Qed.

Lemma partition_eq_app (k rest : string) :
  has_char "=" k = false -> Env.partition_eq (k ++ String "=" rest) = (k, rest).
Proof.
  induction k as [|c k IH]; [reflexivity|].
  cbn [has_char append Env.partition_eq].
  intros H. apply orb_false_iff in H. destruct H as [Hc Hk].
  rewrite Ascii.eqb_sym, Hc, (IH Hk). reflexivity.
Qed.

Lemma prefix_one (a b : ascii) (x y : string) :
  prefix (String a "") (String b x) = prefix (String a "") (String b y).
Proof.
  simpl. destruct (ascii_dec a b); [destruct x, y; reflexivity | reflexivity].
Qed.

(** X18. A line of the [.env] file made of a name, an equals sign and a
    value, with any white space before, between and after them, sets the
    name to the value, for every name that is not empty, holds no equals
    sign, has no white space at its ends and does not start with [#], and
    every value without white space at its ends: the value is taken as it
    stands, with its quotes, its [#] and its further equals signs. *)
Theorem line_sets_name_to_value (a b c d name value : string) :
  blank a = true -> blank b = true -> blank c = true -> blank d = true ->
  Text.strip name = name -> Text.strip value = value ->
  name <> "" -> has_char "=" name = false -> prefix "#" name = false ->
  Env.entry_of_line (a ++ name ++ b ++ "=" ++ c ++ value ++ d) = Some (name, value).
Proof.
  intros Ha Hb Hc Hd Sn Sv Nn En Cn.
  destruct (strip_fixed name Sn) as [Ln Rn]. destruct (strip_fixed value Sv) as [Lv Rv].
  set (tail := match value with EmptyString => "" | _ => c ++ value end).
  assert (Text.strip (a ++ name ++ b ++ "=" ++ c ++ value ++ d)
          = (name ++ b) ++ "=" ++ tail) as S.
  { unfold Text.strip, Text.strip_with. rewrite (lstrip_blank a _ Ha).
    rewrite (lstrip_head name _ Nn Ln).
    replace (name ++ b ++ "=" ++ c ++ value ++ d)
      with ((name ++ b ++ "=" ++ c ++ value) ++ d) by (rewrite !append_assoc; reflexivity).
    rewrite (rstrip_app_blank _ d Hd). subst tail. destruct value as [|v0 value'].
    - rewrite append_nil_r.
      replace (name ++ b ++ "=" ++ c) with ((name ++ b ++ "=") ++ c)
        by (rewrite !append_assoc; reflexivity).
      rewrite (rstrip_app_blank _ c Hc).
      replace (name ++ b ++ "=") with ((name ++ b) ++ "=")
        by (rewrite !append_assoc; reflexivity).
      rewrite rstrip_app; [reflexivity | discriminate].
    - replace (name ++ b ++ "=" ++ c ++ String v0 value')
        with (((name ++ b) ++ "=" ++ c) ++ String v0 value')
        by (rewrite !append_assoc; reflexivity).
      rewrite rstrip_app; [|rewrite Rv; discriminate].
      rewrite Rv, !append_assoc. reflexivity. }
  assert (Text.strip tail = value) as T.
  { subst tail. destruct value as [|v0 value']; [reflexivity|].
    unfold Text.strip, Text.strip_with. rewrite (lstrip_blank c _ Hc), Lv. exact Rv. }
  assert (Text.strip (name ++ b) = name) as K.
  { unfold Text.strip, Text.strip_with. rewrite (lstrip_head name b Nn Ln).
    rewrite (rstrip_app_blank name b Hb). exact Rn. }
  unfold Env.entry_of_line. rewrite S.
  change ((name ++ b) ++ "=" ++ tail) with ((name ++ b) ++ String "=" tail).
  rewrite partition_eq_app
    by (rewrite has_char_app, En, (blank_has_no_sign b Hb); reflexivity).
  rewrite K, T.
  destruct name as [|n0 name']; [congruence|].
  cbn [append String.eqb negb andb].
  rewrite (prefix_one "#" n0 _ name'), Cn. cbn [negb andb].
  change (String n0 ((name' ++ b) ++ String "=" tail))
    with ((String n0 name' ++ b) ++ String "=" tail).
  rewrite !has_char_app. cbn [has_char]. rewrite Ascii.eqb_refl, !orb_true_r. reflexivity.
Qed.
Lemma line_sets_name_to_value_witness :
  Env.entry_of_line ("  " ++ "PORTFOLIO_API_KEY" ++ " " ++ "=" ++ " " ++ "'s3cr=t #1'" ++ " ")
  = Some ("PORTFOLIO_API_KEY", "'s3cr=t #1'").
Proof.
  apply (line_sets_name_to_value "  " " " " " " " "PORTFOLIO_API_KEY" "'s3cr=t #1'");
    first [reflexivity | discriminate].
Defined.

Lemma has_char_lstrip (c : ascii) (p : ascii -> bool) (s : string) :
  has_char c s = false -> has_char c (Text.lstrip p s) = false.
Proof.
  induction s as [|x s IH]; [reflexivity|].
  cbn [has_char Text.lstrip]. intros H. destruct (p x); [|exact H].
  apply orb_false_iff in H. apply IH, H.
Qed.

Lemma has_char_rstrip (c : ascii) (p : ascii -> bool) (s : string) :
  has_char c s = false -> has_char c (Text.rstrip p s) = false.
Proof.
  induction s as [|x s IH]; [reflexivity|].
  cbn [has_char Text.rstrip]. intros H. apply orb_false_iff in H. destruct H as [Hx Hs].
  specialize (IH Hs). destruct (Text.rstrip p s) as [|y r].
  - destruct (p x); [reflexivity|]. cbn [has_char]. rewrite Hx. reflexivity.
  - cbn [has_char] in *. rewrite Hx. exact IH.
Qed.

(** X19. A line of the [.env] file sets nothing when its first character
    after leading white space is [#], even if an equals sign follows, and
    when it holds no equals sign at all (blank lines included). *)
Theorem lines_that_set_nothing (a s : string) :
  (blank a = true -> Env.entry_of_line (a ++ "#" ++ s) = None)
  /\ (has_char "=" s = false -> Env.entry_of_line s = None).
Proof.
  split.
  - intros Ha. unfold Env.entry_of_line, Text.strip, Text.strip_with.
    rewrite (lstrip_blank a _ Ha).
    change (Text.lstrip Text.is_space ("#" ++ s)) with (String "#" s).
    cbn [Text.rstrip]. destruct (Text.rstrip Text.is_space s); reflexivity.
  - intros H. unfold Env.entry_of_line.
    assert (has_char "=" (Text.strip s) = false) as E.
    { unfold Text.strip, Text.strip_with. apply has_char_rstrip, has_char_lstrip, H. }
    rewrite E, !andb_false_r. reflexivity.
Qed.

(** ** The normal form of a symbol list *)

Lemma lstrip_idem (p : ascii -> bool) (s : string) :
  Text.lstrip p (Text.lstrip p s) = Text.lstrip p s.
Proof.
  induction s as [|c s IH]; [reflexivity|].
  cbn [Text.lstrip]. destruct (p c) eqn:E; [exact IH|].
  cbn [Text.lstrip]. rewrite E. reflexivity.
Qed.

Lemma rstrip_idem (p : ascii -> bool) (s : string) :
  Text.rstrip p (Text.rstrip p s) = Text.rstrip p s.
Proof.
  induction s as [|c s IH]; [reflexivity|].
  cbn [Text.rstrip]. destruct (Text.rstrip p s) as [|y r] eqn:R.
  - destruct (p c) eqn:E; [reflexivity|]. cbn [Text.rstrip]. rewrite E. reflexivity.
  - cbn [Text.rstrip] in *. rewrite IH. reflexivity.
Qed.

Lemma lstrip_fixed_head (p : ascii -> bool) (c : ascii) (s : string) :
  Text.lstrip p (String c s) = String c s -> p c = false.
Proof.
  cbn [Text.lstrip]. destruct (p c); [|reflexivity].
  intros H. pose proof (lstrip_length p s) as L. rewrite H in L. simpl in L. lia.
Qed.

Lemma lstrip_rstrip (p : ascii -> bool) (s : string) :
  Text.lstrip p s = s -> Text.lstrip p (Text.rstrip p s) = Text.rstrip p s.
Proof.
  destruct s as [|c s]; [reflexivity|]. intros H. apply lstrip_fixed_head in H.
  cbn [Text.rstrip]. destruct (Text.rstrip p s); cbn [Text.lstrip]; rewrite H;
    cbn [Text.lstrip]; rewrite ?H; reflexivity.
Qed.

Lemma strip_idem (s : string) : Text.strip (Text.strip s) = Text.strip s.
Proof.
  unfold Text.strip, Text.strip_with.
  rewrite lstrip_rstrip by apply lstrip_idem. apply rstrip_idem.
Qed.

(** How [upper] treats one character. *)
Lemma upper_char_facts (c : ascii) :
  exists c' r,
    Text.upper_char c = String c' r
    /\ Text.upper (Text.upper_char c) = Text.upper_char c
    /\ (Ascii.eqb "," c = false -> has_char "," (Text.upper_char c) = false)
    /\ (Text.is_space c = false ->
        Text.is_space c' = false
        /\ Text.rstrip Text.is_space (Text.upper_char c) = Text.upper_char c).
Proof.
  destruct c as [[] [] [] [] [] [] [] []];
    eexists _, _; (split; [reflexivity|]); (split; [reflexivity|]);
    split; intros H; first [discriminate H | split; reflexivity | reflexivity].
Qed.

Lemma upper_app (a b : string) : Text.upper (a ++ b) = Text.upper a ++ Text.upper b.
Proof.
  induction a as [|c a IH]; [reflexivity|].
  cbn [append Text.upper]. rewrite IH, append_assoc. reflexivity.
Qed.

Lemma upper_idem (s : string) : Text.upper (Text.upper s) = Text.upper s.
Proof.
  induction s as [|c s IH]; [reflexivity|].
  cbn [Text.upper]. rewrite upper_app, IH.
  destruct (upper_char_facts c) as (c' & r & _ & E & _). rewrite E. reflexivity.
Qed.

Lemma upper_no_comma (s : string) :
  has_char "," s = false -> has_char "," (Text.upper s) = false.
Proof.
  induction s as [|c s IH]; [reflexivity|].
  cbn [has_char Text.upper]. intros H. apply orb_false_iff in H. destruct H as [Hc Hs].
  destruct (upper_char_facts c) as (c' & r & _ & _ & N & _).
  rewrite has_char_app, (N Hc), (IH Hs). reflexivity.
Qed.

Lemma upper_stripped (s : string) : Text.strip s = s -> Text.strip (Text.upper s) = Text.upper s.
Proof.
  intros H. destruct (strip_fixed s H) as [L R].
  assert (Text.rstrip Text.is_space (Text.upper s) = Text.upper s) as R'.
  { clear H L. induction s as [|c s IH]; [reflexivity|].
    cbn [Text.rstrip] in R. cbn [Text.upper].
    destruct (upper_char_facts c) as (c' & r & _ & _ & _ & S).
    destruct (Text.rstrip Text.is_space s) as [|y t] eqn:E.
    - destruct (Text.is_space c) eqn:P; [discriminate R|].
      inversion R. subst s. cbn [Text.upper]. rewrite append_nil_r. apply S. reflexivity.
    - assert (s = String y t) as Es by congruence.
      specialize (IH (eq_sym Es)).
      rewrite rstrip_app; rewrite IH; [reflexivity|].
      apply upper_not_empty. rewrite Es. discriminate. }
  unfold Text.strip, Text.strip_with.
  assert (Text.lstrip Text.is_space (Text.upper s) = Text.upper s) as L'.
  { destruct s as [|c s]; [reflexivity|]. apply lstrip_fixed_head in L.
    cbn [Text.upper]. destruct (upper_char_facts c) as (c' & r & E & _ & _ & S).
    rewrite E. cbn [append Text.lstrip]. rewrite (proj1 (S L)). reflexivity. }
  rewrite L'. exact R'.
Qed.

(** *** [split] and [join] on commas *)

Lemma split_comma_no_comma (s : string) :
  has_char "," s = false -> Text.split_comma s = [s].
Proof.
  induction s as [|c s IH]; [reflexivity|].
  cbn [has_char Text.split_comma]. intros H. apply orb_false_iff in H. destruct H as [Hc Hs].
  rewrite Ascii.eqb_sym, Hc, (IH Hs). reflexivity.
Qed.

Lemma split_comma_app (x rest : string) :
  has_char "," x = false ->
  Text.split_comma (x ++ String "," rest) = x :: Text.split_comma rest.
Proof.
  induction x as [|c x IH]; [reflexivity|].
  cbn [has_char append Text.split_comma]. intros H. apply orb_false_iff in H.
  destruct H as [Hc Hx]. rewrite Ascii.eqb_sym, Hc, (IH Hx). reflexivity.
Qed.

Lemma split_comma_segments (s : string) :
  Forall (fun seg => has_char "," seg = false) (Text.split_comma s).
Proof.
  induction s as [|c s IH]; [repeat constructor|].
  cbn [Text.split_comma]. destruct (Ascii.eqb c ",") eqn:E.
  - constructor; [reflexivity | exact IH].
  - destruct (Text.split_comma s) as [|seg segs]; [repeat constructor|].
    + cbn [has_char]. rewrite Ascii.eqb_sym, E. reflexivity.
    + inversion IH. subst. constructor; [|assumption].
      cbn [has_char]. rewrite Ascii.eqb_sym, E. assumption.
Qed.

Lemma split_join (x : string) (l : list string) :
  Forall (fun s => has_char "," s = false) (x :: l) ->
  Text.split_comma (join "," (x :: l)) = x :: l.
Proof.
  revert x. induction l as [|y l IH]; intros x H; inversion H as [|? ? Hx Hl]; subst.
  - apply split_comma_no_comma, Hx.
  - change (join "," (x :: y :: l)) with (x ++ String "," (join "," (y :: l))).
    rewrite (split_comma_app x _ Hx), (IH y Hl). reflexivity.
Qed.

Lemma normal_symbols_fixed (l : list string) :
  Forall normal_symbol l ->
  List.map (fun s => Text.upper (Text.strip s))
    (List.filter (fun s => negb (String.eqb (Text.strip s) "")) l) = l.
Proof.
  induction 1 as [|x l (N & S & _ & U) _ IH]; [reflexivity|].
  cbn [List.filter]. rewrite S. destruct (String.eqb_spec x ""); [contradiction|].
  cbn [negb List.map]. rewrite S, U, IH. reflexivity.
Qed.

(** X20. [validate_symbols] returns a list in normal form and is
    idempotent: its result is the comma-joined list of symbols that are
    not empty, have no white space at their ends, hold no comma and are in
    upper case, and validating the result again gives the same text. *)
Theorem symbols_normal_form (v : string) :
  (exists symbols,
     validate_symbols v = join "," symbols /\ Forall normal_symbol symbols)
  /\ validate_symbols (validate_symbols v) = validate_symbols v.
Proof.
  set (symbols :=
         List.map (fun s => Text.upper (Text.strip s))
           (List.filter (fun s => negb (String.eqb (Text.strip s) ""))
              (Text.split_comma v))).
  assert (Forall normal_symbol symbols) as N.
  { subst symbols. pose proof (split_comma_segments v) as C.
    induction C as [|seg segs Hseg _ IH]; [constructor|].
    cbn [List.filter]. destruct (String.eqb_spec (Text.strip seg) "") as [E|E];
      [exact IH|].
    cbn [negb List.map]. constructor; [|exact IH].
    split; [apply upper_not_empty, E|].
    split; [apply upper_stripped, strip_idem|].
    split; [|apply upper_idem].
    apply upper_no_comma. unfold Text.strip, Text.strip_with.
    apply has_char_rstrip, has_char_lstrip, Hseg. }
  split; [exists symbols; split; [reflexivity | exact N]|].
  change (validate_symbols v) with (join "," symbols).
  destruct symbols as [|x l]; [reflexivity|].
  unfold validate_symbols at 1. rewrite split_join.
  - rewrite (normal_symbols_fixed (x :: l) N). reflexivity.
  - eapply Forall_impl; [|exact N]. intros s (_ & _ & C & _). exact C.
Qed.
(** ** The characters of a structured output *)

Lemma all_chars_impl (p q : ascii -> bool) (s : string) :
  (forall c, p c = true -> q c = true) -> all_chars p s = true -> all_chars q s = true.
Proof.
  intros I. induction s as [|c s IH]; [reflexivity|].
  cbn [all_chars]. intros H. apply andb_true_iff in H. destruct H as [Hc Hs].
  rewrite (I c Hc), (IH Hs). reflexivity.
Qed.

Lemma digit_plain (c : ascii) : is_digit c = true -> plain_char c = true.
Proof.
  destruct c as [[] [] [] [] [] [] [] []]; intros H; first [reflexivity | discriminate H].
Qed.

Lemma digits_plain (s : string) : all_chars is_digit s = true -> plain_text s = true.
Proof.
  apply all_chars_impl, digit_plain.
Qed.

Lemma plain_app (a b : string) : plain_text (a ++ b) = plain_text a && plain_text b.
Proof.
  apply all_chars_app.
Qed.

Lemma take_chars (p : ascii -> bool) (n : nat) (s : string) :
  all_chars p s = true -> all_chars p (take n s) = true.
Proof.
  revert s. induction n as [|n IH]; intros [|c s]; try reflexivity.
  cbn [take all_chars]. intros H. apply andb_true_iff in H. destruct H as [Hc Hs].
  rewrite Hc, (IH s Hs). reflexivity.
Qed.

Lemma drop_chars (p : ascii -> bool) (n : nat) (s : string) :
  all_chars p s = true -> all_chars p (PyFloat.drop n s) = true.
Proof.
  revert s. induction n as [|n IH]; intros [|c s]; try reflexivity; [auto|].
  cbn [PyFloat.drop all_chars]. intros H. apply andb_true_iff in H. apply IH, H.
Qed.

Lemma repeat_char_chars (p : ascii -> bool) (c : ascii) (n : nat) :
  p c = true -> all_chars p (repeat_char c n) = true.
Proof.
  intros H. induction n as [|n IH]; [reflexivity|].
  cbn [repeat_char all_chars]. rewrite H, IH. reflexivity.
Qed.

Lemma string_of_uint_plain (d : Decimal.uint) :
  plain_text (NilZero.string_of_uint d) = true.
Proof.
  unfold NilZero.string_of_uint. pose proof (digits_plain _ (uint_digits d)) as H.
  destruct d; first [reflexivity | exact H].
Qed.

Lemma str_int_plain (z : Z) : plain_text (str_int z) = true.
Proof.
  unfold str_int, NilZero.string_of_int.
  destruct (Z.to_int z) as [d|d]; [apply string_of_uint_plain|].
  change (plain_text (NilZero.string_of_uint d) = true). apply string_of_uint_plain.
Qed.

Ltac plain_parts :=
  repeat (rewrite plain_app);
  repeat (apply andb_true_iff; split);
  try reflexivity.

Lemma repr_finite_plain (n : N) (decpt : Z) :
  plain_text (PyFloat.repr_finite (dec n) decpt) = true.
Proof.
  pose proof (dec_digits n) as D.
  assert (forall k, plain_text (take k (dec n)) = true) as T.
  { intros k. apply digits_plain, take_chars, D. }
  assert (forall k, plain_text (PyFloat.drop k (dec n)) = true) as R.
  { intros k. apply digits_plain, drop_chars, D. }
  assert (forall k, plain_text (PyFloat.zeros k) = true) as Z0.
  { intros k. apply repeat_char_chars. reflexivity. }
  assert (forall k, plain_text (dec k) = true) as K.
  { intros k. apply digits_plain, dec_digits. }
  unfold PyFloat.repr_finite.
  destruct ((decpt <=? -4) || (16 <? decpt)).
  - destruct (1 <? Z.of_nat (String.length (dec n)));
      destruct (decpt - 1 <? 0); destruct (Z.abs (decpt - 1) <? 10);
      plain_parts; auto.
  - destruct (decpt <=? 0); [plain_parts; auto|].
    destruct (Z.of_nat (String.length (dec n)) <=? decpt); plain_parts; auto.
Qed.

Lemma encode_float_plain (f : float) : plain_text (encode_float f) = true.
Proof.
  destruct f as [s|s| |s m e]; try (destruct s; reflexivity); [reflexivity|].
  unfold encode_float, PyFloat.repr.
  destruct (shortest_digits_dec m e) as (n & decpt & E). rewrite E.
  rewrite plain_app, (repr_finite_plain n decpt). destruct s; reflexivity.
Qed.

Lemma escape_char_plain (c : ascii) : plain_text (escape_char c) = true.
Proof.
  destruct c as [[] [] [] [] [] [] [] []]; reflexivity.
Qed.

Lemma encode_str_plain (s : string) : plain_text (encode_str s) = true.
Proof.
  unfold encode_str. change (plain_text (String dquote (escape s ++ String dquote "")))
    with (plain_text (escape s ++ String dquote "")).
  rewrite plain_app. apply andb_true_iff. split; [|reflexivity].
  induction s as [|c s IH]; [reflexivity|].
  cbn [escape]. rewrite plain_app, escape_char_plain, IH. reflexivity.
Qed.

Lemma newline_indent_plain (level : nat) : plain_text (newline_indent level) = true.
Proof.
  unfold newline_indent, nl, indent_of.
  change (plain_text (repeat_char " " (2 * level)) = true).
  apply repeat_char_chars. reflexivity.
Qed.

Lemma join_plain (sep : string) (l : list string) :
  plain_text sep = true -> Forall (fun s => plain_text s = true) l ->
  plain_text (join sep l) = true.
Proof.
  intros Hs H. induction H as [|x l Hx Hl IH]; [reflexivity|].
  destruct l as [|y l]; [exact Hx|].
  change (join sep (x :: y :: l)) with (x ++ sep ++ join sep (y :: l)).
  rewrite !plain_app, Hx, Hs, IH. reflexivity.
Qed.

Lemma encode_plain (v : json) : forall level, plain_text (encode level v) = true.
Proof.
  induction v as [ |b|n|f|s|l IH|d IH] using json_induction; intros level.
  - reflexivity.
  - destruct b; reflexivity.
  - apply str_int_plain.
  - apply encode_float_plain.
  - apply encode_str_plain.
  - destruct l as [|x l]; [reflexivity|].
    rewrite encode_list. fold (items_text level (x :: l)).
    change (plain_text (newline_indent (S level) ++ items_text level (x :: l)
                        ++ newline_indent level ++ "]") = true).
    rewrite !plain_app, !newline_indent_plain. cbn [andb]. rewrite andb_true_r.
    apply join_plain.
    + change (plain_text (newline_indent (S level)) = true). apply newline_indent_plain.
    + apply Forall_map. eapply Forall_impl; [|exact IH]. intros a Ha. apply Ha.
  - destruct d as [|kv d]; [reflexivity|].
    rewrite encode_dict.
    change (plain_text (newline_indent (S level) ++ members_text level (kv :: d)
                        ++ newline_indent level ++ "}") = true).
    rewrite !plain_app, !newline_indent_plain. cbn [andb]. rewrite andb_true_r.
    apply join_plain.
    + change (plain_text (newline_indent (S level)) = true). apply newline_indent_plain.
    + apply Forall_map. eapply Forall_impl; [|exact IH]. intros a Ha.
      unfold member_text. rewrite !plain_app, encode_str_plain, Ha. reflexivity.
Qed.

(** X21. The output of a tool in JSON mode is plain ASCII whatever the
    payload holds: every character is printable ASCII or a line feed, the
    other characters of a payload string being written as escapes. *)
Theorem structured_output_is_ascii (url : string) (call : tool_call) (data : json) :
  structured call = true ->
  plain_text (snd (run_tool url call (backend_returning data))) = true.
Proof.
  intros S. rewrite run_tool_backend_returning. cbn [snd].
  assert (render_of call data = Ok (Json.dumps data)) as E.
  { unfold structured, response_format_of in S.
    destruct call as [p|p|p|p|p|p|p|p|p|p]; try discriminate S; cbn [render_of].
    - unfold render_holdings. destruct (gh_response_format p); [discriminate S | reflexivity].
    - unfold render_history. destruct (hi_response_format p); [discriminate S | reflexivity].
    - unfold render_portfolios. destruct (lp_response_format p); [discriminate S | reflexivity].
    - unfold render_transactions. destruct (lt_response_format p);
        [discriminate S | reflexivity].
    - unfold render_cashflow. destruct (cf_response_format p); [discriminate S | reflexivity].
    - unfold render_tax_report. destruct (tr_response_format p);
        [discriminate S | reflexivity]. }
  rewrite E. apply encode_plain.
Qed.

Lemma structured_output_is_ascii_witness :
  plain_text
    (snd (run_tool "http://localhost:3000"
            (ListPortfolios {| lp_response_format := JSON |})
            (backend_returning
               (JList [JDict [("id", JInt 1);
                              ("name", JStr (String (chr 233) "pargne"))]]))))
  = true.
Proof.
  apply (structured_output_is_ascii "http://localhost:3000"
           (ListPortfolios {| lp_response_format := JSON |})).
  reflexivity.
Defined.

(** ** Signs and fallbacks in the narrative reports *)




Lemma py_last_app (l : list json) (x : json) : py_last (JList (l ++ [x])) = Ok x.
Proof.
  unfold py_last. rewrite List.rev_app_distr. reflexivity.
Qed.

(** X24. The header of the history report is computed from the first and
    the last entry of the payload as they come, whatever lies between
    them and whatever their dates: the period, the start and end values
    and the change are those of the two-entry history made of these two. *)
Theorem history_summary_reads_both_ends (first last : json) (between : list json) :
  history_summary (JList (first :: between ++ [last]))
  = history_summary (JList [first; last])
  /\ history_summary (JList [first]) = history_summary (JList [first; first]).
Proof.
  unfold history_summary.
  change (first :: between ++ [last])%list with ((first :: between) ++ [last])%list.
  rewrite (py_last_app (first :: between) last).
  split; reflexivity.
Qed.

(** ** Whole numbers through the formatters *)

Lemma iter_xO_value (p d : positive) :
  Zpos (Pos.iter xO p d) = Zpos p * 2 ^ Zpos d.
Proof.
  induction d as [|d IH] using Pos.peano_ind.
  - simpl. lia.
  - rewrite Pos.iter_succ, Pos2Z.inj_succ, Z.pow_succ_r by lia.
    rewrite Pos2Z.inj_xO, IH. ring.
Qed.

Lemma iter_xO_digits (p d : positive) :
  Zpos (digits2_pos (Pos.iter xO p d)) = Zpos (digits2_pos p) + Zpos d.
Proof.
  induction d as [|d IH] using Pos.peano_ind.
  - simpl. lia.
  - rewrite Pos.iter_succ. cbn [digits2_pos]. rewrite !Pos2Z.inj_succ, IH. lia.
Qed.

Lemma digits2_lower (p : positive) : 2 ^ (Zpos (digits2_pos p) - 1) <= Zpos p.
Proof.
  induction p as [p IH|p IH|]; cbn [digits2_pos]; [| |simpl; lia];
    rewrite Pos2Z.inj_succ;
    replace (Z.succ (Zpos (digits2_pos p)) - 1) with (Z.succ (Zpos (digits2_pos p) - 1))
      by lia;
    rewrite Z.pow_succ_r by lia; lia.
Qed.

Lemma round_aux_exact (s : bool) (m : positive) (e : Z) :
  Zpos (digits2_pos m) = 53 -> -1074 <= e <= 971 ->
  binary_round_aux 53 1024 s (Zpos m) e loc_Exact = S754_finite s m e.
Proof.
  intros D E. unfold binary_round_aux, shr_fexp. cbn [Zdigits2 shr_record_of_loc].
  rewrite D. replace (fexp 53 1024 (53 + e) - e) with 0 by (unfold fexp, emin; lia).
  cbn [shr shr_m loc_of_shr_record shr_r shr_s round_nearest_even Zdigits2
       shr_record_of_loc].
  rewrite D. replace (fexp 53 1024 (53 + e) - e) with 0 by (unfold fexp, emin; lia).
  cbn [shr shr_m]. replace (e <=? 1024 - 53) with true by (symmetry; apply Z.leb_le; lia).
  reflexivity.
Qed.

(** [float(n)] is exact below [2^53]: the mantissa is [n] shifted to 53
    bits. *)
Lemma of_Z_small (s : bool) (p : positive) :
  Zpos p < 2 ^ 53 ->
  exists m k,
    binary_round 53 1024 s p 0 = S754_finite s m (- k)
    /\ 0 <= k /\ Zpos m = Zpos p * 2 ^ k.
Proof.
  intros B. pose proof (digits2_lower p) as L.
  assert (Zpos (digits2_pos p) <= 53) as D.
  { destruct (Z.le_gt_cases (Zpos (digits2_pos p)) 53) as [H|H]; [exact H|].
    assert (2 ^ 53 <= 2 ^ (Zpos (digits2_pos p) - 1)) by (apply Z.pow_le_mono_r; lia).
    lia. }
  unfold binary_round.
  replace (fexp 53 1024 (Zpos (digits2_pos p) + 0)) with (Zpos (digits2_pos p) - 53)
    by (unfold fexp, emin; lia).
  unfold shl_align. destruct (Zpos (digits2_pos p) - 53 - 0) as [|q|q] eqn:Q; [|lia|].
  - exists p, 0. rewrite round_aux_exact by lia. repeat split; lia.
  - exists (Pos.iter xO p q), (Zpos q).
    rewrite round_aux_exact.
    + replace (Zpos (digits2_pos p) - 53) with (- Zpos q) by lia.
      repeat split; [lia | apply iter_xO_value].
    + rewrite iter_xO_digits. lia.
    + lia.
Qed.

Lemma scaled_exact (m : positive) (k n : Z) (p : nat) :
  0 <= k -> Zpos m = n * 2 ^ k -> PyFloat.scaled m (- k) p = n * 10 ^ Z.of_nat p.
Proof.
  intros K E. unfold PyFloat.scaled. destruct k as [|q|q]; [| |lia].
  - cbn [Z.opp]. rewrite E. simpl (2 ^ 0). ring.
  - cbn [Z.opp]. unfold PyFloat.round_half_even. rewrite E.
    assert (0 < 2 ^ Zpos q) as P by (apply Z.pow_pos_nonneg; lia).
    replace (n * 2 ^ Zpos q * 10 ^ Z.of_nat p) with (n * 10 ^ Z.of_nat p * 2 ^ Zpos q)
      by ring.
    rewrite Z.div_mul, Z.mod_mul by lia.
    replace (2 * 0 ?= 2 ^ Zpos q) with Lt by (symmetry; apply Z.compare_lt_iff; lia).
    reflexivity.
Qed.

Lemma format_whole (grouped : bool) (p : nat) (n : Z) :
  0 < Z.abs n < 2 ^ 53 ->
  py_format_f grouped p (JInt n)
  = Ok ((if n <? 0 then "-" else "")
        ++ PyFloat.fixed grouped p (Z.abs n * 10 ^ Z.of_nat p)).
Proof.
  intros B. unfold py_format_f. cbn [to_float as_int]. unfold float_of_int, PyFloat.of_Z.
  destruct n as [|q|q]; [simpl in B; lia| |]; cbn [binary_normalize Z.abs Z.ltb Z.compare];
    [destruct (of_Z_small false q) as (m & k & E & K & V)
    |destruct (of_Z_small true q) as (m & k & E & K & V)];
    try (simpl in B; lia);
    change PyFloat.prec with 53; change PyFloat.emax with 1024; rewrite E;
    cbn [bind PyFloat.format_f PyFloat.sign_str];
    rewrite (scaled_exact m k (Zpos q) p K V); reflexivity.
Qed.

Lemma fixed_whole (grouped : bool) (p : nat) (n : Z) :
  0 <= n ->
  PyFloat.fixed grouped (S p) (n * 10 ^ Z.of_nat (S p))
  = PyFloat.int_part grouped n ++ "." ++ PyFloat.frac_digits (S p) 0.
Proof.
  intros N. unfold PyFloat.fixed.
  assert (0 < 10 ^ Z.of_nat (S p)) as P by (apply Z.pow_pos_nonneg; lia).
  rewrite Z.div_mul, Z.mod_mul by lia. reflexivity.
Qed.

(** X25. A whole number of magnitude between 1 and [2^53] goes through the
    formatters exactly: [_fmt_usd] writes its digits, grouped in
    thousands, between the dollar sign (then the minus sign, if any) and
    [.00]; [_fmt_qty] writes them grouped with [.00] from 100 up and
    [.0000] below; [_fmt_pct] writes them ungrouped behind the sign, with
    [.00%]. *)
Theorem whole_numbers_print_exactly (n : Z) :
  0 < Z.abs n < 2 ^ 53 ->
  let digits := dec (Z.to_N (Z.abs n)) in
  let minus := if n <? 0 then "-" else "" in
  _fmt_usd (JInt n) = Ok ("$" ++ minus ++ PyFloat.group3 digits ++ ".00")
  /\ (100 <= Z.abs n -> _fmt_qty (JInt n) = Ok (minus ++ PyFloat.group3 digits ++ ".00"))
  /\ (Z.abs n < 100 -> _fmt_qty (JInt n) = Ok (minus ++ PyFloat.group3 digits ++ ".0000"))
  /\ _fmt_pct (JInt n) = Ok ((if n <? 0 then "-" else "+") ++ digits ++ ".00%").
Proof.
  intros B digits minus.
  assert (forall g p, py_format_f g (S p) (JInt n)
                      = Ok (minus ++ PyFloat.int_part g (Z.abs n) ++ "."
                            ++ PyFloat.frac_digits (S p) 0)) as F.
  { intros g p. rewrite (format_whole g (S p) n B), fixed_whole by lia. reflexivity. }
  assert (forall k, py_ge (JInt (Z.abs n)) k = Ok (k <=? Z.abs n)) as G.
  { intros k. unfold py_ge, cmp_int. cbn [as_int].
    destruct (Z.compare_spec (Z.abs n) k); destruct (Z.leb_spec k (Z.abs n));
      try reflexivity; lia. }
  split; [|split; [|split]].
  - unfold _fmt_usd. cbn [py_abs as_int bind]. rewrite G.
    replace (1 <=? Z.abs n) with true by (symmetry; apply Z.leb_le; lia).
    cbn [bind]. rewrite F. reflexivity.
  - intros H. unfold _fmt_qty. cbn [py_abs as_int bind]. rewrite G.
    replace (100 <=? Z.abs n) with true by (symmetry; apply Z.leb_le; lia).
    rewrite F. reflexivity.
  - intros H. unfold _fmt_qty. cbn [py_abs as_int bind]. rewrite !G.
    replace (100 <=? Z.abs n) with false by (symmetry; apply Z.leb_gt; lia).
    replace (1 <=? Z.abs n) with true by (symmetry; apply Z.leb_le; lia).
    cbn [bind]. rewrite F. reflexivity.
  - unfold _fmt_pct. unfold py_ge, cmp_int. cbn [as_int]. rewrite F. cbn [bind].
    subst minus digits. unfold PyFloat.int_part.
    change (PyFloat.frac_digits 2 0) with "00".
    destruct n as [|q|q]; [simpl in B; lia| |]; cbn [Z.compare Z.ltb bind append];
      rewrite ?append_assoc; reflexivity.
Qed.

Lemma whole_numbers_print_exactly_witness :
  _fmt_usd (JInt (-1234567)) = Ok "$-1,234,567.00"
  /\ (100 <= Z.abs (-1234567) -> _fmt_qty (JInt (-1234567)) = Ok "-1,234,567.00")
  /\ (Z.abs (-1234567) < 100 -> _fmt_qty (JInt (-1234567)) = Ok "-1,234,567.0000")
  /\ _fmt_pct (JInt (-1234567)) = Ok "-1234567.00%".
Proof.
  apply (whole_numbers_print_exactly (-1234567)). simpl. lia.
Defined.
(** ** The portfolio list *)

Lemma portfolio_line_ok (p : json) (line : string) :
  portfolio_line p = Ok line -> lists_portfolio p line.
Proof.
  unfold portfolio_line, lists_portfolio. intros H.
  apply bind_ok in H. destruct H as (name & Hn & H).
  apply bind_ok in H. destruct H as (id & Hi & H).
  apply bind_ok in H. destruct H as (created & Hc & H).
  destruct p as [ |b|n|f|s|l|d]; try discriminate Hn.
  exists d, name, id. cbn [py_getitem py_get] in *.
  destruct (lookup "name" d) as [x|]; [|discriminate Hn].
  destruct (lookup "id" d) as [y|]; [|discriminate Hi].
  inversion Hn. inversion Hi. inversion Hc. inversion H. subst.
  repeat split.
Qed.

(** X26. When the narrative portfolio list succeeds on a non-empty list,
    it has one line per entry, in the order of the payload, after the
    title; each entry is an object with a [name] and an [id], and its line
    shows them with the creation date, or [N/A] when the entry has none.
    When the payload is a non-empty object instead of a list, the tool
    iterates over its keys and returns a [TypeError]. *)
Theorem portfolios_are_listed_in_order (url : string) (p : ListPortfoliosInput) :
  lp_response_format p = MARKDOWN ->
  (forall entries out,
     entries <> [] ->
     render_portfolios p (JList entries) = Ok out ->
     exists lines,
       out = join nl ("# Your Portfolios" :: "" :: lines)
       /\ Forall2 lists_portfolio entries lines)
  /\ (forall kv d,
        snd (run_tool url (ListPortfolios p) (backend_returning (JDict (kv :: d))))
        = "Error: TypeError: string indices must be integers, not 'str'").
Proof.
  intros F. split.
  - intros entries out N H. unfold render_portfolios in H. rewrite F in H.
    destruct entries as [|e entries]; [congruence|].
    cbn [is_json py_truthy negb py_iter bind] in H.
    apply bind_ok in H. destruct H as (lines & M & H). inversion H.
    exists lines. split; [reflexivity|].
    apply mapM_Forall2 in M. eapply Forall2_impl; [|exact M].
    intros a b. apply portfolio_line_ok.
  - intros [k v] d. rewrite run_tool_backend_returning. cbn [snd render_of].
    unfold render_portfolios. rewrite F. reflexivity.
Qed.

Lemma portfolios_are_listed_in_order_witness :
  exists lines,
    join nl ["# Your Portfolios"; ""; "- **Main** (ID: 1) - created 2024-05-01";
             "- **Cold storage** (ID: 2) - created N/A"]
    = join nl ("# Your Portfolios" :: "" :: lines)
    /\ Forall2 lists_portfolio
         [JDict [("id", JInt 1); ("name", JStr "Main"); ("createdAt", JStr "2024-05-01")];
          JDict [("id", JInt 2); ("name", JStr "Cold storage")]]
         lines.
Proof.
  apply (proj1 (portfolios_are_listed_in_order "http://localhost:3000"
                  {| lp_response_format := MARKDOWN |} eq_refl)).
  - discriminate.
  - reflexivity.
Defined.

(** ** Required and optional fields of the narrative reports *)

Lemma item_fmt_ok (fmt : json -> result string) (d : list (string * json)) (key text : string) :
  item_fmt fmt (JDict d) key = Ok text -> exists v, lookup key d = Some v /\ fmt v = Ok text.
Proof.
  unfold item_fmt, py_getitem. destruct (lookup key d) as [v|]; [|discriminate].
  cbn [bind]. intros H. exists v. auto.
Qed.

(** X27. A holding is rendered only if it has its seven fields [asset],
    [quantity], [currentPrice], [currentValue], [costBasis], [pnl] and
    [pnlPercent]: the defaults the code gives [pnl] and [change7dPercent]
    help the second only, since [pnl] is read again without one.  A
    rendered holding is a block of eight lines, from its heading to an
    empty line. *)
Theorem holding_needs_seven_fields (h : list (string * json)) (block : list string) :
  holding_lines (JDict h) = Ok block ->
  Forall (fun key => lookup key h <> None)
    ["asset"; "quantity"; "currentPrice"; "currentValue"; "costBasis"; "pnl"; "pnlPercent"]
  /\ List.length block = 8%nat
  /\ List.hd "" block = "### " ++ py_str (get_or h "asset" JNull)
  /\ List.last block "?" = "".
Proof.
  unfold holding_lines. intros H.
  apply bind_ok in H. destruct H as (pnl & _ & H).
  apply bind_ok in H. destruct H as (up & _ & H).
  apply bind_ok in H. destruct H as (asset & A & H).
  apply bind_ok in H. destruct H as (q & Q & H).
  apply bind_ok in H. destruct H as (p & P & H).
  apply bind_ok in H. destruct H as (v & V & H).
  apply bind_ok in H. destruct H as (c & C & H).
  apply bind_ok in H. destruct H as (u & U & H).
  apply bind_ok in H. destruct H as (pct & X & H).
  apply bind_ok in H. destruct H as (change & _ & H).
  inversion H. subst block. clear H.
  apply item_fmt_ok in Q, P, V, C, U, X.
  destruct Q as (? & Q & _), P as (? & P & _), V as (? & V & _), C as (? & C & _),
    U as (? & U & _), X as (? & X & _).
  cbn [py_getitem] in A. unfold get_or.
  destruct (lookup "asset" h) as [a|] eqn:E; [|discriminate A]. inversion A. subst a.
  split; [|split; [|split]]; try reflexivity.
  repeat constructor; congruence.
Qed.

Lemma holding_needs_seven_fields_witness :
  Forall (fun key =>
            lookup key
              [("asset", JStr "BTC"); ("quantity", JInt 2); ("currentPrice", JInt 97000);
               ("currentValue", JInt 194000); ("costBasis", JInt 120000);
               ("pnl", JInt 74000); ("pnlPercent", JInt 61)] <> None)
    ["asset"; "quantity"; "currentPrice"; "currentValue"; "costBasis"; "pnl"; "pnlPercent"]
  /\ List.length
       [ "### BTC"; "- Quantity: 2.0000"; "- Price: $97,000.00"; "- Value: $194,000.00";
         "- Cost Basis: $120,000.00"; "- P&L: +$74,000.00 (+61.00%)";
         "- 7d Change: +0.00%"; "" ] = 8%nat
  /\ List.hd ""
       [ "### BTC"; "- Quantity: 2.0000"; "- Price: $97,000.00"; "- Value: $194,000.00";
         "- Cost Basis: $120,000.00"; "- P&L: +$74,000.00 (+61.00%)";
         "- 7d Change: +0.00%"; "" ]
     = "### " ++ py_str (get_or [("asset", JStr "BTC"); ("quantity", JInt 2);
                                 ("currentPrice", JInt 97000);
                                 ("currentValue", JInt 194000); ("costBasis", JInt 120000);
                                 ("pnl", JInt 74000); ("pnlPercent", JInt 61)]
                           "asset" JNull)
  /\ List.last
       [ "### BTC"; "- Quantity: 2.0000"; "- Price: $97,000.00"; "- Value: $194,000.00";
         "- Cost Basis: $120,000.00"; "- P&L: +$74,000.00 (+61.00%)";
         "- 7d Change: +0.00%"; "" ] "?" = "".
Proof.
  apply (holding_needs_seven_fields
           [("asset", JStr "BTC"); ("quantity", JInt 2); ("currentPrice", JInt 97000);
            ("currentValue", JInt 194000); ("costBasis", JInt 120000);
            ("pnl", JInt 74000); ("pnlPercent", JInt 61)]).
  vm_compute. reflexivity.
Defined.

(** X28. Of the fields of a transaction only [id] is required by the
    narrative list: a transaction that has nothing else is rendered with
    an empty date, the kind [?], no quantity ([0.00000000]) of the asset
    [?], no fees and no notes; its kind not being [Swap] or [Deposit], it
    reads as a withdrawal. *)
Theorem transaction_needs_only_its_id (d : list (string * json)) (id : json) :
  lookup "id" d = Some id ->
  Forall (fun key => lookup key d = None)
    ["datetime"; "type"; "toQuantity"; "toAsset"; "feesUsd"; "notes"] ->
  transaction_line (JDict d)
  = Ok ("- **** [?] Withdraw 0.00000000 ? (ID: " ++ py_str id ++ ")").
Proof.
  intros I F.
  inversion F as [|? ? Hdt F1]; subst. inversion F1 as [|? ? Hty F2]; subst.
  inversion F2 as [|? ? Hq F3]; subst. inversion F3 as [|? ? Ha F4]; subst.
  inversion F4 as [|? ? Hf F5]; subst. inversion F5 as [|? ? Hn _]; subst.
  unfold transaction_line. cbn [py_get bind]. rewrite Hdt, Hty.
  cbn [py_slice_to take bind]. unfold transaction_desc.
  cbn [py_eq_str String.eqb Ascii.eqb Bool.eqb]. cbv iota.
  unfold get_fmt. cbn [py_get bind]. rewrite Hq, Ha, Hf, Hn.
  change (_fmt_qty (JInt 0)) with (@Ok string "0.00000000").
  cbn [bind py_truthy py_getitem]. rewrite I. reflexivity.
Qed.

Lemma transaction_needs_only_its_id_witness :
  transaction_line (JDict [("id", JInt 7); ("fromAsset", JStr "ETH")])
  = Ok "- **** [?] Withdraw 0.00000000 ? (ID: 7)".
Proof.
  apply (transaction_needs_only_its_id [("id", JInt 7); ("fromAsset", JStr "ETH")] (JInt 7)).
  - reflexivity.
  - repeat constructor.
Defined.
